(** * MicromegasRawDataEvaluation: BCO matching, peak extraction, aggregation

    A shallow embedding of [MicromegasRawDataEvaluation::process_event] and
    [MicromegasRawDataEvaluation::End] (MicromegasRawDataEvaluation.cc).

    Integers are [Z] with the C++ conversions written out, [double] is the
    kernel's binary64 [float], [std::map] is [gmap], [std::set] is [gset] and
    [std::multimap] is a key-ordered association list whose [emplace] inserts
    at the upper bound of the key. *)

From Stdlib Require Import ZArith Floats Uint63 Sorted.
From stdpp Require Import gmap list sorting strings.

Local Open Scope Z_scope.

(** ** Integer conversions *)

Definition to_uint8 (v : Z) : Z := v mod 2 ^ 8.
Definition to_uint16 (v : Z) : Z := v mod 2 ^ 16.
Definition to_uint32 (v : Z) : Z := v mod 2 ^ 32.
Definition to_uint64 (v : Z) : Z := v mod 2 ^ 64.

(** Conversion of a small unsigned integer to [double] (exact below 2^53). *)
Definition to_double (v : Z) : float := PrimFloat.of_uint63 (Uint63.of_Z v).

(** ** [get_bco_diff]: the difference between two BCO *)

Definition get_bco_diff (first second : Z) : Z :=
  if first <? second then second - first else first - second.

(** [static constexpr unsigned int max_fee_bco_diff = 10;] *)
Definition max_fee_bco_diff : Z := 10.

(** ** Records of MicromegasRawDataEvaluation.h *)

(** Modelled from the spec: the class [Sample] is declared in the header,
    which is not part of the sources at hand.  The fields are those the
    implementation file assigns; a default-constructed [Sample] is
    zero-initialized. *)
Record Sample := mkSample {
  s_packet_id : Z;
  s_lvl1_bco : Z;
  s_fee_bco : Z;
  s_lvl1_bco_masked : Z;
  s_checksum : Z;
  s_checksum_error : Z;
  s_fee_id : Z;
  s_layer : Z;
  s_tile : Z;
  s_sampa_address : Z;
  s_sampa_channel : Z;
  s_channel : Z;
  s_strip : Z;
  s_sample : Z;
  s_adc : Z;
  s_pedestal : float;
  s_rms : float
}.

Definition Sample_default : Sample :=
  mkSample 0 0 0 0 0 0 0 0 0 0 0 0 0 0 0 PrimFloat.zero PrimFloat.zero.

(** Modelled from the spec: the class [Waveform] of the absent header, a
    projection of a [Sample] plus [is_signal] (default [false]). *)
Record Waveform := mkWaveform {
  w_packet_id : Z;
  w_lvl1_bco : Z;
  w_fee_bco : Z;
  w_checksum : Z;
  w_checksum_error : Z;
  w_fee_id : Z;
  w_layer : Z;
  w_tile : Z;
  w_sampa_address : Z;
  w_sampa_channel : Z;
  w_channel : Z;
  w_strip : Z;
  w_sample_max : Z;
  w_adc_max : Z;
  w_pedestal : float;
  w_rms : float;
  w_is_signal : bool
}.

(** [Waveform::copy_from], applied to a fresh [Waveform]. *)
Definition copy_from (sample : Sample) : Waveform :=
  {| w_packet_id := s_packet_id sample;
     w_lvl1_bco := s_lvl1_bco sample;
     w_fee_bco := s_fee_bco sample;
     w_checksum := s_checksum sample;
     w_checksum_error := s_checksum_error sample;
     w_fee_id := s_fee_id sample;
     w_layer := s_layer sample;
     w_tile := s_tile sample;
     w_sampa_address := s_sampa_address sample;
     w_sampa_channel := s_sampa_channel sample;
     w_channel := s_channel sample;
     w_strip := s_strip sample;
     w_sample_max := s_sample sample;
     w_adc_max := s_adc sample;
     w_pedestal := s_pedestal sample;
     w_rms := s_rms sample;
     w_is_signal := false |}.

Definition with_is_signal (b : bool) (w : Waveform) : Waveform :=
  mkWaveform (w_packet_id w) (w_lvl1_bco w) (w_fee_bco w) (w_checksum w)
    (w_checksum_error w) (w_fee_id w) (w_layer w) (w_tile w)
    (w_sampa_address w) (w_sampa_channel w) (w_channel w) (w_strip w)
    (w_sample_max w) (w_adc_max w) (w_pedestal w) (w_rms w) b.

Record TaggerInformation := mkTagger {
  t_packet_id : Z;
  t_tagger_type : Z;
  t_is_lvl1 : Z;
  t_is_endat : Z;
  t_bco : Z;
  t_last_bco : Z;
  t_lvl1_count : Z;
  t_endat_count : Z
}.

Record Container := mkContainer {
  samples : list Sample;
  waveforms : list Waveform;
  taggers : list TaggerInformation
}.

(** [Container::Reset] *)
Definition Container_Reset (c : Container) : Container := mkContainer [] [] [].

(** ** Field assignments on the running sample *)

(** [sample.lvl1_bco = v; sample.lvl1_bco_masked = (v & 0xFFFFFU);] *)
Definition assign_lvl1_bco (v : Z) (s : Sample) : Sample :=
  mkSample (s_packet_id s) v (s_fee_bco s) (Z.land v 0xFFFFF)
    (s_checksum s) (s_checksum_error s) (s_fee_id s) (s_layer s) (s_tile s)
    (s_sampa_address s) (s_sampa_channel s) (s_channel s) (s_strip s)
    (s_sample s) (s_adc s) (s_pedestal s) (s_rms s).

(** [sample.checksum = c; sample.checksum_error = e;] *)
Definition assign_checksum (c e : Z) (s : Sample) : Sample :=
  mkSample (s_packet_id s) (s_lvl1_bco s) (s_fee_bco s) (s_lvl1_bco_masked s)
    c e (s_fee_id s) (s_layer s) (s_tile s)
    (s_sampa_address s) (s_sampa_channel s) (s_channel s) (s_strip s)
    (s_sample s) (s_adc s) (s_pedestal s) (s_rms s).

(** sampa address and channel, strip, pedestal and rms *)
Definition assign_channel_data (addr chan strip : Z) (pedestal rms : float)
    (s : Sample) : Sample :=
  mkSample (s_packet_id s) (s_lvl1_bco s) (s_fee_bco s) (s_lvl1_bco_masked s)
    (s_checksum s) (s_checksum_error s) (s_fee_id s) (s_layer s) (s_tile s)
    addr chan (s_channel s) strip
    (s_sample s) (s_adc s) pedestal rms.

(** [sample.sample = is; sample.adc = adc;] ([is_] stands for [is]) *)
Definition assign_adc (is_ adc : Z) (s : Sample) : Sample :=
  mkSample (s_packet_id s) (s_lvl1_bco s) (s_fee_bco s) (s_lvl1_bco_masked s)
    (s_checksum s) (s_checksum_error s) (s_fee_id s) (s_layer s) (s_tile s)
    (s_sampa_address s) (s_sampa_channel s) (s_channel s) (s_strip s)
    is_ adc (s_pedestal s) (s_rms s).

(** ** [std::multimap<uint64_t, V>] *)

Module multimap.

(** The entries in iteration order, keys ascending. *)
Definition t (V : Type) : Type := list (Z * V).

(** [emplace(k, v)]: the new entry goes to the upper bound of [k], that is
    after every entry whose key is not greater than [k]. *)
Fixpoint emplace {V : Type} (k : Z) (v : V) (m : t V) : t V :=
  match m with
  | [] => [(k, v)]
  | (k', v') :: m' =>
      if k <? k' then (k, v) :: m else (k', v') :: emplace k v m'
  end.

(** The mapped values in iteration order: what a range-for over the
    multimap visits. *)
Definition values {V : Type} (m : t V) : list V := map snd m.

Definition key_le {V : Type} (a b : Z * V) : Prop := a.1 ≤ b.1.

End multimap.

(** ** The packet and the event, as the decoder hands them over *)

(** One row of the tagger table: the values [lValue(t, "...")]. *)
Record TaggerRow := mkTaggerRow {
  TAGGER_TYPE : Z;
  IS_LEVEL1_TRIGGER : Z;
  IS_ENDAT : Z;
  BCO_TAG : Z;
  LAST_BCO : Z;
  LEVEL1_COUNT : Z;
  ENDAT_COUNT : Z
}.

(** One row of the waveform table: the values [iValue(iwf, "...")], and
    [ADC k] for [iValue(iwf, k)]. *)
Record WaveformRow := mkWaveformRow {
  FEE : Z;
  CHANNEL : Z;
  BCO : Z;
  CHECKSUM : Z;
  CHECKSUMERROR : Z;
  SAMPAADDRESS : Z;
  SAMPACHANNEL : Z;
  SAMPLES : Z;
  ADC : Z → Z
}.

(** A packet: its tagger table ([N_TAGGER] rows) and its waveform table
    ([NR_WF] rows). *)
Record Packet := mkPacket {
  tagger_rows : list TaggerRow;
  waveform_rows : list WaveformRow
}.

Record Event := mkEvent {
  getEvtType : Z;
  getPacket : Z → option Packet
}.

(** ** Constants and collaborators declared outside the implementation file *)

(** Constants of MicromegasDefs.h and the flag values of the class header,
    neither of which is part of the sources at hand: they are parameters. *)
Record Constants := mkConstants {
  m_packet_ids : list Z;
  m_nchannels_fee : Z;
  m_adc_invalid : Z;
  EvalSample : Z;
  EvalWaveform : Z;
  EvalTagger : Z
}.

(** The mapping and the calibration data. *)
Record Collaborators := mkCollaborators {
  get_hitsetkey : Z → Z;
  getLayer : Z → Z;
  getTileId : Z → Z;
  get_physical_strip : Z → Z → Z;
  get_pedestal : Z → Z → float;
  get_rms : Z → Z → float
}.

(** Run configuration held in data members, and [Verbosity()].
    Modelled from the spec: the members are declared in the absent header;
    the thresholds compared with a [double] are [double], the sample window
    is integral. *)
Record Config := mkConfig {
  m_flags : Z;
  m_n_sigma : float;
  m_min_adc : float;
  m_sample_min : Z;
  m_sample_max : Z;
  Verbosity : Z
}.

(** ** Diagnostics written to [std::cout] *)

Inductive Message :=
  | MsgPacketNotFound (packet_id : Z)
  | MsgPacket (packet_id n_tagger n_lvl1_bco n_waveform : Z)
  | MsgPacketBco (packet_id : Z) (bco : list Z)
  | MsgInvalidChannel (channel : Z)
  | MsgMatch (fee_id fee_bco gtm_bco : Z)
  | MsgOrphan (fee_id fee_bco : Z)
  | MsgWaveform (sample : Sample) (nsamples : Z)
  | MsgEndBco (bco : Z) (nwaveforms : N)
  | MsgEndBcoList (bcos : list Z).

(** ** The evaluation file

    [TFile] and [TTree] belong to ROOT and are not part of these sources; they
    are modelled by the calls the source makes on them.  A file is the trees
    written to it, each with the entries it had when it was written, and
    whether the file is open. *)
Record TFile := mkTFile {
  file_trees : list (list Container);
  file_open : bool
}.

(** [new TFile(name, "RECREATE")]: an empty file, open. *)
Definition TFile_recreate : TFile := mkTFile [] true.

(** [tree->Write()] after [file->cd()]: an open file receives the tree. *)
Definition TTree_Write (tree : list Container) (file : TFile) : TFile :=
  if file_open file then mkTFile (file_trees file ++ [tree]) true else file.

(** [file->Close()] *)
Definition TFile_Close (file : TFile) : TFile :=
  mkTFile (file_trees file) false.

(** ** The state *)

(** The data members ([m_container], [m_fee_bco_matching_map], [m_bco_map],
    the evaluation tree, the evaluation file, a null pointer being [None]),
    the output stream, the locals of one event
    ([sample_map], [waveform_map]) and the locals of one packet
    ([bco_list_map], [orphans]).  A local is set to its empty value where the
    source declares it.

    Modelled from the spec: [m_bco_map] is declared in the absent header; it
    maps a global timestamp to a count, here an unbounded natural number. *)
Record State := mkState {
  m_container : Container;
  m_fee_bco_matching_map : gmap Z (Z * Z);
  m_bco_map : gmap Z N;
  m_evaluation_tree : list Container;
  cout : list Message;
  sample_map : multimap.t Sample;
  waveform_map : multimap.t Waveform;
  bco_list_map : gmap Z (list Z);
  orphans : gset (Z * Z);
  m_evaluation_file : option TFile
}.

Definition with_container (c : Container) (st : State) : State :=
  mkState c (m_fee_bco_matching_map st) (m_bco_map st) (m_evaluation_tree st)
    (cout st) (sample_map st) (waveform_map st) (bco_list_map st) (orphans st)
    (m_evaluation_file st).

Definition with_fee_bco_matching_map (m : gmap Z (Z * Z)) (st : State) : State :=
  mkState (m_container st) m (m_bco_map st) (m_evaluation_tree st)
    (cout st) (sample_map st) (waveform_map st) (bco_list_map st) (orphans st)
    (m_evaluation_file st).

Definition with_bco_map (m : gmap Z N) (st : State) : State :=
  mkState (m_container st) (m_fee_bco_matching_map st) m (m_evaluation_tree st)
    (cout st) (sample_map st) (waveform_map st) (bco_list_map st) (orphans st)
    (m_evaluation_file st).

Definition with_evaluation_tree (t : list Container) (st : State) : State :=
  mkState (m_container st) (m_fee_bco_matching_map st) (m_bco_map st) t
    (cout st) (sample_map st) (waveform_map st) (bco_list_map st) (orphans st)
    (m_evaluation_file st).

Definition print (msg : Message) (st : State) : State :=
  mkState (m_container st) (m_fee_bco_matching_map st) (m_bco_map st)
    (m_evaluation_tree st) (cout st ++ [msg])
    (sample_map st) (waveform_map st) (bco_list_map st) (orphans st)
    (m_evaluation_file st).

Definition with_sample_map (m : multimap.t Sample) (st : State) : State :=
  mkState (m_container st) (m_fee_bco_matching_map st) (m_bco_map st)
    (m_evaluation_tree st) (cout st) m (waveform_map st) (bco_list_map st)
    (orphans st)
    (m_evaluation_file st).

Definition with_waveform_map (m : multimap.t Waveform) (st : State) : State :=
  mkState (m_container st) (m_fee_bco_matching_map st) (m_bco_map st)
    (m_evaluation_tree st) (cout st) (sample_map st) m (bco_list_map st)
    (orphans st)
    (m_evaluation_file st).

Definition with_bco_list_map (m : gmap Z (list Z)) (st : State) : State :=
  mkState (m_container st) (m_fee_bco_matching_map st) (m_bco_map st)
    (m_evaluation_tree st) (cout st) (sample_map st) (waveform_map st) m
    (orphans st)
    (m_evaluation_file st).

Definition with_orphans (o : gset (Z * Z)) (st : State) : State :=
  mkState (m_container st) (m_fee_bco_matching_map st) (m_bco_map st)
    (m_evaluation_tree st) (cout st) (sample_map st) (waveform_map st)
    (bco_list_map st) o (m_evaluation_file st).

Definition with_evaluation_file (f : option TFile) (st : State) : State :=
  mkState (m_container st) (m_fee_bco_matching_map st) (m_bco_map st)
    (m_evaluation_tree st) (cout st) (sample_map st) (waveform_map st)
    (bco_list_map st) (orphans st) f.

(** The state after construction and [Init]: an empty container, empty maps,
    an empty tree and the evaluation file, recreated and open. *)
Definition initial_state : State :=
  mkState (mkContainer [] [] []) ∅ ∅ [] [] [] [] ∅ ∅ (Some TFile_recreate).

(** ** BCO matching (the block of [process_event] that finds the lvl1 bco) *)

(** [m_fee_bco_matching_map[fee_id]]: the pair stored for the fee; a missing
    entry is first created, value-initialized. *)
Definition matching_pair_at (fee_id : Z) (m : gmap Z (Z * Z))
    : (Z * Z) * gmap Z (Z * Z) :=
  match m !! fee_id with
  | Some p => (p, m)
  | None => ((0, 0), <[fee_id := (0, 0)]> m)
  end.

(** [lower_bound] on [bco_list_map], and insertion of a copy of
    [main_bco_list] when the fee has no list yet. *)
Definition bco_list_at (main_bco_list : list Z) (fee_id : Z)
    (m : gmap Z (list Z)) : list Z * gmap Z (list Z) :=
  match m !! fee_id with
  | Some l => (l, m)
  | None => (main_bco_list, <[fee_id := main_bco_list]> m)
  end.

(** [orphans.insert(p)]: the set with [p], and [.second], whether [p] was
    inserted. *)
Definition orphans_insert (p : Z * Z) (o : gset (Z * Z)) : gset (Z * Z) * bool :=
  ({[ p ]} ∪ o, bool_decide (p ∉ o)).

Section Matching.
Variable cfg : Config.
Variable main_bco_list : list Z.

Definition verbose : bool := negb (Verbosity cfg =? 0).

Definition print_if (b : bool) (msg : Message) (st : State) : State :=
  if b then print msg st else st.

(** The block "find bco matching map corresponding to fee ... find matching
    lvl1 bco" of the waveform loop: the lvl1 bco found for ([fee_id],
    [fee_bco]), if any, and the state after the search.  The caller assigns
    the lvl1 bco found to the running sample. *)
Definition match_bco (fee_id fee_bco : Z) (st : State) : option Z * State :=
  let '(bco_matching_pair, fee_map) :=
    matching_pair_at fee_id (m_fee_bco_matching_map st) in
  let st := with_fee_bco_matching_map fee_map st in
  if get_bco_diff fee_bco bco_matching_pair.1 <? max_fee_bco_diff then
    (Some bco_matching_pair.2, st)
  else
    let '(bco_list, list_map) :=
      bco_list_at main_bco_list fee_id (bco_list_map st) in
    let st := with_bco_list_map list_map st in
    match bco_list with
    | lvl1_bco :: rest =>
        let st := print_if verbose (MsgMatch fee_id fee_bco lvl1_bco) st in
        let st := with_fee_bco_matching_map
                    (<[fee_id := (fee_bco, lvl1_bco)]> fee_map) st in
        (Some lvl1_bco, with_bco_list_map (<[fee_id := rest]> list_map) st)
    | [] =>
        if verbose then
          let '(o, inserted) := orphans_insert (fee_id, fee_bco) (orphans st) in
          (None, print_if inserted (MsgOrphan fee_id fee_bco) (with_orphans o st))
        else (None, st)
    end.

(** The cached pair of a fee, as a lookup would read it. *)
Definition matching_pair (st : State) (fee_id : Z) : Z * Z :=
  default (0, 0) (m_fee_bco_matching_map st !! fee_id).

(** The list of lvl1 bco still available to a fee: its own list once it has
    one, the packet's list before. *)
Definition queue_of (st : State) (fee_id : Z) : list Z :=
  default main_bco_list (bco_list_map st !! fee_id).

(** Whether [fee_bco] is within tolerance of the pair cached for the fee. *)
Definition within_tolerance (st : State) (fee_id fee_bco : Z) : bool :=
  get_bco_diff fee_bco (matching_pair st fee_id).1 <? max_fee_bco_diff.

End Matching.

(** ** [process_event] *)

Inductive ReturnCode := EVENT_OK | DISCARDEVENT.

(** The key order of [m_bco_map]. *)
Definition entry_le (a b : Z * N) : Prop := a.1 ≤ b.1.

#[global] Instance entry_le_dec : RelDecision entry_le :=
  λ a b, decide (a.1 ≤ b.1).

Section Engine.
Variable K : Constants.
Variable X : Collaborators.
Variable cfg : Config.

(** [m_flags & f] read as a condition *)
Definition flag_set (f : Z) : bool := negb (Z.land (m_flags cfg) f =? 0).

(** *** The sample loop of one waveform *)

(** [const uint16_t adc = packet->iValue(iwf, is);] *)
Definition adc_at (row : WaveformRow) (is_ : Z) : Z := to_uint16 (ADC row is_).

(** One turn of the loop over [is].  The loop state is the running
    [sample], [sample_max] and [sample_map]. *)
Definition scan_step (row : WaveformRow)
    (acc : Sample * Sample * multimap.t Sample) (is_ : Z)
    : Sample * Sample * multimap.t Sample :=
  let '(sample, sample_max, smap) := acc in
  let adc := adc_at row is_ in
  if adc =? m_adc_invalid K then acc
  else
    let sample := assign_adc is_ adc sample in
    let smap := multimap.emplace (s_lvl1_bco sample) sample smap in
    if s_adc sample_max <? s_adc sample
    then (sample, sample, smap)
    else (sample, sample_max, smap).

(** [std::min<unsigned short>(samples, 1024)] *)
Definition scan_bound (row : WaveformRow) : Z :=
  Z.min (to_uint16 (SAMPLES row)) 1024.

(** [Sample sample_max; for (unsigned short is = 0; is < ...; ++is) ...] *)
Definition scan_samples (row : WaveformRow) (sample : Sample)
    (smap : multimap.t Sample) : Sample * Sample * multimap.t Sample :=
  fold_left (scan_step row) (seqZ 0 (scan_bound row))
    (sample, Sample_default, smap).

(** The peak of a waveform: [sample_max] after the loop. *)
Definition peak (row : WaveformRow) (sample : Sample) : Sample :=
  (scan_samples row sample []).1.2.

(** *** Signal classification *)

Definition is_signal (pedestal rms : float) (waveform : Waveform) : bool :=
  PrimFloat.ltb PrimFloat.zero rms
  && PrimFloat.leb (m_min_adc cfg) (to_double (w_adc_max waveform))
  && (m_sample_min cfg <=? w_sample_max waveform)
  && (w_sample_max waveform <? m_sample_max cfg)
  && PrimFloat.ltb
       (PrimFloat.add pedestal (PrimFloat.mul (m_n_sigma cfg) rms))
       (to_double (w_adc_max waveform)).

(** [Waveform waveform(sample_max); waveform.is_signal = ...;]: the
    constructor copies the sample with [copy_from]; [pedestal] and [rms] are
    the calibration values of the channel. *)
Definition make_waveform (pedestal rms : float) (sample_max : Sample)
    : Waveform :=
  let waveform := copy_from sample_max in
  with_is_signal (is_signal pedestal rms waveform) waveform.

(** *** One waveform *)

(** The running sample up to the bound check: packet, fee, layer, tile and
    channel are set, the rest is as default-constructed.  The fee is an
    [unsigned short], as the key of [bco_list_map] is; so is the channel. *)
Definition new_sample (packet_id : Z) (row : WaveformRow) : Sample :=
  let fee_id := to_uint16 (FEE row) in
  let hitsetkey := get_hitsetkey X fee_id in
  mkSample packet_id 0 0 0 0 0 fee_id
    (getLayer X hitsetkey) (getTileId X hitsetkey)
    0 0 (to_uint16 (CHANNEL row)) 0 0 0 PrimFloat.zero PrimFloat.zero.

(** [sample.fee_bco = ...; sample.lvl1_bco = 0; sample.lvl1_bco_masked = 0;] *)
Definition assign_fee_bco (fee_bco : Z) (s : Sample) : Sample :=
  mkSample (s_packet_id s) 0 fee_bco 0
    (s_checksum s) (s_checksum_error s) (s_fee_id s) (s_layer s) (s_tile s)
    (s_sampa_address s) (s_sampa_channel s) (s_channel s) (s_strip s)
    (s_sample s) (s_adc s) (s_pedestal s) (s_rms s).

Definition channel_valid (row : WaveformRow) : bool :=
  to_uint16 (CHANNEL row) <? m_nchannels_fee K.

(** Beam crossing: the fee bco is read and the lvl1 bco is searched; a
    sample without a match keeps [lvl1_bco = 0]. *)
Definition correlate (main_bco_list : list Z) (row : WaveformRow)
    (sample : Sample) (st : State) : Sample * State :=
  let sample := assign_fee_bco (to_uint32 (BCO row)) sample in
  let '(found, st) :=
    match_bco cfg main_bco_list (s_fee_id sample) (s_fee_bco sample) st in
  match found with
  | Some lvl1_bco => (assign_lvl1_bco lvl1_bco sample, st)
  | None => (sample, st)
  end.

(** [++m_bco_map[bco]] *)
Definition increment (bco : Z) (m : gmap Z N) : gmap Z N :=
  <[bco := (default 0%N (m !! bco) + 1)%N]> m.

(** The running sample when the sample loop starts. *)
Definition complete_sample (row : WaveformRow) (sample : Sample) : Sample :=
  let sample := assign_checksum (CHECKSUM row) (CHECKSUMERROR row) sample in
  assign_channel_data (SAMPAADDRESS row) (SAMPACHANNEL row)
    (get_physical_strip X (s_fee_id sample) (s_channel sample))
    (get_pedestal X (s_fee_id sample) (s_channel sample))
    (get_rms X (s_fee_id sample) (s_channel sample))
    sample.

(** The body of the loop over [iwf]. *)
Definition process_waveform (packet_id : Z) (main_bco_list : list Z)
    (st : State) (row : WaveformRow) : State :=
  let sample := new_sample packet_id row in
  if negb (channel_valid row) then
    print_if (verbose cfg) (MsgInvalidChannel (s_channel sample)) st
  else
    let '(sample, st) := correlate main_bco_list row sample st in
    let st := with_bco_map (increment (s_lvl1_bco sample) (m_bco_map st)) st in
    let sample := complete_sample row sample in
    let st := print_if (1 <? Verbosity cfg)
                (MsgWaveform sample (to_uint16 (SAMPLES row))) st in
    let '(_, sample_max, smap) := scan_samples row sample (sample_map st) in
    let st := with_sample_map smap st in
    if flag_set (EvalWaveform K) then
      let waveform :=
        make_waveform (s_pedestal sample) (s_rms sample) sample_max in
      with_waveform_map
        (multimap.emplace (w_lvl1_bco waveform) waveform (waveform_map st)) st
    else st.

(** *** One packet *)

Definition read_tagger (packet_id : Z) (r : TaggerRow) : TaggerInformation :=
  {| t_packet_id := packet_id;
     t_tagger_type := to_uint16 (TAGGER_TYPE r);
     t_is_lvl1 := to_uint8 (IS_LEVEL1_TRIGGER r);
     t_is_endat := to_uint8 (IS_ENDAT r);
     t_bco := to_uint64 (BCO_TAG r);
     t_last_bco := to_uint64 (LAST_BCO r);
     t_lvl1_count := to_uint32 (LEVEL1_COUNT r);
     t_endat_count := to_uint32 (ENDAT_COUNT r) |}.

Definition push_tagger (tagger : TaggerInformation) (st : State) : State :=
  with_container
    (mkContainer (samples (m_container st)) (waveforms (m_container st))
       (taggers (m_container st) ++ [tagger])) st.

Definition eval_data : bool :=
  flag_set (Z.lor (EvalSample K) (EvalWaveform K)).

(** The body of the loop over the taggers; the loop state is
    [main_bco_list] and the engine. *)
Definition tagger_step (packet_id : Z) (acc : list Z * State) (r : TaggerRow)
    : list Z * State :=
  let '(main_bco_list, st) := acc in
  let tagger := read_tagger packet_id r in
  let st := if flag_set (EvalTagger K) then push_tagger tagger st else st in
  if negb (t_is_lvl1 tagger =? 0) && eval_data
  then (main_bco_list ++ [t_bco tagger], st)
  else (main_bco_list, st).

Definition collect_taggers (packet_id : Z) (packet : Packet) (st : State)
    : list Z * State :=
  fold_left (tagger_step packet_id) (tagger_rows packet) ([], st).

Definition print_packet (packet_id : Z) (packet : Packet)
    (main_bco_list : list Z) (st : State) : State :=
  if verbose cfg then
    let st := print (MsgPacket packet_id (Z.of_nat (length (tagger_rows packet)))
                       (Z.of_nat (length main_bco_list))
                       (Z.of_nat (length (waveform_rows packet)))) st in
    match main_bco_list with
    | [] => st
    | _ => print (MsgPacketBco packet_id main_bco_list) st
    end
  else st.

(** The waveform loop, entered with a fresh [bco_list_map] and fresh
    [orphans]. *)
Definition waveform_loop (packet_id : Z) (main_bco_list : list Z)
    (rows : list WaveformRow) (st : State) : State :=
  fold_left (process_waveform packet_id main_bco_list) rows st.

Definition enter_waveforms (st : State) : State :=
  with_orphans ∅ (with_bco_list_map ∅ st).

Definition process_packet (packet_id : Z) (packet : Packet) (st : State)
    : State :=
  let '(main_bco_list, st) := collect_taggers packet_id packet st in
  let st := print_packet packet_id packet main_bco_list st in
  if eval_data then
    waveform_loop packet_id main_bco_list (waveform_rows packet)
      (enter_waveforms st)
  else st.

(** *** One event *)

(** The body of the loop over [MicromegasDefs::m_packet_ids]. *)
Definition packet_step (event : Event) (st : State) (packet_id : Z) : State :=
  match getPacket event packet_id with
  | None => print_if (1 <? Verbosity cfg) (MsgPacketNotFound packet_id) st
  | Some packet => process_packet packet_id packet st
  end.

Definition packet_loop (event : Event) (st : State) : State :=
  fold_left (packet_step event) (m_packet_ids K) st.

(** [m_container->Reset()] and the declaration of the two temporary maps. *)
Definition enter_event (st : State) : State :=
  with_waveform_map []
    (with_sample_map [] (with_container (Container_Reset (m_container st)) st)).

(** Copy of the samples to the container. *)
Definition copy_samples (st : State) : State :=
  if flag_set (EvalSample K) then
    with_container
      (mkContainer
         (samples (m_container st) ++ multimap.values (sample_map st))
         (waveforms (m_container st)) (taggers (m_container st))) st
  else st.

(** Copy of the waveforms to the container. *)
Definition copy_waveforms (st : State) : State :=
  if flag_set (EvalWaveform K) then
    with_container
      (mkContainer (samples (m_container st))
         (waveforms (m_container st) ++ multimap.values (waveform_map st))
         (taggers (m_container st))) st
  else st.

(** [m_evaluation_tree->Fill()]: the tree receives the container as it is. *)
Definition fill_tree (st : State) : State :=
  with_evaluation_tree (m_evaluation_tree st ++ [m_container st]) st.

Definition process_event (event : Event) (st : State) : ReturnCode * State :=
  if 8 <=? getEvtType event then (DISCARDEVENT, st)
  else
    let st := enter_event st in
    let st := packet_loop event st in
    let st := copy_samples st in
    let st := copy_waveforms st in
    (EVENT_OK, fill_tree st).

(** The events of a run, one after the other. *)
Definition run (events : list Event) (st : State) : State :=
  fold_left (λ st event, (process_event event st).2) events st.

(** *** [End] *)

(** The entries of [m_bco_map] in key order, as the range-for visits them. *)
Definition bco_entries (m : gmap Z N) : list (Z * N) :=
  merge_sort entry_le (map_to_list m).

(** The first block of [End]: the tree is written to the evaluation file and
    the file is closed, whatever the verbosity.  The tree is an object of
    its own in every state (as [process_event] assumes when it fills it), so
    the condition is on the file. *)
Definition write_evaluation (st : State) : State :=
  match m_evaluation_file st with
  | Some file =>
      let file := TTree_Write (m_evaluation_tree st) file in
      with_evaluation_file (Some (TFile_Close file)) st
  | None => st
  end.

Definition End_run (st : State) : State :=
  let st := write_evaluation st in
  if verbose cfg then
    let entries := bco_entries (m_bco_map st) in
    let st := fold_left (λ st e, print (MsgEndBco e.1 e.2) st) entries st in
    print (MsgEndBcoList (map fst entries)) st
  else st.

End Engine.


(** ** Quantities the properties are stated with *)

Section Observations.
Variable K : Constants.
Variable X : Collaborators.
Variable cfg : Config.
Variable packet_id : Z.
Variable main_bco_list : list Z.

(** The fee and the fee bco a waveform row is matched with. *)
Definition row_fee (row : WaveformRow) : Z := to_uint16 (FEE row).
Definition row_bco (row : WaveformRow) : Z := to_uint32 (BCO row).

(** The running sample of a row when its sample loop starts. *)
Definition running_sample (st : State) (row : WaveformRow) : Sample :=
  complete_sample X row
    (correlate cfg main_bco_list row (new_sample X packet_id row) st).1.

(** The lvl1 bco a row is given: the one found, or 0. *)
Definition assigned_bco (st : State) (row : WaveformRow) : Z :=
  s_lvl1_bco (running_sample st row).

(** The lvl1 bco given to the rows of a waveform loop, in the order of the
    rows; a row with an invalid channel is given none. *)
Fixpoint assigned_bcos (rows : list WaveformRow) (st : State) : list Z :=
  match rows with
  | [] => []
  | row :: rows =>
      (if channel_valid K row then [assigned_bco st row] else [])
      ++ assigned_bcos rows
           (process_waveform K X cfg packet_id main_bco_list st row)
  end.

(** The number of rows of a waveform loop that are matched for the fee
    [fee_id] and fall outside tolerance when their turn comes. *)
Fixpoint outside_calls (fee_id : Z) (rows : list WaveformRow) (st : State)
    : nat :=
  match rows with
  | [] => 0%nat
  | row :: rows =>
      ((if channel_valid K row && bool_decide (row_fee row = fee_id)
            && negb (within_tolerance st (row_fee row) (row_bco row))
        then 1 else 0)
       + outside_calls fee_id rows
           (process_waveform K X cfg packet_id main_bco_list st row))%nat
  end.

End Observations.

(** The count of a lvl1 bco in [m_bco_map]. *)
Definition bco_count (m : gmap Z N) (bco : Z) : N := default 0%N (m !! bco).


Section ScanObservations.
Variable K : Constants.

(** An entry of the sample array that the loop does not skip. *)
Definition valid_adc (row : WaveformRow) (is_ : Z) : bool :=
  negb (adc_at row is_ =? m_adc_invalid K).

(** The samples one waveform puts into [sample_map], in the order of the
    loop: one per scanned entry that is not the invalid value. *)
Definition emitted (row : WaveformRow) (sample : Sample) (indices : list Z)
    : list Sample :=
  map (λ is_, assign_adc is_ (adc_at row is_) sample)
    (filter (λ is_, valid_adc row is_) indices).

End ScanObservations.

(** ** Inputs of the worked scenarios *)

(** Values for the constants of the absent headers, for the scenarios only. *)
Definition scenario_constants : Constants :=
  mkConstants [5001; 5002] 256 65000 1 2 4.

Definition scenario_collaborators : Collaborators :=
  mkCollaborators (λ fee_id, fee_id) (λ key, 55) (λ key, 0)
    (λ fee_id channel, channel)
    (λ fee_id channel, to_double 10) (λ fee_id channel, to_double 2).

(** All three flags set, [n_sigma = 3], [min_adc = 0], samples 0 to 1024. *)
Definition scenario_config (verbosity : Z) : Config :=
  mkConfig 7 (to_double 3) (to_double 0) 0 1024 verbosity.

Definition adc_of_list (adcs : list Z) : Z → Z :=
  λ is_, nth (Z.to_nat is_) adcs 0.

Definition scenario_row (fee_id fee_bco : Z) (adcs : list Z) : WaveformRow :=
  mkWaveformRow fee_id 3 fee_bco 0 0 0 0 (Z.of_nat (length adcs))
    (adc_of_list adcs).

Definition scenario_tagger (bco : Z) : TaggerRow :=
  mkTaggerRow 0 1 0 bco 0 0 0.

Definition scenario_rows : list WaveformRow :=
  [scenario_row 7 55 [5; 10; 7; 10]; scenario_row 7 56 [1];
   scenario_row 7 57 [2]; scenario_row 7 200 [3]; scenario_row 7 201 [17]].

Definition scenario_packet : Packet :=
  mkPacket [scenario_tagger 1000; scenario_tagger 2000; scenario_tagger 3000]
    scenario_rows.

(** An event whose packet 5001 is [packet]; packet 5002 is absent. *)
Definition event_of (packet : Packet) : Event :=
  mkEvent 1 (λ packet_id, if packet_id =? 5001 then Some packet else None).

(** A packet without taggers and with one waveform of the fee 7 at the fee
    bco 55: the waveform is an orphan. *)
Definition orphan_packet : Packet :=
  mkPacket [] [scenario_row 7 55 [5; 10; 7; 10]].

(** A packet that tags one lvl1 bco and has two waveforms of the fee 7: the
    first takes the lvl1 bco, the second, outside tolerance, is an orphan.
    Its first adc is the invalid value. *)
Definition late_orphan_packet : Packet :=
  mkPacket [scenario_tagger 1000]
    [scenario_row 7 55 [5; 10]; scenario_row 7 200 [65000; 0; 9]].

(** Two packets with one waveform of the fee 7 each: the first packet tags
    one lvl1 bco, the second two. *)
Definition first_packet : Packet :=
  mkPacket [scenario_tagger 1000] [scenario_row 7 55 [5]].

Definition second_packet : Packet :=
  mkPacket [scenario_tagger 2000; scenario_tagger 3000]
    [scenario_row 7 200 [6]].

(** An event with both packets. *)
Definition two_packet_event : Event :=
  mkEvent 1 (λ packet_id, if packet_id =? 5001 then Some first_packet
                          else if packet_id =? 5002 then Some second_packet
                          else None).

(** ** Key order and insertion order of a multimap *)

Section KeyedRecords.
Context {V : Type}.
Variable key : V → Z.

(** Every record is stored under its own key. *)
Definition well_keyed (m : multimap.t V) : Prop :=
  Forall (λ e, e.1 = key e.2) m.

(** The keys ascend along the iteration. *)
Definition ordered (m : multimap.t V) : Prop :=
  StronglySorted multimap.key_le m.

(** The records ascend by key. *)
Definition ascending (l : list V) : Prop :=
  StronglySorted (λ a b, key a ≤ key b) l.

(** The records of [l] that have the key [k], in the order of [l]. *)
Definition with_key (k : Z) (l : list V) : list V :=
  filter (λ x, key x = k) l.

(** [emplace] of the records of [xs], one after the other. *)
Definition emplace_all (xs : list V) (m : multimap.t V) : multimap.t V :=
  fold_left (λ m x, multimap.emplace (key x) x m) xs m.

End KeyedRecords.

(** ** The records of an event, in the order they are put into the maps *)

Section Records.
Variable K : Constants.
Variable X : Collaborators.
Variable cfg : Config.

(** What one row puts into [sample_map] and into [waveform_map]. *)
Definition row_records (packet_id : Z) (main_bco_list : list Z)
    (st : State) (row : WaveformRow) : list Sample * list Waveform :=
  if channel_valid K row then
    let sample := running_sample X cfg packet_id main_bco_list st row in
    (emitted K row sample (seqZ 0 (scan_bound row)),
     if flag_set cfg (EvalWaveform K)
     then [make_waveform cfg (s_pedestal sample) (s_rms sample)
             (peak K row sample)]
     else [])
  else ([], []).

Definition records_app (a b : list Sample * list Waveform)
    : list Sample * list Waveform :=
  (a.1 ++ b.1, a.2 ++ b.2).

Fixpoint loop_records (packet_id : Z) (main_bco_list : list Z)
    (rows : list WaveformRow) (st : State) : list Sample * list Waveform :=
  match rows with
  | [] => ([], [])
  | row :: rows =>
      records_app (row_records packet_id main_bco_list st row)
        (loop_records packet_id main_bco_list rows
           (process_waveform K X cfg packet_id main_bco_list st row))
  end.

Definition packet_records (packet_id : Z) (packet : Packet) (st : State)
    : list Sample * list Waveform :=
  let '(main_bco_list, st) := collect_taggers K cfg packet_id packet st in
  let st := print_packet cfg packet_id packet main_bco_list st in
  if eval_data K cfg then
    loop_records packet_id main_bco_list (waveform_rows packet)
      (enter_waveforms st)
  else ([], []).

Fixpoint packets_records (event : Event) (packet_ids : list Z) (st : State)
    : list Sample * list Waveform :=
  match packet_ids with
  | [] => ([], [])
  | packet_id :: packet_ids =>
      records_app
        (match getPacket event packet_id with
         | Some packet => packet_records packet_id packet st
         | None => ([], [])
         end)
        (packets_records event packet_ids
           (packet_step K X cfg event st packet_id))
  end.

(** The samples and the waveforms of an event, in insertion order. *)
Definition event_records (event : Event) (st : State)
    : list Sample * list Waveform :=
  packets_records event (m_packet_ids K) (enter_event st).

End Records.

(** The two temporary maps hold the records [tr], each under its lvl1 bco,
    in key order, the records of one key in the order of [tr]. *)
Definition aggregates (st : State) (tr : list Sample * list Waveform) : Prop :=
  (ordered (sample_map st) ∧ well_keyed s_lvl1_bco (sample_map st)
   ∧ ∀ k, with_key s_lvl1_bco k (multimap.values (sample_map st))
          = with_key s_lvl1_bco k tr.1)
  ∧ (ordered (waveform_map st) ∧ well_keyed w_lvl1_bco (waveform_map st)
     ∧ ∀ k, with_key w_lvl1_bco k (multimap.values (waveform_map st))
            = with_key w_lvl1_bco k tr.2).

(** Two states with the same matching pairs, histogram, temporary maps and
    container samples and waveforms. *)
Definition same_records (st st' : State) : Prop :=
  m_fee_bco_matching_map st' = m_fee_bco_matching_map st
  ∧ m_bco_map st' = m_bco_map st
  ∧ sample_map st' = sample_map st
  ∧ waveform_map st' = waveform_map st
  ∧ samples (m_container st') = samples (m_container st)
  ∧ waveforms (m_container st') = waveforms (m_container st).

(** The samples and the waveforms of the container ascend by lvl1 bco. *)
Definition container_sorted (c : Container) : Prop :=
  ascending s_lvl1_bco (samples c) ∧ ascending w_lvl1_bco (waveforms c).

(** A packet with one lvl1 tag and one waveform of four valid samples. *)
Definition single_waveform_packet : Packet :=
  mkPacket [scenario_tagger 1000] [scenario_row 7 55 [5; 10; 7; 10]].


(** ** Further quantities: what an event reads and what it leaves *)

(** [push_back] of several taggers to the container. *)
Definition with_taggers (ts : list TaggerInformation) (st : State) : State :=
  with_container
    (mkContainer (samples (m_container st)) (waveforms (m_container st))
       (taggers (m_container st) ++ ts)) st.

(** The lvl1 bco that the tagger table of a packet tags, in the order of the
    table. *)
Definition tagged_lvl1_bco (packet_id : Z) (packet : Packet) : list Z :=
  map t_bco
    (filter (λ t, t_is_lvl1 t ≠ 0)
       (map (read_tagger packet_id) (tagger_rows packet))).

Section EventInputs.
Variable K : Constants.

(** The taggers of the packets of an event that are present, packet by
    packet in the order of [m_packet_ids]. *)
Definition event_taggers (event : Event) : list TaggerInformation :=
  concat (map (λ packet_id,
                 match getPacket event packet_id with
                 | Some packet =>
                     map (read_tagger packet_id) (tagger_rows packet)
                 | None => []
                 end) (m_packet_ids K)).

(** The waveform rows of the packets of an event that are present. *)
Definition event_rows (event : Event) : list WaveformRow :=
  concat (map (λ packet_id,
                 match getPacket event packet_id with
                 | Some packet => waveform_rows packet
                 | None => []
                 end) (m_packet_ids K)).

End EventInputs.

(** Two states that differ at most in what was written to the output. *)
Definition only_output (st st' : State) : Prop :=
  m_container st' = m_container st
  ∧ m_fee_bco_matching_map st' = m_fee_bco_matching_map st
  ∧ m_bco_map st' = m_bco_map st
  ∧ m_evaluation_tree st' = m_evaluation_tree st
  ∧ sample_map st' = sample_map st
  ∧ waveform_map st' = waveform_map st
  ∧ bco_list_map st' = bco_list_map st
  ∧ orphans st' = orphans st
  ∧ m_evaluation_file st' = m_evaluation_file st.

(** Two configurations that differ at most in the verbosity. *)
Definition same_settings (c1 c2 : Config) : Prop :=
  m_flags c1 = m_flags c2
  ∧ m_n_sigma c1 = m_n_sigma c2
  ∧ m_min_adc c1 = m_min_adc c2
  ∧ m_sample_min c1 = m_sample_min c2
  ∧ m_sample_max c1 = m_sample_max c2.

(** Two states with the same cached pairs, container and temporary maps
    and, when [runwide] is set, the same histogram and tree. *)
Definition agree_event (runwide : bool) (st1 st2 : State) : Prop :=
  m_fee_bco_matching_map st1 = m_fee_bco_matching_map st2
  ∧ m_container st1 = m_container st2
  ∧ sample_map st1 = sample_map st2
  ∧ waveform_map st1 = waveform_map st2
  ∧ (runwide = true →
     m_bco_map st1 = m_bco_map st2
     ∧ m_evaluation_tree st1 = m_evaluation_tree st2).

(** The same, and the same lists of available lvl1 bco. *)
Definition agree_loop (runwide : bool) (st1 st2 : State) : Prop :=
  agree_event runwide st1 st2 ∧ bco_list_map st1 = bco_list_map st2.

(** A state that holds records of an earlier event, with no cached pair. *)
Definition stale_state : State :=
  with_container (mkContainer [Sample_default] [copy_from Sample_default] [])
    (with_sample_map [(5, Sample_default)] initial_state).

(** An event without any of the configured packets. *)
Definition empty_event : Event := mkEvent 1 (λ packet_id, None).

(** ** The matcher as a state machine of one fee *)

(** The matching of one fee, on the cached pair of the fee and its list of
    available lvl1 bco: a second definition, written after the steps of the
    algorithm, to be compared with [match_bco]. *)
Definition fee_match (s : (Z * Z) * list Z) (fee_bco : Z)
    : option Z * ((Z * Z) * list Z) :=
  if get_bco_diff fee_bco s.1.1 <? max_fee_bco_diff then (Some s.1.2, s)
  else match s.2 with
       | lvl1_bco :: rest => (Some lvl1_bco, ((fee_bco, lvl1_bco), rest))
       | [] => (None, s)
       end.

(** The state machine over a sequence of fee bco: the lvl1 bco found, in
    order, and the final state. *)
Fixpoint fee_run (s : (Z * Z) * list Z) (fee_bcos : list Z)
    : list (option Z) * ((Z * Z) * list Z) :=
  match fee_bcos with
  | [] => ([], s)
  | fee_bco :: fee_bcos =>
      let r := fee_match s fee_bco in
      let rs := fee_run r.2 fee_bcos in
      (r.1 :: rs.1, rs.2)
  end.

(** The state of one fee within a waveform loop. *)
Definition fee_state (main_bco_list : list Z) (st : State) (fee_id : Z)
    : (Z * Z) * list Z :=
  (matching_pair st fee_id, queue_of main_bco_list st fee_id).

Section FeeRows.
Variable K : Constants.
Variable X : Collaborators.
Variable cfg : Config.
Variable packet_id : Z.
Variable main_bco_list : list Z.

(** A row of the fee [fee_id] with a valid channel. *)
Definition is_row_of (fee_id : Z) (row : WaveformRow) : bool :=
  channel_valid K row && bool_decide (row_fee row = fee_id).

(** The lvl1 bco given to the valid rows of one fee along a waveform loop. *)
Fixpoint assigned_for (fee_id : Z) (rows : list WaveformRow) (st : State)
    : list Z :=
  match rows with
  | [] => []
  | row :: rows =>
      (if is_row_of fee_id row
       then [assigned_bco X cfg packet_id main_bco_list st row] else [])
      ++ assigned_for fee_id rows
           (process_waveform K X cfg packet_id main_bco_list st row)
  end.

End FeeRows.

(** ** What the container and the histogram always satisfy *)

(** A sample as the sample loop makes it: an adc that is not the invalid
    value, index, channel, fee and fee bco within their ranges, and the
    masked lvl1 bco equal to the low 20 bits of the lvl1 bco. *)
Definition sample_wellformed (K : Constants) (s : Sample) : Prop :=
  s_adc s ≠ m_adc_invalid K
  ∧ 0 ≤ s_adc s < 2 ^ 16
  ∧ 0 ≤ s_sample s < 1024
  ∧ 0 ≤ s_channel s < m_nchannels_fee K
  ∧ 0 ≤ s_fee_id s < 2 ^ 16
  ∧ 0 ≤ s_fee_bco s < 2 ^ 32
  ∧ s_lvl1_bco_masked s = Z.land (s_lvl1_bco s) 0xFFFFF.

(** The sum of the counts of the histogram. *)
Definition bco_total (m : gmap Z N) : N :=
  map_fold (λ _ n total, (n + total)%N) 0%N m.

(** ** The text of the lvl1 bco list printed by [End] *)

(** What the second loop of [End] writes, piece by piece: the separator
    [", "], a line break, and a value [" 0x..."].  [MsgEndBcoList] stands
    for this text between the opening and the closing line. *)
Inductive Token :=
  | TSeparator
  | TNewline
  | TValue (bco : Z).

(** One turn of the loop; the loop state is [first], [count] and the text
    written so far. *)
Definition list_step (acc : bool * Z * list Token) (bco : Z)
    : bool * Z * list Token :=
  let '(first, count, out) := acc in
  let out := if first then out else out ++ [TSeparator] in
  let '(count, out) :=
    if count =? 10 then (0, out ++ [TNewline]) else (count, out) in
  (false, count + 1, out ++ [TValue bco]).

Definition list_text (bcos : list Z) : list Token :=
  (fold_left list_step bcos (true, 0, [])).2.

(** What stands in the text for the value of index [i]. *)
Definition list_piece (i : nat) (bco : Z) : list Token :=
  (if bool_decide (i = 0%nat) then [] else [TSeparator])
  ++ (if bool_decide (i ≠ 0%nat ∧ (i mod 10 = 0)%nat) then [TNewline] else [])
  ++ [TValue bco].

Definition token_value (t : Token) : option Z :=
  match t with TValue bco => Some bco | _ => None end.

Definition is_newline (t : Token) : bool :=
  match t with TNewline => true | _ => false end.

Definition is_separator (t : Token) : bool :=
  match t with TSeparator => true | _ => false end.

(** ** The streamer for lists *)

Section Streamer.
Context {T : Type}.

(** [out << value] for the elements of the list. *)
Variable show : T → string.

(** One turn of the loop over the list; the loop state is [first] and the
    stream. *)
Definition stream_step (acc : bool * string) (value : T) : bool * string :=
  let '(first, out) := acc in
  let out := if first then out else out +:+ ", " in
  (false, out +:+ show value).

(** [operator<<(std::ostream&, const std::list<T>&)] *)
Definition stream_list (out : string) (list : list T) : string :=
  match list with
  | [] => out +:+ "{}"
  | _ => (fold_left stream_step list (true, out +:+ "{ ")).2 +:+ " }"
  end.

End Streamer.
(** * Properties *)

(** ** Integer conversions and [get_bco_diff] *)

Lemma get_bco_diff_abs (a b : Z) : get_bco_diff a b = Z.abs (a - b).
Proof. unfold get_bco_diff. destruct (Z.ltb_spec a b); lia. Qed.

Lemma get_bco_diff_no_wrap (a b : Z) :
  0 ≤ a < 2 ^ 32 → 0 ≤ b < 2 ^ 32 → 0 ≤ get_bco_diff a b < 2 ^ 32.
Proof. rewrite get_bco_diff_abs. lia. Qed.

Lemma to_uint32_range (v : Z) : 0 ≤ to_uint32 v < 2 ^ 32.
Proof. unfold to_uint32. apply Z.mod_pos_bound. lia. Qed.

(** On 32-bit unsigned operands the subtraction of [get_bco_diff] never
    wraps: the difference of two fee bco is their distance. *)
Lemma get_bco_diff_uint32 (a b : Z) :
  get_bco_diff (to_uint32 a) (to_uint32 b) = Z.abs (to_uint32 a - to_uint32 b)
  ∧ to_uint32 (get_bco_diff (to_uint32 a) (to_uint32 b))
    = get_bco_diff (to_uint32 a) (to_uint32 b).
Proof.
  split; [apply get_bco_diff_abs|].
  apply Z.mod_small, get_bco_diff_no_wrap; apply to_uint32_range.
Qed.

(** ** The matching step *)

Section MatchingFacts.
Variable cfg : Config.
Variable main_bco_list : list Z.

Local Abbreviation search := (match_bco cfg main_bco_list).
Local Abbreviation queue := (queue_of main_bco_list).

Lemma matching_pair_at_fst fee_id m :
  (matching_pair_at fee_id m).1 = default (0, 0) (m !! fee_id).
Proof. unfold matching_pair_at. by destruct (m !! fee_id). Qed.

Lemma matching_pair_at_lookup fee_id m f :
  default (0, 0) ((matching_pair_at fee_id m).2 !! f) = default (0, 0) (m !! f).
Proof.
  unfold matching_pair_at. destruct (m !! fee_id) eqn:E; [done|]. simpl.
  destruct (decide (fee_id = f)) as [->|]; by simplify_map_eq.
Qed.

Lemma bco_list_at_fst fee_id m :
  (bco_list_at main_bco_list fee_id m).1 = default main_bco_list (m !! fee_id).
Proof. unfold bco_list_at. by destruct (m !! fee_id). Qed.

Lemma bco_list_at_lookup fee_id m f :
  default main_bco_list ((bco_list_at main_bco_list fee_id m).2 !! f)
  = default main_bco_list (m !! f).
Proof.
  unfold bco_list_at. destruct (m !! fee_id) eqn:E; [done|]. simpl.
  destruct (decide (fee_id = f)) as [->|]; by simplify_map_eq.
Qed.

(** The search leaves the containers and the histogram alone. *)
Lemma match_bco_frame fee_id fee_bco st :
  let st' := (search fee_id fee_bco st).2 in
  m_container st' = m_container st ∧ m_bco_map st' = m_bco_map st
  ∧ m_evaluation_tree st' = m_evaluation_tree st
  ∧ sample_map st' = sample_map st ∧ waveform_map st' = waveform_map st.
Proof.
  unfold match_bco, print_if.
  destruct (matching_pair_at _ _) as [p m], (bco_list_at _ _ _) as [l lm].
  simpl. repeat case_match; simplify_eq/=; done.
Qed.

(** Within tolerance: the cached lvl1 bco is returned; no pair and no list
    changes. *)
Lemma match_bco_within fee_id fee_bco st :
  within_tolerance st fee_id fee_bco = true →
  let r := search fee_id fee_bco st in
  r.1 = Some (matching_pair st fee_id).2
  ∧ (∀ f, matching_pair r.2 f = matching_pair st f)
  ∧ bco_list_map r.2 = bco_list_map st
  ∧ orphans r.2 = orphans st
  ∧ cout r.2 = cout st.
Proof.
  unfold within_tolerance, matching_pair, match_bco. intros H.
  pose proof (matching_pair_at_fst fee_id (m_fee_bco_matching_map st)) as E1.
  pose proof (matching_pair_at_lookup fee_id (m_fee_bco_matching_map st)) as E2.
  destruct (matching_pair_at _ _) as [p m]. simpl in *. subst p.
  rewrite H. simpl. done.
Qed.

(** Outside tolerance with a lvl1 bco available: the front of the list is
    taken and cached with the fee bco. *)
Lemma match_bco_pop fee_id fee_bco st lvl1_bco rest :
  within_tolerance st fee_id fee_bco = false →
  queue st fee_id = lvl1_bco :: rest →
  let r := search fee_id fee_bco st in
  r.1 = Some lvl1_bco
  ∧ matching_pair r.2 fee_id = (fee_bco, lvl1_bco)
  ∧ queue r.2 fee_id = rest
  ∧ (∀ f, f ≠ fee_id → matching_pair r.2 f = matching_pair st f
                       ∧ queue r.2 f = queue st f)
  ∧ orphans r.2 = orphans st.
Proof.
  unfold within_tolerance, matching_pair, queue_of,
    match_bco, print_if.
  intros H Q.
  pose proof (matching_pair_at_fst fee_id (m_fee_bco_matching_map st)) as E1.
  pose proof (matching_pair_at_lookup fee_id (m_fee_bco_matching_map st)) as E2.
  destruct (matching_pair_at _ _) as [p m]. simpl in *. subst p.
  rewrite H.
  pose proof (bco_list_at_fst fee_id (bco_list_map st)) as E3.
  pose proof (bco_list_at_lookup fee_id (bco_list_map st)) as E4.
  destruct (bco_list_at _ _ _) as [l lm]. simpl in *. subst l.
  rewrite Q. simpl.
  split_and!; [done| by simplify_map_eq | by simplify_map_eq | | by case_match].
  intros f Hf.
  destruct (verbose cfg); simpl; rewrite !lookup_insert_ne by done;
    by rewrite E2, E4.
Qed.

(** Outside tolerance with no lvl1 bco left: nothing is found, and no pair
    and no list changes. *)
Lemma match_bco_orphan fee_id fee_bco st :
  within_tolerance st fee_id fee_bco = false →
  queue st fee_id = [] →
  let r := search fee_id fee_bco st in
  r.1 = None
  ∧ (∀ f, matching_pair r.2 f = matching_pair st f)
  ∧ (∀ f, queue r.2 f = queue st f).
Proof.
  unfold within_tolerance, matching_pair, queue_of,
    match_bco, print_if.
  intros H Q.
  pose proof (matching_pair_at_fst fee_id (m_fee_bco_matching_map st)) as E1.
  pose proof (matching_pair_at_lookup fee_id (m_fee_bco_matching_map st)) as E2.
  destruct (matching_pair_at _ _) as [p m]. simpl in *. subst p.
  rewrite H.
  pose proof (bco_list_at_fst fee_id (bco_list_map st)) as E3.
  pose proof (bco_list_at_lookup fee_id (bco_list_map st)) as E4.
  destruct (bco_list_at _ _ _) as [l lm]. simpl in *. subst l.
  rewrite Q. simpl.
  destruct (verbose cfg); simpl; [|done].
  destruct (bool_decide _); simpl; done.
Qed.

(** A search for one fee leaves the list of every other fee alone. *)
Lemma match_bco_queue_other fee_id fee_bco st f :
  f ≠ fee_id →
  queue (search fee_id fee_bco st).2 f = queue st f.
Proof.
  intros Hf.
  destruct (within_tolerance st fee_id fee_bco) eqn:W.
  - destruct (match_bco_within fee_id fee_bco st W) as (_ & _ & E & _).
    unfold queue_of. by rewrite E.
  - destruct (queue st fee_id) as [|x rest] eqn:Q.
    + by destruct (match_bco_orphan fee_id fee_bco st W Q) as (_ & _ & E).
    + destruct (match_bco_pop fee_id fee_bco st x rest W Q)
        as (_ & _ & _ & E & _).
      by destruct (E f Hf).
Qed.

(** What one search does to the list of its own fee. *)
Lemma match_bco_queue_same fee_id fee_bco st :
  queue (search fee_id fee_bco st).2 fee_id
  = if within_tolerance st fee_id fee_bco then queue st fee_id
    else tail (queue st fee_id).
Proof.
  destruct (within_tolerance st fee_id fee_bco) eqn:W.
  - destruct (match_bco_within fee_id fee_bco st W) as (_ & _ & E & _).
    unfold queue_of. by rewrite E.
  - destruct (queue st fee_id) as [|x rest] eqn:Q.
    + destruct (match_bco_orphan fee_id fee_bco st W Q) as (_ & _ & E).
      by rewrite E, Q.
    + by destruct (match_bco_pop fee_id fee_bco st x rest W Q)
        as (_ & _ & E & _).
Qed.

End MatchingFacts.

(** ** One waveform *)

Section WaveformFacts.
Variable K : Constants.
Variable X : Collaborators.
Variable cfg : Config.
Variable packet_id : Z.
Variable main_bco_list : list Z.

Local Abbreviation running := (running_sample X cfg packet_id main_bco_list).
Local Abbreviation assigned := (assigned_bco X cfg packet_id main_bco_list).

Lemma correlate_eq row st :
  correlate cfg main_bco_list row (new_sample X packet_id row) st
  = let r := match_bco cfg main_bco_list (row_fee row) (row_bco row) st in
    let sample := assign_fee_bco (row_bco row) (new_sample X packet_id row) in
    (match r.1 with
     | Some lvl1_bco => assign_lvl1_bco lvl1_bco sample
     | None => sample
     end, r.2).
Proof.
  unfold correlate. simpl. fold (row_fee row) (row_bco row).
  by destruct (match_bco _ _ _ _ _) as [[l|] st1].
Qed.

Lemma assigned_bco_eq st row :
  assigned st row
  = default 0 (match_bco cfg main_bco_list (row_fee row) (row_bco row) st).1.
Proof.
  unfold assigned_bco, running_sample. rewrite correlate_eq. simpl.
  by destruct (match_bco _ _ _ _ _) as [[l|] st1].
Qed.

Lemma running_sample_fee st row : s_fee_id (running st row) = row_fee row.
Proof.
  unfold running_sample. rewrite correlate_eq. simpl.
  by destruct (match_bco _ _ _ _ _) as [[l|] st1].
Qed.

Lemma running_sample_fee_bco st row :
  s_fee_bco (running st row) = row_bco row.
Proof.
  unfold running_sample. rewrite correlate_eq. simpl.
  by destruct (match_bco _ _ _ _ _) as [[l|] st1].
Qed.

(** A row whose channel is out of range is skipped. *)
Lemma process_waveform_skip st row :
  channel_valid K row = false →
  let st' := process_waveform K X cfg packet_id main_bco_list st row in
  m_container st' = m_container st
  ∧ m_fee_bco_matching_map st' = m_fee_bco_matching_map st
  ∧ m_bco_map st' = m_bco_map st
  ∧ m_evaluation_tree st' = m_evaluation_tree st
  ∧ sample_map st' = sample_map st
  ∧ waveform_map st' = waveform_map st
  ∧ bco_list_map st' = bco_list_map st
  ∧ orphans st' = orphans st.
Proof.
  intros H. unfold process_waveform, print_if. rewrite H. simpl.
  by destruct (verbose cfg).
Qed.

(** A row whose channel is in range: what each part of the state becomes. *)
Lemma process_waveform_valid st row :
  channel_valid K row = true →
  let r := match_bco cfg main_bco_list (row_fee row) (row_bco row) st in
  let sample := running st row in
  let scan := scan_samples K row sample (sample_map st) in
  let st' := process_waveform K X cfg packet_id main_bco_list st row in
  m_container st' = m_container st
  ∧ m_evaluation_tree st' = m_evaluation_tree st
  ∧ m_fee_bco_matching_map st' = m_fee_bco_matching_map r.2
  ∧ bco_list_map st' = bco_list_map r.2
  ∧ orphans st' = orphans r.2
  ∧ m_bco_map st' = increment (assigned st row) (m_bco_map st)
  ∧ sample_map st' = scan.2
  ∧ waveform_map st' =
      if flag_set cfg (EvalWaveform K) then
        let waveform :=
          make_waveform cfg (s_pedestal sample) (s_rms sample) scan.1.2 in
        multimap.emplace (w_lvl1_bco waveform) waveform (waveform_map st)
      else waveform_map st.
Proof.
  intros H. unfold process_waveform, assigned_bco, running_sample, print_if.
  rewrite H. simpl. rewrite correlate_eq. simpl.
  pose proof (match_bco_frame cfg main_bco_list (row_fee row) (row_bco row) st)
    as (F1 & F2 & F3 & F4 & F5). simpl in *.
  destruct (match_bco _ _ _ _ _) as [found st1]. simpl in *.
  destruct (1 <? Verbosity cfg); simpl; rewrite F4;
    destruct (scan_samples _ _ _ _) as [[run smax] smap]; simpl;
    destruct (flag_set cfg (EvalWaveform K)); simpl;
    rewrite ?F1, ?F2, ?F3, ?F5; done.
Qed.

(** The pairs and lists after a row are those after its search. *)
Lemma process_waveform_matching st row f :
  channel_valid K row = true →
  let r := match_bco cfg main_bco_list (row_fee row) (row_bco row) st in
  let st' := process_waveform K X cfg packet_id main_bco_list st row in
  matching_pair st' f = matching_pair r.2 f
  ∧ queue_of main_bco_list st' f = queue_of main_bco_list r.2 f.
Proof.
  intros H. destruct (process_waveform_valid st row H)
    as (_ & _ & E1 & E2 & _).
  unfold matching_pair, queue_of. simpl in *. by rewrite E1, E2.
Qed.

Lemma process_waveform_skip_matching st row f :
  channel_valid K row = false →
  let st' := process_waveform K X cfg packet_id main_bco_list st row in
  matching_pair st' f = matching_pair st f
  ∧ queue_of main_bco_list st' f = queue_of main_bco_list st f.
Proof.
  intros H. destruct (process_waveform_skip st row H)
    as (_ & E1 & _ & _ & _ & _ & E2 & _).
  unfold matching_pair, queue_of. simpl in *. by rewrite E1, E2.
Qed.

End WaveformFacts.

(** ** The waveform loop and the matching state *)

Section LoopFacts.
Variable K : Constants.
Variable X : Collaborators.
Variable cfg : Config.
Variable packet_id : Z.
Variable main_bco_list : list Z.

Local Abbreviation step := (process_waveform K X cfg packet_id main_bco_list).
Local Abbreviation assigned := (assigned_bco X cfg packet_id main_bco_list).
Local Abbreviation queue := (queue_of main_bco_list).

(** A valid row within tolerance is given the cached lvl1 bco. *)
Lemma waveform_within st row fee_id fee_bco :
  channel_valid K row = true →
  row_fee row = fee_id → row_bco row = fee_bco →
  within_tolerance st fee_id fee_bco = true →
  assigned st row = (matching_pair st fee_id).2
  ∧ ∀ f, matching_pair (step st row) f = matching_pair st f
         ∧ queue (step st row) f = queue st f.
Proof.
  intros V <- <- W.
  destruct (match_bco_within cfg main_bco_list _ _ st W) as (R & P & Q & _).
  split.
  - rewrite assigned_bco_eq. simpl in R. by rewrite R.
  - intros f.
    destruct (process_waveform_matching K X cfg packet_id main_bco_list st row f V)
      as [E1 E2].
    simpl in *. rewrite E1, E2, P. unfold queue_of. by rewrite Q.
Qed.

(** A valid row outside tolerance takes the front of its fee's list. *)
Lemma waveform_pop st row fee_id fee_bco lvl1_bco rest :
  channel_valid K row = true →
  row_fee row = fee_id → row_bco row = fee_bco →
  within_tolerance st fee_id fee_bco = false →
  queue st fee_id = lvl1_bco :: rest →
  assigned st row = lvl1_bco
  ∧ matching_pair (step st row) fee_id = (fee_bco, lvl1_bco)
  ∧ queue (step st row) fee_id = rest.
Proof.
  intros V <- <- W Q.
  destruct (match_bco_pop cfg main_bco_list _ _ st _ _ W Q)
    as (R & P & Q' & _).
  destruct (process_waveform_matching K X cfg packet_id main_bco_list st row
              (row_fee row) V) as [E1 E2].
  simpl in *. rewrite assigned_bco_eq, R, E1, E2. done.
Qed.

(** A valid row outside tolerance whose fee has no lvl1 bco left. *)
Lemma waveform_orphan st row fee_id fee_bco :
  channel_valid K row = true →
  row_fee row = fee_id → row_bco row = fee_bco →
  within_tolerance st fee_id fee_bco = false →
  queue st fee_id = [] →
  assigned st row = 0
  ∧ ∀ f, matching_pair (step st row) f = matching_pair st f
         ∧ queue (step st row) f = queue st f.
Proof.
  intros V <- <- W Q.
  destruct (match_bco_orphan cfg main_bco_list _ _ st W Q) as (R & P & Q').
  split.
  - rewrite assigned_bco_eq. simpl in R. by rewrite R.
  - intros f.
    destruct (process_waveform_matching K X cfg packet_id main_bco_list st row f V)
      as [E1 E2].
    simpl in *. by rewrite E1, E2, P, Q'.
Qed.

(** What one row does to the list of a fee. *)
Lemma waveform_queue st row fee_id :
  queue (step st row) fee_id
  = if channel_valid K row && bool_decide (row_fee row = fee_id)
         && negb (within_tolerance st (row_fee row) (row_bco row))
    then tail (queue st fee_id) else queue st fee_id.
Proof.
  destruct (channel_valid K row) eqn:V; simpl.
  - destruct (process_waveform_matching K X cfg packet_id main_bco_list st row
                fee_id V) as [_ E].
    simpl in E. rewrite E. case_bool_decide as Hf; simpl.
    + subst fee_id. rewrite match_bco_queue_same.
      by destruct (within_tolerance _ _ _).
    + by apply match_bco_queue_other.
  - by destruct (process_waveform_skip_matching K X cfg packet_id
                   main_bco_list st row fee_id V).
Qed.

Lemma waveform_loop_cons row rows st :
  waveform_loop K X cfg packet_id main_bco_list (row :: rows) st
  = waveform_loop K X cfg packet_id main_bco_list rows (step st row).
Proof. done. Qed.

Lemma waveform_loop_queue_length rows st fee_id :
  length (queue (waveform_loop K X cfg packet_id main_bco_list rows st) fee_id)
  = (length (queue st fee_id)
     - Nat.min (outside_calls K X cfg packet_id main_bco_list fee_id rows st)
         (length (queue st fee_id)))%nat.
Proof.
  revert st. induction rows as [|row rows IH]; intros st.
  - simpl. lia.
  - rewrite waveform_loop_cons, IH. simpl outside_calls.
    rewrite waveform_queue.
    destruct (_ && _ && _); [|lia].
    destruct (queue st fee_id); simpl; lia.
Qed.

End LoopFacts.

(** ** Claims on the BCO matching *)

(** C2 — tolerance reuse.  For a fee whose cached pair is (F0, L0) and an
    incoming fee bco with |fee_bco − F0| below the tolerance (the constant
    10), the search returns L0 and the whole state is as before: the cached
    pair is unchanged and no lvl1 bco is taken from the fee's list. *)
Theorem tolerance_reuse (cfg : Config) (main_bco_list : list Z)
    (fee_id fee_bco F0 L0 : Z) (st : State) :
  m_fee_bco_matching_map st !! fee_id = Some (F0, L0) →
  Z.abs (fee_bco - F0) < max_fee_bco_diff →
  max_fee_bco_diff = 10
  ∧ match_bco cfg main_bco_list fee_id fee_bco st = (Some L0, st).
Proof.
  intros Hc Hd. split; [done|].
  unfold match_bco, matching_pair_at. rewrite Hc. simpl.
  rewrite get_bco_diff_abs.
  destruct (Z.ltb_spec (Z.abs (fee_bco - F0)) max_fee_bco_diff); [|lia].
  by destruct st.
Qed.

(** C10 — a fee that never had a match.  The lookup of its pair creates a
    zero pair, so a fee bco below the tolerance 10 is given the lvl1 bco 0
    and no lvl1 bco is taken from the list of the fee, whatever that list
    holds; the same holds for a whole waveform row of such a fee. *)
Theorem default_cache_reuse (K : Constants) (X : Collaborators) (cfg : Config)
    (packet_id : Z) (main_bco_list : list Z) (fee_id fee_bco : Z) (st : State) :
  m_fee_bco_matching_map st !! fee_id = None →
  0 ≤ fee_bco < max_fee_bco_diff →
  let r := match_bco cfg main_bco_list fee_id fee_bco st in
  (r.1 = Some 0
   ∧ m_fee_bco_matching_map r.2 = <[fee_id := (0, 0)]> (m_fee_bco_matching_map st)
   ∧ bco_list_map r.2 = bco_list_map st)
  ∧ ∀ row, channel_valid K row = true → row_fee row = fee_id →
           row_bco row = fee_bco →
      assigned_bco X cfg packet_id main_bco_list st row = 0
      ∧ queue_of main_bco_list
          (process_waveform K X cfg packet_id main_bco_list st row) fee_id
        = queue_of main_bco_list st fee_id.
Proof.
  intros Hc Hb.
  assert (W : within_tolerance st fee_id fee_bco = true).
  { unfold within_tolerance, matching_pair. rewrite Hc. simpl.
    rewrite get_bco_diff_abs. apply Z.ltb_lt. lia. }
  split.
  - unfold match_bco, matching_pair_at. rewrite Hc. simpl.
    rewrite get_bco_diff_abs.
    destruct (Z.ltb_spec (Z.abs (fee_bco - 0)) max_fee_bco_diff); [done|lia].
  - intros row V Hf Hr.
    destruct (waveform_within K X cfg packet_id main_bco_list st row _ _ V Hf Hr W)
      as [A F].
    split; [|apply F].
    rewrite A. unfold matching_pair. by rewrite Hc.
Qed.

(** C3 — consumption of the per-fee list, as amended: within the waveform
    loop of one packet.  A row takes the front entry of the list of a fee
    exactly when it is a valid row of that fee outside tolerance, and takes
    nothing otherwise; so the length never grows along the waveform loop of a
    packet, and after a loop with N such rows it is
    initial − min(N, initial).  When the waveform loop of a packet starts,
    the list of every fee is the packet's list of tagged lvl1 bco, whatever
    the packet before has left. *)
Theorem queue_consumption (K : Constants) (X : Collaborators) (cfg : Config)
    (packet_id : Z) (main_bco_list : list Z) (fee_id : Z) :
  (∀ st, queue_of main_bco_list (enter_waveforms st) fee_id = main_bco_list)
  ∧ (∀ st row,
      queue_of main_bco_list
        (process_waveform K X cfg packet_id main_bco_list st row) fee_id
      = if channel_valid K row && bool_decide (row_fee row = fee_id)
           && negb (within_tolerance st (row_fee row) (row_bco row))
        then tail (queue_of main_bco_list st fee_id)
        else queue_of main_bco_list st fee_id)
  ∧ (∀ rows st,
       (length (queue_of main_bco_list
                  (waveform_loop K X cfg packet_id main_bco_list rows st) fee_id)
        ≤ length (queue_of main_bco_list st fee_id))%nat)
  ∧ (∀ rows st,
       length (queue_of main_bco_list
                 (waveform_loop K X cfg packet_id main_bco_list rows st) fee_id)
       = (length (queue_of main_bco_list st fee_id)
          - Nat.min (outside_calls K X cfg packet_id main_bco_list fee_id rows st)
              (length (queue_of main_bco_list st fee_id)))%nat).
Proof.
  split_and!.
  - done.
  - intros. apply waveform_queue.
  - intros. rewrite waveform_loop_queue_length. lia.
  - intros. apply waveform_loop_queue_length.
Qed.

(** C3 — counterexample to the claim as stated, within one event.  The fee
    7 has one waveform in each of the two packets of an event, both outside
    tolerance.  Its list has the length 1 when the loop of the first packet
    starts and 0 when it ends; the second packet gives it a list of length 2,
    of which its waveform leaves 1.  So the length grows within the event,
    and after 2 calls outside tolerance from a length of 1 it is 1, not
    1 − min(2, 1) = 0: both waveforms are given a lvl1 bco. *)
Lemma queue_reseeded_counterexample :
  let K := scenario_constants in
  let X := scenario_collaborators in
  let cfg := scenario_config 0 in
  let st0 := enter_event initial_state in
  let start1 :=
    enter_waveforms
      (print_packet cfg 5001 first_packet [1000]
         (collect_taggers K cfg 5001 first_packet st0).2) in
  let end1 := packet_step K X cfg two_packet_event st0 5001 in
  let start2 :=
    enter_waveforms
      (print_packet cfg 5002 second_packet [2000; 3000]
         (collect_taggers K cfg 5002 second_packet end1).2) in
  let end2 := packet_step K X cfg two_packet_event end1 5002 in
  m_packet_ids K = [5001; 5002]
  ∧ (collect_taggers K cfg 5001 first_packet st0).1 = [1000]
  ∧ (collect_taggers K cfg 5002 second_packet end1).1 = [2000; 3000]
  ∧ end1 = waveform_loop K X cfg 5001 [1000] (waveform_rows first_packet) start1
  ∧ end2 = waveform_loop K X cfg 5002 [2000; 3000]
             (waveform_rows second_packet) start2
  ∧ packet_loop K X cfg two_packet_event st0 = end2
  ∧ outside_calls K X cfg 5001 [1000] 7 (waveform_rows first_packet) start1
    = 1%nat
  ∧ outside_calls K X cfg 5002 [2000; 3000] 7 (waveform_rows second_packet)
      start2
    = 1%nat
  ∧ map (λ st, length (queue_of [1000] st 7)) [start1; end1] = [1; 0]%nat
  ∧ map (λ st, length (queue_of [2000; 3000] st 7)) [start2; end2]
    = [2; 1]%nat
  ∧ map s_lvl1_bco
      (samples (m_container (process_event K X cfg two_packet_event
                               initial_state).2))
    = [1000; 2000].
Proof. cbv zeta. split_and!; vm_compute; reflexivity. Qed.

(** C1 — the correlation scenario.  A fee with the default cached pair and
    the list [1000, 2000, 3000] receives, in one waveform loop, five valid
    rows with the fee bco 55, 56, 57, 200, 201: they are given the lvl1 bco
    1000, 1000, 1000, 2000, 2000 in that order and the list of the fee is
    left as [3000]. *)
Theorem correlation_scenario (K : Constants) (X : Collaborators) (cfg : Config)
    (packet_id : Z) (main_bco_list : list Z) (fee_id : Z)
    (rows : list WaveformRow) (st : State) :
  matching_pair st fee_id = (0, 0) →
  queue_of main_bco_list st fee_id = [1000; 2000; 3000] →
  Forall (λ row, channel_valid K row = true ∧ row_fee row = fee_id) rows →
  map row_bco rows = [55; 56; 57; 200; 201] →
  assigned_bcos K X cfg packet_id main_bco_list rows st
  = [1000; 1000; 1000; 2000; 2000]
  ∧ queue_of main_bco_list
      (waveform_loop K X cfg packet_id main_bco_list rows st) fee_id
    = [3000].
Proof.
  intros P0 Q0 HF HB.
  destruct rows as [|r1 [|r2 [|r3 [|r4 [|r5 [|]]]]]]; try discriminate HB.
  injection HB as B1 B2 B3 B4 B5.
  apply Forall_cons in HF as [[V1 E1] HF]. apply Forall_cons in HF as [[V2 E2] HF].
  apply Forall_cons in HF as [[V3 E3] HF]. apply Forall_cons in HF as [[V4 E4] HF].
  apply Forall_cons in HF as [[V5 E5] _].
  rewrite !waveform_loop_cons. simpl assigned_bcos.
  rewrite V1, V2, V3, V4, V5.
  set (next := process_waveform K X cfg packet_id main_bco_list).
  assert (W : ∀ s F L b, matching_pair s fee_id = (F, L) →
            within_tolerance s fee_id b = (Z.abs (b - F) <? 10)).
  { intros s F L b E. unfold within_tolerance. by rewrite E, get_bco_diff_abs. }
  destruct (waveform_pop K X cfg packet_id main_bco_list st r1 fee_id 55
              1000 [2000; 3000] V1 E1 B1) as (A1 & P1 & Q1);
    [by rewrite (W _ _ _ _ P0) | done |].
  fold next in P1, Q1. set (st1 := next st r1) in *.
  destruct (waveform_within K X cfg packet_id main_bco_list st1 r2 fee_id 56
              V2 E2 B2) as (A2 & F2); [by rewrite (W _ _ _ _ P1) |].
  fold next in F2. set (st2 := next st1 r2) in *.
  destruct (F2 fee_id) as [P2 Q2]. rewrite P1 in P2, A2. rewrite Q1 in Q2.
  destruct (waveform_within K X cfg packet_id main_bco_list st2 r3 fee_id 57
              V3 E3 B3) as (A3 & F3); [by rewrite (W _ _ _ _ P2) |].
  fold next in F3. set (st3 := next st2 r3) in *.
  destruct (F3 fee_id) as [P3 Q3]. rewrite P2 in P3, A3. rewrite Q2 in Q3.
  destruct (waveform_pop K X cfg packet_id main_bco_list st3 r4 fee_id 200
              2000 [3000] V4 E4 B4) as (A4 & P4 & Q4);
    [by rewrite (W _ _ _ _ P3) | done |].
  fold next in P4, Q4. set (st4 := next st3 r4) in *.
  destruct (waveform_within K X cfg packet_id main_bco_list st4 r5 fee_id 201
              V5 E5 B5) as (A5 & F5); [by rewrite (W _ _ _ _ P4) |].
  fold next in F5. set (st5 := next st4 r5) in *.
  destruct (F5 fee_id) as [P5 Q5]. rewrite P4 in A5. rewrite Q4 in Q5.
  split; [|done].
  simpl. by rewrite A1, A2, A3, A4, A5.
Qed.

(** The scenario on the rows of [scenario_rows]. *)
Lemma correlation_scenario_witness :
  assigned_bcos scenario_constants scenario_collaborators (scenario_config 0)
    5001 [1000; 2000; 3000] scenario_rows (enter_waveforms initial_state)
  = [1000; 1000; 1000; 2000; 2000]
  ∧ queue_of [1000; 2000; 3000]
      (waveform_loop scenario_constants scenario_collaborators
         (scenario_config 0) 5001 [1000; 2000; 3000] scenario_rows
         (enter_waveforms initial_state)) 7
    = [3000].
Proof.
  apply (correlation_scenario scenario_constants scenario_collaborators
           (scenario_config 0) 5001 [1000; 2000; 3000] 7 scenario_rows
           (enter_waveforms initial_state)).
  - vm_compute. reflexivity.
  - vm_compute. reflexivity.
  - repeat constructor.
  - vm_compute. reflexivity.
Defined.

(** The whole event of the scenario: one packet with the tags 1000, 2000,
    3000 and the five waveforms. *)
Example scenario_event_run :
  let st := (process_event scenario_constants scenario_collaborators
               (scenario_config 0) (event_of scenario_packet) initial_state).2 in
  map w_fee_bco (waveforms (m_container st)) = [55; 56; 57; 200; 201]
  ∧ map w_lvl1_bco (waveforms (m_container st)) = [1000; 1000; 1000; 2000; 2000]
  ∧ bco_list_map st !! 7 = Some [3000]
  ∧ m_fee_bco_matching_map st !! 7 = Some (200, 2000).
Proof. split_and!; vm_compute; reflexivity. Qed.

(** A fee bco 5 away from the cached one. *)
Lemma tolerance_reuse_witness :
  max_fee_bco_diff = 10
  ∧ match_bco (scenario_config 0) [1000; 2000] 7 105
      (with_fee_bco_matching_map {[ 7 := (100, 5000) ]} initial_state)
    = (Some 5000, with_fee_bco_matching_map {[ 7 := (100, 5000) ]} initial_state).
Proof.
  apply (tolerance_reuse (scenario_config 0) [1000; 2000] 7 105 100 5000
           (with_fee_bco_matching_map {[ 7 := (100, 5000) ]} initial_state)).
  - vm_compute. reflexivity.
  - vm_compute. reflexivity.
Defined.

(** A fee without a cached pair, a fee bco of 9 and a list of two lvl1 bco. *)
Lemma default_cache_reuse_witness :
  let r := match_bco (scenario_config 0) [1000; 2000] 7 9 initial_state in
  let row := scenario_row 7 9 [5; 10; 7; 10] in
  r.1 = Some 0
  ∧ m_fee_bco_matching_map r.2 = {[ 7 := (0, 0) ]}
  ∧ bco_list_map r.2 = ∅
  ∧ assigned_bco scenario_collaborators (scenario_config 0) 5001
      [1000; 2000] initial_state row = 0
  ∧ queue_of [1000; 2000]
      (process_waveform scenario_constants scenario_collaborators
         (scenario_config 0) 5001 [1000; 2000] initial_state row) 7
    = [1000; 2000].
Proof.
  destruct (default_cache_reuse scenario_constants scenario_collaborators
              (scenario_config 0) 5001 [1000; 2000] 7 9 initial_state)
    as ((R1 & R2 & R3) & W).
  - reflexivity.
  - unfold max_fee_bco_diff. lia.
  - destruct (W (scenario_row 7 9 [5; 10; 7; 10])) as [W1 W2];
      [reflexivity..|].
    cbv zeta. split_and!; [exact R1|exact R2|exact R3|exact W1|exact W2].
Defined.

(** ** The multimap: key order and stability of [emplace] *)

Lemma filter_none {A : Type} (P : A → Prop) `{!∀ x, Decision (P x)} (l : list A) :
  Forall (λ x, ¬ P x) l → filter P l = [].
Proof.
  induction 1 as [|x l N _ IH]; [done|]. by rewrite filter_cons_False.
Qed.

Section MultimapFacts.
Context {V : Type}.
Variable key : V → Z.

Lemma emplace_perm k (v : V) m : multimap.emplace k v m ≡ₚ (k, v) :: m.
Proof.
  induction m as [|[k' v'] m IH]; simpl; [done|].
  destruct (k <? k'); [done|]. rewrite IH. apply perm_swap.
Qed.

Lemma emplace_ordered k (v : V) m :
  ordered m → ordered (multimap.emplace k v m).
Proof.
  unfold ordered. induction m as [|[k' v'] m IH]; simpl; intros S.
  - repeat constructor.
  - apply StronglySorted_inv in S as [S F].
    destruct (Z.ltb_spec k k').
    + constructor; [by constructor|].
      constructor; [unfold multimap.key_le; simpl; lia|].
      eapply Forall_impl; [exact F|].
      intros [k2 v2]. unfold multimap.key_le. simpl. lia.
    + constructor; [by apply IH|].
      rewrite emplace_perm. constructor; [unfold multimap.key_le; simpl; lia|done].
Qed.

Lemma emplace_well_keyed (v : V) m :
  well_keyed key m → well_keyed key (multimap.emplace (key v) v m).
Proof.
  unfold well_keyed. intros F. rewrite emplace_perm. by constructor.
Qed.

(** Among the records of one key, a new record comes last. *)
Lemma emplace_with_key k (v : V) m :
  ordered m → well_keyed key m →
  with_key key k (multimap.values (multimap.emplace (key v) v m))
  = with_key key k (multimap.values m) ++ with_key key k [v].
Proof.
  unfold ordered, well_keyed, with_key, multimap.values.
  induction m as [|[k' v'] m IH]; simpl; intros S F; [done|].
  apply StronglySorted_inv in S as [S L].
  apply Forall_cons in F as [E F]. simpl in E. subst k'.
  destruct (Z.ltb_spec (key v) (key v')); simpl.
  - assert (N : key v = k → filter (λ x, key x = k) (map snd m) = []).
    { intros <-. apply filter_none, Forall_forall. intros x Hx.
      apply list_elem_of_fmap in Hx as [[k2 v2] [-> Hx]]. simpl.
      rewrite Forall_forall in L, F.
      specialize (L _ Hx). specialize (F _ Hx).
      unfold multimap.key_le in L. simpl in *. lia. }
    rewrite (filter_cons _ v), (filter_cons _ v'), (filter_cons _ v), filter_nil.
    repeat case_decide; try lia; rewrite ?N by done; by rewrite ?app_nil_r.
  - rewrite (filter_cons _ v'), IH, (filter_cons _ v') by done.
    by case_decide.
Qed.

(** The mapped values of an ordered, well keyed multimap ascend by key. *)
Lemma values_ascending (m : multimap.t V) :
  ordered m → well_keyed key m → ascending key (multimap.values m).
Proof.
  unfold ordered, well_keyed, ascending, multimap.values.
  induction m as [|[k v] m IH]; simpl; intros S F; [constructor|].
  apply StronglySorted_inv in S as [S L].
  apply Forall_cons in F as [E F]. simpl in E. subst k.
  constructor; [by apply IH|].
  apply Forall_forall. intros x Hx.
  apply list_elem_of_fmap in Hx as [[k2 v2] [-> Hx]]. simpl.
  rewrite Forall_forall in L, F.
  specialize (L _ Hx). specialize (F _ Hx).
  unfold multimap.key_le in L. simpl in *. lia.
Qed.

Lemma emplace_all_spec xs (m : multimap.t V) :
  ordered m → well_keyed key m →
  ordered (emplace_all key xs m) ∧ well_keyed key (emplace_all key xs m)
  ∧ (∀ k, with_key key k (multimap.values (emplace_all key xs m))
          = with_key key k (multimap.values m) ++ with_key key k xs)
  ∧ emplace_all key xs m ≡ₚ m ++ map (λ x, (key x, x)) xs.
Proof.
  revert m. induction xs as [|x xs IH]; simpl; intros m S F.
  - split_and!; try done.
    + intros k. unfold with_key. by rewrite filter_nil, app_nil_r.
    + by rewrite app_nil_r.
  - destruct (IH (multimap.emplace (key x) x m)) as (S' & F' & E & P).
    { by apply emplace_ordered. }
    { by apply emplace_well_keyed. }
    split_and!; try done.
    + intros k. rewrite E, emplace_with_key by done.
      rewrite <- app_assoc. f_equal. unfold with_key.
      rewrite (filter_cons _ x xs), (filter_cons _ x []), filter_nil.
      by case_decide.
    + rewrite P, emplace_perm. by rewrite <- Permutation_middle.
Qed.

End MultimapFacts.

(** ** The sample loop *)

Section ScanFacts.
Variable K : Constants.
Variable row : WaveformRow.

Local Abbreviation loop := (fold_left (scan_step K row)).
Local Abbreviation valid := (valid_adc K row).

Lemma scan_loop_cons i indices acc :
  loop (i :: indices) acc = loop indices (scan_step K row acc i).
Proof. done. Qed.

Lemma scan_step_skip acc i : valid i = false → scan_step K row acc i = acc.
Proof.
  unfold valid_adc, scan_step. destruct acc as [[r smax] m]. intros H.
  apply negb_false_iff in H. by rewrite H.
Qed.

Lemma scan_step_take r smax m i :
  valid i = true →
  scan_step K row (r, smax, m) i
  = let sample := assign_adc i (adc_at row i) r in
    (sample, if s_adc smax <? adc_at row i then sample else smax,
     multimap.emplace (s_lvl1_bco r) sample m).
Proof.
  unfold valid_adc, scan_step. intros H.
  apply negb_true_iff in H. rewrite H. simpl. by destruct (_ <? _).
Qed.

(** The loop puts into the multimap the valid entries, in order, each as
    the running sample with its index and adc. *)
Lemma scan_loop_emitted indices r smax m s :
  (∀ i a, assign_adc i a r = assign_adc i a s) →
  (loop indices (r, smax, m)).2
  = emplace_all s_lvl1_bco (emitted K row s indices) m.
Proof.
  revert r smax m. induction indices as [|i l IH]; intros r smax m B; [done|].
  rewrite scan_loop_cons. unfold emitted in *.
  destruct (valid i) eqn:Hv.
  - rewrite scan_step_take by done. simpl.
    rewrite filter_cons_True by (by rewrite Hv). simpl.
    rewrite (IH _ _ _) by (intros; by rewrite <- B).
    rewrite B. by rewrite (f_equal s_lvl1_bco (B 0 0) : s_lvl1_bco r = _).
  - rewrite scan_step_skip by done.
    rewrite filter_cons_False by (rewrite Hv; simpl; tauto). by apply IH.
Qed.

(** Entries that do not exceed [sample_max] leave it as it is. *)
Lemma scan_loop_keep indices r smax m :
  (∀ i, i ∈ indices → valid i = true → adc_at row i ≤ s_adc smax) →
  (loop indices (r, smax, m)).1.2 = smax.
Proof.
  revert r m. induction indices as [|i l IH]; intros r m H; [done|].
  rewrite scan_loop_cons. destruct (valid i) eqn:Hv.
  - rewrite scan_step_take by done. simpl.
    destruct (Z.ltb_spec (s_adc smax) (adc_at row i)) as [Hlt|_].
    + specialize (H i (list_elem_of_here _ _) Hv). lia.
    + apply IH. intros j Hj. apply H. by right.
  - rewrite scan_step_skip by done. apply IH. intros j Hj. apply H. by right.
Qed.

(** Entries below a bound keep [sample_max] below it, and the running
    sample keeps the fields the loop does not assign. *)
Lemma scan_loop_below indices r smax m s bound :
  (∀ i a, assign_adc i a r = assign_adc i a s) →
  s_adc smax < bound →
  (∀ i, i ∈ indices → valid i = true → adc_at row i < bound) →
  let res := loop indices (r, smax, m) in
  s_adc res.1.2 < bound ∧ ∀ i a, assign_adc i a res.1.1 = assign_adc i a s.
Proof.
  revert r smax m. induction indices as [|i l IH]; intros r smax m B S H; [done|].
  rewrite scan_loop_cons. destruct (valid i) eqn:Hv.
  - rewrite scan_step_take by done. simpl.
    apply IH.
    + intros. by rewrite <- B.
    + destruct (_ <? _); [|done]. simpl. apply H; [left|done].
    + intros j Hj. apply H. by right.
  - rewrite scan_step_skip by done. apply IH; [done..|].
    intros j Hj. apply H. by right.
Qed.

Lemma scan_indices_split i :
  0 ≤ i < scan_bound row →
  seqZ 0 (scan_bound row)
  = seqZ 0 i ++ i :: seqZ (i + 1) (scan_bound row - i - 1).
Proof.
  intros H.
  replace (scan_bound row) with (i + (scan_bound row - i)) at 1 by lia.
  rewrite seqZ_app by lia. f_equal. rewrite Z.add_0_l.
  rewrite seqZ_cons by lia.
  by replace (Z.succ i) with (i + 1) by lia;
     replace (Z.pred (scan_bound row - i)) with (scan_bound row - i - 1) by lia.
Qed.

(** The first valid entry that reaches the maximum, if that is above 0,
    is the peak. *)
Lemma scan_samples_peak sample m i :
  0 ≤ i < scan_bound row → valid i = true → 0 < adc_at row i →
  (∀ j, 0 ≤ j < scan_bound row → valid j = true →
        adc_at row j ≤ adc_at row i) →
  (∀ j, 0 ≤ j < i → valid j = true → adc_at row j < adc_at row i) →
  (scan_samples K row sample m).1.2 = assign_adc i (adc_at row i) sample.
Proof.
  intros Hi Hv Hpos Hmax Hfirst. unfold scan_samples.
  rewrite (scan_indices_split i Hi), fold_left_app. rewrite scan_loop_cons.
  destruct (scan_loop_below (seqZ 0 i) sample Sample_default m sample
              (adc_at row i)) as [S B]; [done|done| |].
  { intros j Hj. apply elem_of_seqZ in Hj. apply Hfirst. lia. }
  destruct (loop (seqZ 0 i) _) as [[r smax] m1]. simpl in S, B.
  rewrite scan_step_take by done. simpl.
  destruct (Z.ltb_spec (s_adc smax) (adc_at row i)); [|lia].
  rewrite scan_loop_keep; [apply B|].
  intros j Hj Hvj. apply elem_of_seqZ in Hj. simpl. apply Hmax; [lia|done].
Qed.

(** When no valid entry is above 0, the peak is the default sample. *)
Lemma scan_samples_no_peak sample m :
  (∀ j, 0 ≤ j < scan_bound row → valid j = true → adc_at row j ≤ 0) →
  (scan_samples K row sample m).1.2 = Sample_default.
Proof.
  intros H. unfold scan_samples. apply scan_loop_keep.
  intros j Hj Hvj. apply elem_of_seqZ in Hj. simpl. apply H; [lia|done].
Qed.

(** [sample_max] does not depend on the multimap the loop fills. *)
Lemma scan_loop_max_indep indices r smax m m' :
  (loop indices (r, smax, m)).1 = (loop indices (r, smax, m')).1.
Proof.
  revert r smax m m'. induction indices as [|i l IH]; intros r smax m m'; [done|].
  rewrite !scan_loop_cons. destruct (valid i) eqn:Hv.
  - rewrite !scan_step_take by done. simpl. apply IH.
  - rewrite !scan_step_skip by done. apply IH.
Qed.

Lemma scan_samples_max_indep sample m :
  (scan_samples K row sample m).1.2 = peak K row sample.
Proof.
  unfold peak, scan_samples. f_equal. apply scan_loop_max_indep.
Qed.

Lemma scan_samples_map sample m :
  (scan_samples K row sample m).2
  = emplace_all s_lvl1_bco
      (emitted K row sample (seqZ 0 (scan_bound row))) m.
Proof. unfold scan_samples. by apply scan_loop_emitted. Qed.

Lemma emitted_lvl1_bco sample indices :
  Forall (λ x, s_lvl1_bco x = s_lvl1_bco sample) (emitted K row sample indices).
Proof. unfold emitted. apply Forall_fmap, Forall_forall. by intros. Qed.

Lemma scan_bound_le : scan_bound row ≤ 1024.
Proof. unfold scan_bound. lia. Qed.

End ScanFacts.

(** ** Claims on the peak and the signal flag *)

(** C5 — peak extraction, as amended.  At most 1024 entries are scanned.
    When some scanned entry that is not the invalid value has an adc above 0,
    the peak is the running sample with the index and adc of the first such
    entry that reaches the maximum (a later entry replaces the peak only if
    strictly greater).  When every scanned entry is the invalid value, the
    peak is the zero-initialized sample.  For the adc sequence [5, 10, 7, 10]
    the peak has sample index 1 and adc 10. *)
Theorem peak_extraction (K : Constants) (row : WaveformRow) (sample : Sample) :
  scan_bound row ≤ 1024
  ∧ (∀ i, 0 ≤ i < scan_bound row → valid_adc K row i = true →
          0 < adc_at row i →
          (∀ j, 0 ≤ j < scan_bound row → valid_adc K row j = true →
                adc_at row j ≤ adc_at row i) →
          (∀ j, 0 ≤ j < i → valid_adc K row j = true →
                adc_at row j < adc_at row i) →
          peak K row sample = assign_adc i (adc_at row i) sample)
  ∧ ((∀ j, 0 ≤ j < scan_bound row → valid_adc K row j = false) →
     peak K row sample = Sample_default)
  ∧ peak scenario_constants (scenario_row 7 55 [5; 10; 7; 10]) sample
    = assign_adc 1 10 sample.
Proof.
  split_and!.
  - apply scan_bound_le.
  - intros i Hi Hv Hpos Hmax Hfirst. unfold peak.
    by apply scan_samples_peak.
  - intros H. unfold peak. apply scan_samples_no_peak.
    intros j Hj Hv. rewrite H in Hv by done. discriminate.
  - unfold peak.
    apply (scan_samples_peak scenario_constants
             (scenario_row 7 55 [5; 10; 7; 10]) sample [] 1).
    + change (scan_bound (scenario_row 7 55 [5; 10; 7; 10])) with 4. lia.
    + reflexivity.
    + reflexivity.
    + change (scan_bound (scenario_row 7 55 [5; 10; 7; 10])) with 4.
      intros j Hj _.
      assert (j = 0 ∨ j = 1 ∨ j = 2 ∨ j = 3) as Hc by lia.
      destruct Hc as [Hc|[Hc|[Hc|Hc]]]; subst j; vm_compute; discriminate.
    + intros j Hj _. assert (j = 0) as Hc by lia. subst j. reflexivity.
Qed.

(** C5 — counterexample to the claim as stated: in the adc sequence
    [invalid, 0] the only entry that is not the invalid value is at index 1,
    so it holds the maximum, yet the peak is the zero-initialized sample
    (sample index 0, fee 0) and not the sample of index 1. *)
Lemma peak_zero_adc_counterexample :
  let row := scenario_row 7 55 [65000; 0] in
  let sample :=
    running_sample scenario_collaborators (scenario_config 0) 5001 []
      initial_state row in
  scan_bound row = 2
  ∧ valid_adc scenario_constants row 0 = false
  ∧ valid_adc scenario_constants row 1 = true
  ∧ s_fee_id sample = 7
  ∧ peak scenario_constants row sample = Sample_default
  ∧ peak scenario_constants row sample ≠ assign_adc 1 (adc_at row 1) sample.
Proof.
  split_and!; try (vm_compute; reflexivity).
  intros H. apply (f_equal s_sample) in H. vm_compute in H. discriminate.
Qed.

(** C6 — signal classification.  The flag of the waveform made from
    [sample_max] is true exactly when rms > 0, adc_max >= min_adc,
    sample_min <= sample_max < sample_max threshold, and
    adc_max > pedestal + n_sigma * rms, the last comparison strict.  With
    pedestal 10, rms 2, n_sigma 3, min_adc 0 and the sample window 0 to 1024,
    adc_max 15 is not a signal and adc_max 17 is. *)
Theorem signal_classification (cfg : Config) (pedestal rms : float)
    (sample_max : Sample) :
  let waveform := make_waveform cfg pedestal rms sample_max in
  w_adc_max waveform = s_adc sample_max
  ∧ w_sample_max waveform = s_sample sample_max
  ∧ (w_is_signal waveform = true
     ↔ PrimFloat.ltb PrimFloat.zero rms = true
       ∧ PrimFloat.leb (m_min_adc cfg) (to_double (w_adc_max waveform)) = true
       ∧ m_sample_min cfg ≤ w_sample_max waveform < m_sample_max cfg
       ∧ PrimFloat.ltb
           (PrimFloat.add pedestal (PrimFloat.mul (m_n_sigma cfg) rms))
           (to_double (w_adc_max waveform)) = true)
  ∧ (∀ flags verbosity s,
       0 ≤ s_sample s < 1024 →
       let scenario := mkConfig flags (to_double 3) (to_double 0) 0 1024 verbosity in
       (s_adc s = 15 →
        w_is_signal (make_waveform scenario (to_double 10) (to_double 2) s) = false)
       ∧ (s_adc s = 17 →
          w_is_signal (make_waveform scenario (to_double 10) (to_double 2) s) = true)).
Proof.
  simpl. split_and!; [done|done| |].
  - unfold is_signal. simpl.
    rewrite !andb_true_iff, Z.leb_le, Z.ltb_lt. tauto.
  - intros flags verbosity s Hs. unfold is_signal. simpl.
    destruct (Z.leb_spec 0 (s_sample s)); [|lia].
    destruct (Z.ltb_spec (s_sample s) 1024); [|lia].
    split; intros ->; vm_compute; reflexivity.
Qed.

(** ** The packet and the event: what the bookkeeping leaves alone *)

Section EventFacts.
Variable K : Constants.
Variable X : Collaborators.
Variable cfg : Config.

Lemma same_records_refl st : same_records st st.
Proof. by repeat split. Qed.

Lemma same_records_trans st1 st2 st3 :
  same_records st1 st2 → same_records st2 st3 → same_records st1 st3.
Proof.
  unfold same_records. intros (?&?&?&?&?&?) (?&?&?&?&?&?).
  split_and!; congruence.
Qed.

Lemma print_same msg st : same_records st (print msg st).
Proof. by repeat split. Qed.

Lemma print_if_same b msg st : same_records st (print_if b msg st).
Proof. destruct b; [apply print_same | apply same_records_refl]. Qed.

Lemma push_tagger_same tagger st : same_records st (push_tagger tagger st).
Proof. by repeat split. Qed.

Lemma enter_waveforms_same st : same_records st (enter_waveforms st).
Proof. by repeat split. Qed.

Lemma print_packet_same packet_id packet main_bco_list st :
  same_records st (print_packet cfg packet_id packet main_bco_list st).
Proof.
  unfold print_packet. destruct (verbose cfg); [|apply same_records_refl].
  destruct main_bco_list; [apply print_same|].
  eapply same_records_trans; apply print_same.
Qed.

Lemma tagger_step_same packet_id acc r :
  same_records acc.2 (tagger_step K cfg packet_id acc r).2.
Proof.
  destruct acc as [l st]. unfold tagger_step.
  destruct (flag_set cfg (EvalTagger K)), (_ && _); simpl;
    first [apply push_tagger_same | apply same_records_refl].
Qed.

Lemma tagger_loop_same packet_id rows acc st :
  same_records st acc.2 →
  same_records st (fold_left (tagger_step K cfg packet_id) rows acc).2.
Proof.
  revert acc. induction rows as [|r rows IH]; intros acc S; [done|].
  simpl. apply IH.
  eapply same_records_trans; [exact S | apply tagger_step_same].
Qed.

Lemma collect_taggers_same packet_id packet st :
  same_records st (collect_taggers K cfg packet_id packet st).2.
Proof. apply tagger_loop_same, same_records_refl. Qed.

(** One row keeps the container, and the records it adds are those of
    [row_records]. *)
Lemma process_waveform_aggregates packet_id main_bco_list st row tr :
  aggregates st tr →
  aggregates (process_waveform K X cfg packet_id main_bco_list st row)
    (records_app tr (row_records K X cfg packet_id main_bco_list st row)).
Proof.
  intros ((S1 & S2 & S3) & (W1 & W2 & W3)).
  unfold row_records, records_app, aggregates.
  destruct (channel_valid K row) eqn:V.
  - destruct (process_waveform_valid K X cfg packet_id main_bco_list st row V)
      as (_ & _ & _ & _ & _ & _ & E1 & E2).
    cbv zeta in E1, E2. rewrite E1, E2, scan_samples_map, scan_samples_max_indep.
    set (sample := running_sample X cfg packet_id main_bco_list st row).
    destruct (emplace_all_spec s_lvl1_bco
                (emitted K row sample (seqZ 0 (scan_bound row)))
                (sample_map st) S1 S2) as (S1' & S2' & S3' & _).
    cbn [fst snd]. split; [split_and!; [done|done|] |].
    + intros k. unfold with_key in *. by rewrite S3', filter_app, S3.
    + destruct (flag_set cfg (EvalWaveform K)).
      * set (w := make_waveform _ _ _ _).
        split_and!; [by apply emplace_ordered | |].
        { by apply (emplace_well_keyed w_lvl1_bco). }
        intros k. rewrite (emplace_with_key w_lvl1_bco) by done.
        unfold with_key in *. by rewrite filter_app, W3.
      * rewrite app_nil_r. done.
  - destruct (process_waveform_skip K X cfg packet_id main_bco_list st row V)
      as (_ & _ & _ & _ & E1 & E2 & _).
    cbv zeta in E1, E2. rewrite E1, E2. cbn [fst snd]. by rewrite !app_nil_r.
Qed.

Lemma process_waveform_container packet_id main_bco_list st row :
  m_container (process_waveform K X cfg packet_id main_bco_list st row)
  = m_container st.
Proof.
  destruct (channel_valid K row) eqn:V.
  - by destruct (process_waveform_valid K X cfg packet_id main_bco_list st row V)
      as (E & _).
  - by destruct (process_waveform_skip K X cfg packet_id main_bco_list st row V)
      as (E & _).
Qed.

End EventFacts.

(** ** The temporary maps along the loops of an event *)

Section AggregationFacts.
Variable K : Constants.
Variable X : Collaborators.
Variable cfg : Config.

Lemma records_app_nil_r tr : records_app tr ([], []) = tr.
Proof. destruct tr. unfold records_app. simpl. by rewrite !app_nil_r. Qed.

Lemma records_app_assoc a b c :
  records_app (records_app a b) c = records_app a (records_app b c).
Proof. unfold records_app. simpl. by rewrite !app_assoc. Qed.

Lemma aggregates_same st st' tr :
  same_records st st' → aggregates st tr → aggregates st' tr.
Proof.
  unfold same_records, aggregates. intros (_ & _ & -> & -> & _). done.
Qed.

Lemma waveform_loop_aggregates packet_id main_bco_list rows st tr :
  aggregates st tr →
  aggregates (waveform_loop K X cfg packet_id main_bco_list rows st)
    (records_app tr (loop_records K X cfg packet_id main_bco_list rows st)).
Proof.
  revert st tr. induction rows as [|row rows IH]; intros st tr A.
  - simpl. by rewrite records_app_nil_r.
  - rewrite waveform_loop_cons. simpl loop_records.
    rewrite <- records_app_assoc. apply IH.
    by apply process_waveform_aggregates.
Qed.

Lemma waveform_loop_container packet_id main_bco_list rows st :
  m_container (waveform_loop K X cfg packet_id main_bco_list rows st)
  = m_container st.
Proof.
  revert st. induction rows as [|row rows IH]; intros st; [done|].
  rewrite waveform_loop_cons, IH. apply process_waveform_container.
Qed.

(** The state in which a packet enters its waveform loop. *)
Lemma packet_prologue_same packet_id packet st :
  let r := collect_taggers K cfg packet_id packet st in
  same_records st (enter_waveforms (print_packet cfg packet_id packet r.1 r.2)).
Proof.
  simpl. eapply same_records_trans; [apply collect_taggers_same|].
  eapply same_records_trans; [apply print_packet_same|].
  apply enter_waveforms_same.
Qed.

Lemma process_packet_aggregates packet_id packet st tr :
  aggregates st tr →
  aggregates (process_packet K X cfg packet_id packet st)
    (records_app tr (packet_records K X cfg packet_id packet st))
  ∧ samples (m_container (process_packet K X cfg packet_id packet st))
    = samples (m_container st)
  ∧ waveforms (m_container (process_packet K X cfg packet_id packet st))
    = waveforms (m_container st).
Proof.
  intros A. unfold process_packet, packet_records.
  pose proof (packet_prologue_same packet_id packet st) as S.
  pose proof (collect_taggers_same K cfg packet_id packet st) as S1.
  destruct (collect_taggers K cfg packet_id packet st) as [main st1].
  simpl in S, S1.
  pose proof (print_packet_same cfg packet_id packet main st1) as S2.
  destruct (eval_data K cfg).
  - rewrite waveform_loop_container.
    split; [|by destruct S as (_ & _ & _ & _ & -> & ->)].
    apply waveform_loop_aggregates. by apply (aggregates_same st).
  - rewrite records_app_nil_r.
    pose proof (same_records_trans _ _ _ S1 S2) as S3.
    split; [by apply (aggregates_same st)|].
    by destruct S3 as (_ & _ & _ & _ & -> & ->).
Qed.

Lemma packet_step_aggregates event packet_id st tr :
  aggregates st tr →
  aggregates (packet_step K X cfg event st packet_id)
    (records_app tr
       (match getPacket event packet_id with
        | Some packet => packet_records K X cfg packet_id packet st
        | None => ([], [])
        end))
  ∧ samples (m_container (packet_step K X cfg event st packet_id))
    = samples (m_container st)
  ∧ waveforms (m_container (packet_step K X cfg event st packet_id))
    = waveforms (m_container st).
Proof.
  intros A. unfold packet_step. destruct (getPacket event packet_id).
  - by apply process_packet_aggregates.
  - rewrite records_app_nil_r.
    pose proof (print_if_same (1 <? Verbosity cfg)
                  (MsgPacketNotFound packet_id) st) as S.
    split; [by apply (aggregates_same st)|].
    by destruct S as (_ & _ & _ & _ & -> & ->).
Qed.

Lemma packets_aggregates event packet_ids st tr :
  aggregates st tr →
  let st' := fold_left (packet_step K X cfg event) packet_ids st in
  aggregates st' (records_app tr (packets_records K X cfg event packet_ids st))
  ∧ samples (m_container st') = samples (m_container st)
  ∧ waveforms (m_container st') = waveforms (m_container st).
Proof.
  revert st tr. induction packet_ids as [|id ids IH]; intros st tr A.
  - simpl. by rewrite records_app_nil_r.
  - simpl fold_left. simpl packets_records.
    destruct (packet_step_aggregates event id st tr A) as (A1 & E1 & E2).
    destruct (IH _ _ A1) as (A2 & E3 & E4).
    rewrite <- records_app_assoc. simpl in *.
    by rewrite E3, E4, E1, E2.
Qed.

Lemma enter_event_aggregates st : aggregates (enter_event st) ([], []).
Proof. repeat split; simpl; constructor. Qed.

Lemma process_event_discard event st :
  8 ≤ getEvtType event → process_event K X cfg event st = (DISCARDEVENT, st).
Proof.
  intros H. unfold process_event.
  by destruct (Z.leb_spec 8 (getEvtType event)); [|lia].
Qed.

(** The container when an event has been processed. *)
Lemma process_event_container event st :
  getEvtType event < 8 →
  let st' := packet_loop K X cfg event (enter_event st) in
  let c := m_container (process_event K X cfg event st).2 in
  samples c = (if flag_set cfg (EvalSample K)
               then multimap.values (sample_map st') else [])
  ∧ waveforms c = (if flag_set cfg (EvalWaveform K)
                   then multimap.values (waveform_map st') else []).
Proof.
  intros H. unfold process_event.
  destruct (Z.leb_spec 8 (getEvtType event)); [lia|].
  destruct (packets_aggregates event (m_packet_ids K) (enter_event st) _
              (enter_event_aggregates st)) as (_ & E1 & E2).
  simpl in E1, E2. fold (packet_loop K X cfg event (enter_event st)) in E1, E2.
  unfold copy_samples, copy_waveforms. simpl.
  destruct (flag_set cfg (EvalSample K)), (flag_set cfg (EvalWaveform K));
    simpl; rewrite ?E1, ?E2; done.
Qed.

Lemma process_event_sorted event st :
  container_sorted (m_container st) →
  container_sorted (m_container (process_event K X cfg event st).2).
Proof.
  intros S. destruct (Z.le_gt_cases 8 (getEvtType event)) as [H|H].
  - by rewrite process_event_discard.
  - destruct (process_event_container event st) as [E1 E2]; [lia|].
    destruct (packets_aggregates event (m_packet_ids K) (enter_event st) _
                (enter_event_aggregates st)) as (((S1 & S2 & _) & (W1 & W2 & _)) & _).
    fold (packet_loop K X cfg event (enter_event st)) in S1, S2, W1, W2.
    unfold container_sorted. simpl in E1, E2. rewrite E1, E2.
    split.
    + destruct (flag_set cfg (EvalSample K)); [|constructor].
      by apply values_ascending.
    + destruct (flag_set cfg (EvalWaveform K)); [|constructor].
      by apply values_ascending.
Qed.

Lemma run_sorted events st :
  container_sorted (m_container st) →
  container_sorted (m_container (run K X cfg events st)).
Proof.
  revert st. induction events as [|event events IH]; intros st S; [done|].
  simpl. apply IH. by apply process_event_sorted.
Qed.

End AggregationFacts.

(** ** Claim on the order of the aggregated records *)

(** C7 — order of the container.  After every event of a run the samples
    and the waveforms of the container ascend by lvl1 bco; and after an event
    that is processed, the records of one lvl1 bco appear in the order in
    which they were put into the temporary maps (each kind being copied to
    the container when its flag is set). *)
Theorem aggregation_sorted_stable (K : Constants) (X : Collaborators)
    (cfg : Config) :
  (∀ events,
     container_sorted (m_container (run K X cfg events initial_state)))
  ∧ (∀ event st,
       getEvtType event < 8 →
       let c := m_container (process_event K X cfg event st).2 in
       container_sorted c
       ∧ (∀ k, with_key s_lvl1_bco k (samples c)
               = if flag_set cfg (EvalSample K)
                 then with_key s_lvl1_bco k (event_records K X cfg event st).1
                 else [])
       ∧ (∀ k, with_key w_lvl1_bco k (waveforms c)
               = if flag_set cfg (EvalWaveform K)
                 then with_key w_lvl1_bco k (event_records K X cfg event st).2
                 else [])).
Proof.
  split.
  - intros events. apply run_sorted. split; constructor.
  - intros event st H.
    destruct (process_event_container K X cfg event st H) as [E1 E2].
    destruct (packets_aggregates K X cfg event (m_packet_ids K) (enter_event st) _
                (enter_event_aggregates st))
      as (((S1 & S2 & S3) & (W1 & W2 & W3)) & _).
    fold (packet_loop K X cfg event (enter_event st)) in *.
    fold (event_records K X cfg event st) in *.
    cbv zeta in *. unfold container_sorted. rewrite E1, E2.
    simpl in S3, W3. split_and!.
    + destruct (flag_set cfg (EvalSample K)); [|constructor].
      by apply values_ascending.
    + destruct (flag_set cfg (EvalWaveform K)); [|constructor].
      by apply values_ascending.
    + intros k. by destruct (flag_set cfg (EvalSample K)).
    + intros k. by destruct (flag_set cfg (EvalWaveform K)).
Qed.

(** ** Claim on orphans *)

Lemma emitted_elem (K : Constants) (row : WaveformRow) (sample : Sample) (i : Z) :
  0 ≤ i < scan_bound row → valid_adc K row i = true →
  assign_adc i (adc_at row i) sample
  ∈ emitted K row sample (seqZ 0 (scan_bound row)).
Proof.
  intros Hi Hv. unfold emitted. apply list_elem_of_fmap. exists i. split; [done|].
  apply list_elem_of_filter. split; [by rewrite Hv|].
  apply elem_of_seqZ. lia.
Qed.

Lemma emplace_all_kept (xs : list Sample) (m : multimap.t Sample) e :
  e ∈ m → e ∈ emplace_all s_lvl1_bco xs m.
Proof.
  revert m. induction xs as [|x xs IH]; intros m H; [done|].
  unfold emplace_all. cbn [fold_left]. apply IH.
  rewrite emplace_perm. apply elem_of_cons. by right.
Qed.

Lemma emplace_all_elem (xs : list Sample) (m : multimap.t Sample) x :
  x ∈ xs → (s_lvl1_bco x, x) ∈ emplace_all s_lvl1_bco xs m.
Proof.
  revert m. induction xs as [|y xs IH]; intros m H.
  - by apply elem_of_nil in H.
  - unfold emplace_all. cbn [fold_left].
    apply elem_of_cons in H as [->|H].
    + apply emplace_all_kept. rewrite emplace_perm. apply elem_of_cons. by left.
    + by apply IH.
Qed.

Section OrphanFacts.
Variable K : Constants.
Variable X : Collaborators.
Variable cfg : Config.

(** The sample flag is one of the two flags that ask for the waveform
    loop. *)
Lemma eval_data_sample :
  flag_set cfg (EvalSample K) = true → eval_data K cfg = true.
Proof.
  unfold eval_data, flag_set. rewrite Z.land_lor_distr_r.
  intros H. apply negb_true_iff, Z.eqb_neq in H.
  apply negb_true_iff, Z.eqb_neq. intros E.
  apply Z.lor_eq_0_iff in E as [E _]. done.
Qed.

(** No row, no packet takes an entry out of [sample_map]. *)
Lemma process_waveform_sample_kept packet_id main_bco_list st row e :
  e ∈ sample_map st →
  e ∈ sample_map (process_waveform K X cfg packet_id main_bco_list st row).
Proof.
  intros H. destruct (channel_valid K row) eqn:V.
  - destruct (process_waveform_valid K X cfg packet_id main_bco_list st row V)
      as (_ & _ & _ & _ & _ & _ & E & _).
    cbv zeta in E. rewrite E, scan_samples_map. by apply emplace_all_kept.
  - destruct (process_waveform_skip K X cfg packet_id main_bco_list st row V)
      as (_ & _ & _ & _ & E & _).
    cbv zeta in E. by rewrite E.
Qed.

Lemma waveform_loop_sample_kept packet_id main_bco_list rows st e :
  e ∈ sample_map st →
  e ∈ sample_map (waveform_loop K X cfg packet_id main_bco_list rows st).
Proof.
  revert st. induction rows as [|row rows IH]; intros st H; [done|].
  rewrite waveform_loop_cons. by apply IH, process_waveform_sample_kept.
Qed.

Lemma packet_step_sample_kept event st packet_id e :
  e ∈ sample_map st →
  e ∈ sample_map (packet_step K X cfg event st packet_id).
Proof.
  intros H. unfold packet_step.
  destruct (getPacket event packet_id) as [packet|].
  - unfold process_packet.
    pose proof (packet_prologue_same K cfg packet_id packet st) as S.
    pose proof (collect_taggers_same K cfg packet_id packet st) as S1.
    destruct (collect_taggers K cfg packet_id packet st) as [main st1].
    simpl in S, S1.
    pose proof (print_packet_same cfg packet_id packet main st1) as S2.
    destruct (eval_data K cfg).
    + apply waveform_loop_sample_kept.
      destruct S as (_ & _ & E & _). by rewrite E.
    + destruct (same_records_trans _ _ _ S1 S2) as (_ & _ & E & _).
      by rewrite E.
  - destruct (print_if_same (1 <? Verbosity cfg)
                (MsgPacketNotFound packet_id) st) as (_ & _ & E & _).
    by rewrite E.
Qed.

Lemma packets_sample_kept event packet_ids st e :
  e ∈ sample_map st →
  e ∈ sample_map (fold_left (packet_step K X cfg event) packet_ids st).
Proof.
  revert st. induction packet_ids as [|id ids IH]; intros st H; [done|].
  simpl. by apply IH, packet_step_sample_kept.
Qed.

(** The packets of an event, split at one waveform row of one packet. *)
Lemma packet_loop_split event st ids_pre packet_id ids_post packet pre row post :
  eval_data K cfg = true →
  m_packet_ids K = ids_pre ++ packet_id :: ids_post →
  getPacket event packet_id = Some packet →
  waveform_rows packet = pre ++ row :: post →
  let st_packet := fold_left (packet_step K X cfg event) ids_pre st in
  let tagged := collect_taggers K cfg packet_id packet st_packet in
  let st_row :=
    waveform_loop K X cfg packet_id tagged.1 pre
      (enter_waveforms (print_packet cfg packet_id packet tagged.1 tagged.2)) in
  packet_loop K X cfg event st
  = fold_left (packet_step K X cfg event) ids_post
      (waveform_loop K X cfg packet_id tagged.1 post
         (process_waveform K X cfg packet_id tagged.1 st_row row)).
Proof.
  intros D Hids Hp Hrows. cbv zeta. unfold packet_loop.
  rewrite Hids, fold_left_app. cbn [fold_left]. f_equal.
  unfold packet_step at 1. rewrite Hp. unfold process_packet.
  destruct (collect_taggers K cfg packet_id packet _) as [main st1].
  rewrite D, Hrows. unfold waveform_loop. by rewrite fold_left_app.
Qed.

End OrphanFacts.

(** C4 — the orphan case, in an event.  Take a processed event with the
    sample flag set, one of its packets and one waveform row of that packet
    with a valid channel, and let the row be an orphan when its turn comes:
    outside tolerance, with no lvl1 bco left for its fee.  Then the search
    finds nothing, the running sample keeps lvl1_bco = 0, every cached pair
    reads as before the row, and for every entry of the row below its number
    of samples and below 1024 whose adc is not the invalid value, the sample
    with lvl1_bco = 0, that index and that adc is put into [sample_map] under
    the key 0 and is among the samples of the container when the event is
    done, which is the entry the tree receives. *)
Theorem orphan_sample_retained (K : Constants) (X : Collaborators)
    (cfg : Config) (event : Event) (st : State)
    (ids_pre ids_post : list Z) (packet_id : Z) (packet : Packet)
    (pre post : list WaveformRow) (row : WaveformRow) :
  getEvtType event < 8 →
  flag_set cfg (EvalSample K) = true →
  m_packet_ids K = ids_pre ++ packet_id :: ids_post →
  getPacket event packet_id = Some packet →
  waveform_rows packet = pre ++ row :: post →
  channel_valid K row = true →
  let st_packet :=
    fold_left (packet_step K X cfg event) ids_pre (enter_event st) in
  let tagged := collect_taggers K cfg packet_id packet st_packet in
  let main_bco_list := tagged.1 in
  let st_row :=
    waveform_loop K X cfg packet_id main_bco_list pre
      (enter_waveforms
         (print_packet cfg packet_id packet main_bco_list tagged.2)) in
  within_tolerance st_row (row_fee row) (row_bco row) = false →
  queue_of main_bco_list st_row (row_fee row) = [] →
  let st_row' := process_waveform K X cfg packet_id main_bco_list st_row row in
  let sample := running_sample X cfg packet_id main_bco_list st_row row in
  let st_event := (process_event K X cfg event st).2 in
  (match_bco cfg main_bco_list (row_fee row) (row_bco row) st_row).1 = None
  ∧ (s_lvl1_bco sample = 0 ∧ s_fee_id sample = row_fee row
     ∧ s_fee_bco sample = row_bco row)
  ∧ (∀ f, matching_pair st_row' f = matching_pair st_row f)
  ∧ (∀ i, 0 ≤ i < to_uint16 (SAMPLES row) → i < 1024 →
          to_uint16 (ADC row i) ≠ m_adc_invalid K →
          let s := assign_adc i (to_uint16 (ADC row i)) sample in
          (s_lvl1_bco s = 0 ∧ s_sample s = i
           ∧ s_adc s = to_uint16 (ADC row i))
          ∧ (0, s) ∈ sample_map st_row'
          ∧ s ∈ samples (m_container st_event))
  ∧ last (m_evaluation_tree st_event) = Some (m_container st_event).
Proof.
  intros T Fl Hids Hp Hrows V. cbv zeta. intros W Q.
  pose proof (eval_data_sample K cfg Fl) as D.
  pose proof (packet_loop_split K X cfg event (enter_event st) ids_pre
                packet_id ids_post packet pre row post D Hids Hp Hrows) as L.
  cbv zeta in L.
  set (tagged := collect_taggers K cfg packet_id packet
                   (fold_left (packet_step K X cfg event) ids_pre
                      (enter_event st))) in *.
  set (main := tagged.1) in *.
  set (st_row := waveform_loop K X cfg packet_id main pre
                   (enter_waveforms
                      (print_packet cfg packet_id packet main tagged.2))) in *.
  destruct (match_bco_orphan cfg main _ _ st_row W Q) as (R & _).
  destruct (waveform_orphan K X cfg packet_id main st_row row _ _ V
              eq_refl eq_refl W Q) as (A & F).
  destruct (process_waveform_valid K X cfg packet_id main st_row row V)
    as (_ & _ & _ & _ & _ & _ & E & _).
  cbv zeta in E. rewrite scan_samples_map in E.
  destruct (process_event_container K X cfg event st T) as [C _].
  cbv zeta in C. rewrite Fl, L in C.
  set (sample := running_sample X cfg packet_id main st_row row) in *.
  split_and!; [done|exact A|apply running_sample_fee|
               apply running_sample_fee_bco|apply F| |].
  - intros i Hi Hk Hv.
    assert (M : (0, assign_adc i (to_uint16 (ADC row i)) sample)
                ∈ sample_map (process_waveform K X cfg packet_id main st_row row)).
    { rewrite E.
      assert (Hin : assign_adc i (to_uint16 (ADC row i)) sample
                    ∈ emitted K row sample (seqZ 0 (scan_bound row))).
      { apply (emitted_elem K row sample i).
        - unfold scan_bound. lia.
        - unfold valid_adc, adc_at. by apply negb_true_iff, Z.eqb_neq. }
      apply (emplace_all_elem _ (sample_map st_row)) in Hin.
      replace (s_lvl1_bco (assign_adc i (to_uint16 (ADC row i)) sample))
        with 0 in Hin by (symmetry; exact A).
      exact Hin. }
    split_and!; [exact A|done|done|exact M|].
    rewrite C. unfold multimap.values. apply list_elem_of_fmap.
    exists (0, assign_adc i (to_uint16 (ADC row i)) sample). split; [done|].
    by apply packets_sample_kept, waveform_loop_sample_kept.
  - unfold process_event. destruct (Z.leb_spec 8 (getEvtType event)); [lia|].
    simpl. by rewrite last_snoc.
Qed.

(** An event whose packet tags one lvl1 bco and has two waveforms of the fee
    7: the second one is an orphan, and its samples are in the container. *)
Lemma orphan_sample_retained_witness :
  let K := scenario_constants in
  let X := scenario_collaborators in
  let cfg := scenario_config 0 in
  let event := event_of late_orphan_packet in
  let row := scenario_row 7 200 [65000; 0; 9] in
  let st_row :=
    waveform_loop K X cfg 5001 [1000] [scenario_row 7 55 [5; 10]]
      (enter_waveforms
         (print_packet cfg 5001 late_orphan_packet [1000]
            (collect_taggers K cfg 5001 late_orphan_packet
               (enter_event initial_state)).2)) in
  let st_row' := process_waveform K X cfg 5001 [1000] st_row row in
  let sample := running_sample X cfg 5001 [1000] st_row row in
  let st_event := (process_event K X cfg event initial_state).2 in
  map (λ s, (s_lvl1_bco s, s_fee_bco s, s_sample s, s_adc s))
    (samples (m_container st_event))
  = [(0, 200, 1, 0); (0, 200, 2, 9); (1000, 55, 0, 5); (1000, 55, 1, 10)]
  ∧ (match_bco cfg [1000] (row_fee row) (row_bco row) st_row).1 = None
  ∧ (s_lvl1_bco sample = 0 ∧ s_fee_id sample = row_fee row
     ∧ s_fee_bco sample = row_bco row)
  ∧ (∀ f, matching_pair st_row' f = matching_pair st_row f)
  ∧ (∀ i, 0 ≤ i < to_uint16 (SAMPLES row) → i < 1024 →
          to_uint16 (ADC row i) ≠ m_adc_invalid K →
          let s := assign_adc i (to_uint16 (ADC row i)) sample in
          (s_lvl1_bco s = 0 ∧ s_sample s = i
           ∧ s_adc s = to_uint16 (ADC row i))
          ∧ (0, s) ∈ sample_map st_row'
          ∧ s ∈ samples (m_container st_event))
  ∧ last (m_evaluation_tree st_event) = Some (m_container st_event).
Proof.
  cbv zeta. split; [vm_compute; reflexivity|].
  apply (orphan_sample_retained scenario_constants scenario_collaborators
           (scenario_config 0) (event_of late_orphan_packet) initial_state
           [] [5002] 5001 late_orphan_packet
           [scenario_row 7 55 [5; 10]] []
           (scenario_row 7 200 [65000; 0; 9])).
  - reflexivity.
  - reflexivity.
  - reflexivity.
  - reflexivity.
  - reflexivity.
  - reflexivity.
  - vm_compute. reflexivity.
  - vm_compute. reflexivity.
Defined.

(** ** Claim on the orphan set *)





(** ** Claim on the histogram *)

Lemma bco_count_increment (bco k : Z) (m : gmap Z N) :
  bco_count (increment bco m) k
  = (bco_count m k + if bool_decide (bco = k) then 1 else 0)%N.
Proof.
  unfold bco_count, increment. case_bool_decide as E.
  - subst k. by rewrite lookup_insert_eq.
  - rewrite lookup_insert_ne by done. lia.
Qed.

Section HistogramFacts.
Variable K : Constants.
Variable X : Collaborators.
Variable cfg : Config.

Lemma process_waveform_count packet_id main_bco_list st row k :
  bco_count (m_bco_map (process_waveform K X cfg packet_id main_bco_list st row)) k
  = (bco_count (m_bco_map st) k
     + if channel_valid K row
          && bool_decide (assigned_bco X cfg packet_id main_bco_list st row = k)
       then 1 else 0)%N.
Proof.
  destruct (channel_valid K row) eqn:V.
  - destruct (process_waveform_valid K X cfg packet_id main_bco_list st row V)
      as (_ & _ & _ & _ & _ & E & _).
    cbv zeta in E. rewrite E. apply bco_count_increment.
  - destruct (process_waveform_skip K X cfg packet_id main_bco_list st row V)
      as (_ & _ & E & _).
    cbv zeta in E. rewrite E. simpl. lia.
Qed.

Lemma waveform_loop_count packet_id main_bco_list rows st k :
  bco_count (m_bco_map (waveform_loop K X cfg packet_id main_bco_list rows st)) k
  = (bco_count (m_bco_map st) k
     + N.of_nat (length (filter (λ b, b = k)
                   (assigned_bcos K X cfg packet_id main_bco_list rows st))))%N.
Proof.
  revert st. induction rows as [|row rows IH]; intros st.
  - simpl. lia.
  - rewrite waveform_loop_cons, IH, process_waveform_count. simpl assigned_bcos.
    rewrite filter_app, length_app.
    destruct (channel_valid K row); simpl; [|lia].
    rewrite filter_cons, filter_nil.
    case_bool_decide; case_decide; try done; simpl; lia.
Qed.

Lemma process_packet_count packet_id packet st k :
  (bco_count (m_bco_map st) k
   ≤ bco_count (m_bco_map (process_packet K X cfg packet_id packet st)) k)%N.
Proof.
  unfold process_packet.
  pose proof (packet_prologue_same K cfg packet_id packet st) as S.
  pose proof (collect_taggers_same K cfg packet_id packet st) as S1.
  destruct (collect_taggers K cfg packet_id packet st) as [main st1].
  simpl in S, S1.
  pose proof (print_packet_same cfg packet_id packet main st1) as S2.
  destruct (eval_data K cfg).
  - rewrite waveform_loop_count. destruct S as (_ & -> & _). lia.
  - destruct (same_records_trans _ _ _ S1 S2) as (_ & -> & _). lia.
Qed.

Lemma packets_count event packet_ids st k :
  (bco_count (m_bco_map st) k
   ≤ bco_count (m_bco_map (fold_left (packet_step K X cfg event) packet_ids st)) k)%N.
Proof.
  revert st. induction packet_ids as [|id ids IH]; intros st; [simpl; lia|].
  simpl. etrans; [|apply IH].
  unfold packet_step. destruct (getPacket event id).
  - apply process_packet_count.
  - destruct (print_if_same (1 <? Verbosity cfg) (MsgPacketNotFound id) st)
      as (_ & -> & _). lia.
Qed.

Lemma process_event_count event st k :
  (bco_count (m_bco_map st) k
   ≤ bco_count (m_bco_map (process_event K X cfg event st).2) k)%N.
Proof.
  unfold process_event. destruct (8 <=? getEvtType event); simpl; [lia|].
  unfold copy_samples, copy_waveforms.
  destruct (flag_set cfg (EvalSample K)), (flag_set cfg (EvalWaveform K));
    simpl; apply (packets_count event (m_packet_ids K) (enter_event st) k).
Qed.

Lemma print_entries_bco_map (entries : list (Z * N)) st :
  m_bco_map (fold_left (λ st e, print (MsgEndBco e.1 e.2) st) entries st)
  = m_bco_map st.
Proof.
  revert st. induction entries as [|e l IH]; intros st; [done|].
  simpl. by rewrite IH.
Qed.

Lemma write_evaluation_bco_map st :
  m_bco_map (write_evaluation st) = m_bco_map st.
Proof. unfold write_evaluation. by destruct (m_evaluation_file st). Qed.

Lemma End_run_bco_map st : m_bco_map (End_run cfg st) = m_bco_map st.
Proof.
  unfold End_run. cbv zeta.
  destruct (verbose cfg); [|apply write_evaluation_bco_map].
  rewrite write_evaluation_bco_map. simpl.
  rewrite print_entries_bco_map. apply write_evaluation_bco_map.
Qed.

End HistogramFacts.

(** C9 — the histogram, as amended.  [m_bco_map] is incremented exactly once
    per waveform row whose channel is valid, under the lvl1 bco given to the
    row (0 for an orphan), whatever the number of samples of the row; along a
    waveform loop the count of a lvl1 bco grows by the number of rows given
    that lvl1 bco.  No event lowers a count, and [End] leaves the map as it
    is. *)
Theorem histogram_per_waveform (K : Constants) (X : Collaborators)
    (cfg : Config) :
  (∀ packet_id main_bco_list st row k,
     bco_count (m_bco_map (process_waveform K X cfg packet_id main_bco_list st row)) k
     = (bco_count (m_bco_map st) k
        + if channel_valid K row
             && bool_decide (assigned_bco X cfg packet_id main_bco_list st row = k)
          then 1 else 0)%N)
  ∧ (∀ packet_id main_bco_list rows st k,
       bco_count (m_bco_map (waveform_loop K X cfg packet_id main_bco_list rows st)) k
       = (bco_count (m_bco_map st) k
          + N.of_nat (length (filter (λ b, b = k)
                        (assigned_bcos K X cfg packet_id main_bco_list rows st))))%N)
  ∧ (∀ event st k,
       (bco_count (m_bco_map st) k
        ≤ bco_count (m_bco_map (process_event K X cfg event st).2) k)%N)
  ∧ (∀ st, m_bco_map (End_run cfg st) = m_bco_map st).
Proof.
  split_and!.
  - apply process_waveform_count.
  - apply waveform_loop_count.
  - apply process_event_count.
  - apply End_run_bco_map.
Qed.

(** C9 — counterexample to the claim as stated: an event with one waveform
    of four valid samples puts four samples of lvl1 bco 1000 into the
    container, and the histogram counts 1 for the lvl1 bco 1000. *)
Lemma histogram_counts_waveforms_counterexample :
  let st := (process_event scenario_constants scenario_collaborators
               (scenario_config 0) (event_of single_waveform_packet)
               initial_state).2 in
  map s_lvl1_bco (samples (m_container st)) = [1000; 1000; 1000; 1000]
  ∧ map s_adc (samples (m_container st)) = [5; 10; 7; 10]
  ∧ bco_count (m_bco_map st) 1000 = 1%N.
Proof. split_and!; vm_compute; reflexivity. Qed.

(** * Further properties of the code *)

(** ** [get_bco_diff] on 32-bit counters *)

(** X1 — [get_bco_diff] on two 32-bit unsigned values is their distance: it
    is symmetric, it is 0 exactly for equal values, and it stays in the
    32-bit range, so the unsigned subtraction never wraps.  It is not a
    distance modulo 2^32: a counter that has rolled over by [d] is at
    2^32 − d of the value before the roll over. *)
Theorem get_bco_diff_distance (a b : Z) :
  let x := to_uint32 a in
  let y := to_uint32 b in
  get_bco_diff x y = Z.abs (x - y)
  ∧ get_bco_diff x y = get_bco_diff y x
  ∧ 0 ≤ get_bco_diff x y < 2 ^ 32
  ∧ (get_bco_diff x y = 0 ↔ x = y)
  ∧ (∀ d, 0 < d < 2 ^ 32 → 2 ^ 32 ≤ y + d →
          get_bco_diff (to_uint32 (y + d)) y = 2 ^ 32 - d).
Proof.
  cbv zeta. pose proof (to_uint32_range a). pose proof (to_uint32_range b).
  rewrite !get_bco_diff_abs. split_and!; try lia.
  intros d Hd Hw. rewrite get_bco_diff_abs.
  assert (E : to_uint32 (to_uint32 b + d) = to_uint32 b + d - 2 ^ 32).
  { unfold to_uint32 at 1.
    rewrite <- (Z.mod_add _ (-1)) by lia. apply Z.mod_small. lia. }
  rewrite E. lia.
Qed.

(** ** What only writes to the output *)

Lemma only_output_refl st : only_output st st.
Proof. by repeat split. Qed.

Lemma only_output_trans st1 st2 st3 :
  only_output st1 st2 → only_output st2 st3 → only_output st1 st3.
Proof.
  unfold only_output. intros (?&?&?&?&?&?&?&?&?) (?&?&?&?&?&?&?&?&?).
  split_and!; congruence.
Qed.

Lemma print_only_output msg st : only_output st (print msg st).
Proof. by repeat split. Qed.

Lemma print_if_only_output b msg st : only_output st (print_if b msg st).
Proof. destruct b; [apply print_only_output | apply only_output_refl]. Qed.

Lemma print_packet_only_output cfg packet_id packet main_bco_list st :
  only_output st (print_packet cfg packet_id packet main_bco_list st).
Proof.
  unfold print_packet. destruct (verbose cfg); [|apply only_output_refl].
  destruct main_bco_list; [apply print_only_output|].
  eapply only_output_trans; apply print_only_output.
Qed.

(** ** The tagger loop *)

Section TaggerFacts.
Variable K : Constants.
Variable cfg : Config.

Lemma with_taggers_nil st : with_taggers [] st = st.
Proof.
  unfold with_taggers. rewrite app_nil_r. by destruct st as [[] ? ? ? ? ? ? ? ? ?].
Qed.

Lemma with_taggers_app ts1 ts2 st :
  with_taggers ts2 (with_taggers ts1 st) = with_taggers (ts1 ++ ts2) st.
Proof. unfold with_taggers, with_container. simpl. by rewrite app_assoc. Qed.

Lemma tagger_step_eq packet_id l st r :
  tagger_step K cfg packet_id (l, st) r
  = (l ++ (if eval_data K cfg
           then map t_bco (filter (λ t, t_is_lvl1 t ≠ 0) [read_tagger packet_id r])
           else []),
     if flag_set cfg (EvalTagger K)
     then with_taggers [read_tagger packet_id r] st
     else st).
Proof.
  unfold tagger_step. rewrite filter_cons, filter_nil.
  destruct (Z.eqb_spec (t_is_lvl1 (read_tagger packet_id r)) 0) as [E|E];
    simpl negb; cbn [andb].
  - rewrite decide_False by (intros N; by apply N).
    by destruct (eval_data K cfg); rewrite app_nil_r.
  - rewrite decide_True by done.
    destruct (eval_data K cfg); [done|]. by rewrite app_nil_r.
Qed.

Lemma tagger_loop_spec packet_id rows l st :
  fold_left (tagger_step K cfg packet_id) rows (l, st)
  = (l ++ (if eval_data K cfg
           then map t_bco (filter (λ t, t_is_lvl1 t ≠ 0)
                             (map (read_tagger packet_id) rows))
           else []),
     if flag_set cfg (EvalTagger K)
     then with_taggers (map (read_tagger packet_id) rows) st
     else st).
Proof.
  revert l st. induction rows as [|r rows IH]; intros l st.
  - simpl. rewrite with_taggers_nil.
    by destruct (eval_data K cfg), (flag_set cfg (EvalTagger K));
      rewrite app_nil_r.
  - change (fold_left (tagger_step K cfg packet_id) (r :: rows) (l, st))
      with (fold_left (tagger_step K cfg packet_id) rows
              (tagger_step K cfg packet_id (l, st) r)).
    rewrite tagger_step_eq, IH. f_equal.
    + rewrite <- app_assoc. f_equal.
      destruct (eval_data K cfg); [|done].
      by rewrite <- fmap_app, <- filter_app.
    + destruct (flag_set cfg (EvalTagger K)); [|done].
      by rewrite with_taggers_app.
Qed.

End TaggerFacts.

(** X2 — the tagger loop.  The list of lvl1 bco of a packet holds, in the
    order of the tagger table, the bco (as 64-bit values) of the rows whose
    level-1 flag is not 0 as an 8-bit value, and is empty when neither the
    sample nor the waveform flag is set; every row of the table goes to the
    taggers of the container when the tagger flag is set, whatever its
    level-1 flag, and nothing else of the state changes. *)
Theorem tagger_collection (K : Constants) (cfg : Config) (packet_id : Z)
    (packet : Packet) (st : State) :
  let r := collect_taggers K cfg packet_id packet st in
  r.1 = (if eval_data K cfg then tagged_lvl1_bco packet_id packet else [])
  ∧ r.2 = (if flag_set cfg (EvalTagger K)
           then with_taggers (map (read_tagger packet_id) (tagger_rows packet)) st
           else st)
  ∧ Forall (λ bco, 0 ≤ bco < 2 ^ 64) r.1
  ∧ (length r.1 ≤ length (tagger_rows packet))%nat.
Proof.
  cbv zeta. unfold collect_taggers, tagged_lvl1_bco.
  rewrite tagger_loop_spec. simpl. split_and!; [done|done| |].
  - destruct (eval_data K cfg); [|constructor].
    apply Forall_fmap, Forall_forall. intros t Ht. simpl.
    apply list_elem_of_filter in Ht as [_ Ht].
    apply list_elem_of_fmap in Ht as [r [-> _]]. simpl.
    unfold to_uint64. apply Z.mod_pos_bound. lia.
  - destruct (eval_data K cfg); simpl; [|lia].
    rewrite length_fmap. etrans; [apply length_filter|]. by rewrite length_fmap.
Qed.

(** ** Two runs side by side *)

Lemma agree_event_only_output rw st1 st2 st1' st2' :
  only_output st1 st1' → only_output st2 st2' →
  agree_event rw st1 st2 → agree_event rw st1' st2'.
Proof.
  unfold only_output, agree_event.
  intros (->&->&->&->&->&->&_) (->&->&->&->&->&->&_). done.
Qed.

(** The search reads the cached pairs and the lists only. *)
Lemma match_bco_agree cfg1 cfg2 main_bco_list fee_id fee_bco st1 st2 :
  m_fee_bco_matching_map st1 = m_fee_bco_matching_map st2 →
  bco_list_map st1 = bco_list_map st2 →
  let r1 := match_bco cfg1 main_bco_list fee_id fee_bco st1 in
  let r2 := match_bco cfg2 main_bco_list fee_id fee_bco st2 in
  r1.1 = r2.1
  ∧ m_fee_bco_matching_map r1.2 = m_fee_bco_matching_map r2.2
  ∧ bco_list_map r1.2 = bco_list_map r2.2.
Proof.
  intros E1 E2. unfold match_bco, print_if. rewrite E1.
  destruct (matching_pair_at _ _) as [p m]. simpl.
  destruct (_ <? _); [done|]. rewrite E2.
  destruct (bco_list_at _ _ _) as [l lm]. simpl.
  destruct l as [|x rest].
  - destruct (verbose cfg1), (verbose cfg2); simpl;
      repeat (destruct (bool_decide _)); done.
  - by destruct (verbose cfg1), (verbose cfg2).
Qed.

Section SideBySide.
Variable K : Constants.
Variable X : Collaborators.
Variables cfg1 cfg2 : Config.
Hypothesis settings : same_settings cfg1 cfg2.

Lemma flag_set_agree f : flag_set cfg1 f = flag_set cfg2 f.
Proof. unfold flag_set. by destruct settings as (-> & _). Qed.

Lemma eval_data_agree : eval_data K cfg1 = eval_data K cfg2.
Proof. apply flag_set_agree. Qed.

Lemma make_waveform_agree pedestal rms sample :
  make_waveform cfg1 pedestal rms sample = make_waveform cfg2 pedestal rms sample.
Proof.
  unfold make_waveform, is_signal.
  by destruct settings as (_ & -> & -> & -> & ->).
Qed.

Lemma running_sample_agree packet_id main_bco_list st1 st2 row :
  m_fee_bco_matching_map st1 = m_fee_bco_matching_map st2 →
  bco_list_map st1 = bco_list_map st2 →
  running_sample X cfg1 packet_id main_bco_list st1 row
  = running_sample X cfg2 packet_id main_bco_list st2 row.
Proof.
  intros E1 E2. unfold running_sample. rewrite !correlate_eq. cbv zeta.
  destruct (match_bco_agree cfg1 cfg2 main_bco_list (row_fee row) (row_bco row)
              st1 st2 E1 E2) as (R & _).
  cbv zeta in R. cbn [fst]. by rewrite R.
Qed.

Lemma process_waveform_agree rw packet_id main_bco_list st1 st2 row :
  agree_loop rw st1 st2 →
  agree_loop rw (process_waveform K X cfg1 packet_id main_bco_list st1 row)
    (process_waveform K X cfg2 packet_id main_bco_list st2 row).
Proof.
  intros ((E1 & E2 & E3 & E4 & E5) & E6).
  destruct (channel_valid K row) eqn:V.
  - destruct (process_waveform_valid K X cfg1 packet_id main_bco_list st1 row V)
      as (A1 & A2 & A3 & A4 & _ & A6 & A7 & A8).
    destruct (process_waveform_valid K X cfg2 packet_id main_bco_list st2 row V)
      as (B1 & B2 & B3 & B4 & _ & B6 & B7 & B8).
    destruct (match_bco_agree cfg1 cfg2 main_bco_list (row_fee row) (row_bco row)
                st1 st2 E1 E6) as (_ & R2 & R3).
    cbv zeta in *. unfold assigned_bco in *.
    rewrite (running_sample_agree packet_id main_bco_list st1 st2 row E1 E6) in *.
    unfold agree_loop, agree_event.
    rewrite A1, A2, A3, A4, A6, A7, A8, B1, B2, B3, B4, B6, B7, B8.
    rewrite (flag_set_agree (EvalWaveform K)), make_waveform_agree.
    rewrite R2, R3, E2, E3, E4.
    split_and!; try done.
    intros Hrw. destruct (E5 Hrw) as [-> ->]. done.
  - destruct (process_waveform_skip K X cfg1 packet_id main_bco_list st1 row V)
      as (A1 & A2 & A3 & A4 & A5 & A6 & A7 & _).
    destruct (process_waveform_skip K X cfg2 packet_id main_bco_list st2 row V)
      as (B1 & B2 & B3 & B4 & B5 & B6 & B7 & _).
    cbv zeta in *. unfold agree_loop, agree_event.
    rewrite A1, A2, A3, A4, A5, A6, A7, B1, B2, B3, B4, B5, B6, B7. done.
Qed.

Lemma waveform_loop_agree rw packet_id main_bco_list rows st1 st2 :
  agree_loop rw st1 st2 →
  agree_loop rw (waveform_loop K X cfg1 packet_id main_bco_list rows st1)
    (waveform_loop K X cfg2 packet_id main_bco_list rows st2).
Proof.
  revert st1 st2. induction rows as [|row rows IH]; intros st1 st2 A; [done|].
  rewrite !waveform_loop_cons. apply IH. by apply process_waveform_agree.
Qed.

Lemma with_taggers_agree rw ts st1 st2 :
  agree_event rw st1 st2 →
  agree_event rw (with_taggers ts st1) (with_taggers ts st2).
Proof.
  unfold agree_event, with_taggers. simpl. intros (-> & -> & -> & -> & H).
  done.
Qed.

Lemma enter_waveforms_agree rw st1 st2 :
  agree_event rw st1 st2 →
  agree_loop rw (enter_waveforms st1) (enter_waveforms st2).
Proof. unfold agree_loop, agree_event. simpl. intros (-> & -> & -> & -> & H). done. Qed.

Lemma process_packet_agree rw packet_id packet st1 st2 :
  agree_event rw st1 st2 →
  agree_event rw (process_packet K X cfg1 packet_id packet st1)
    (process_packet K X cfg2 packet_id packet st2).
Proof.
  intros A. unfold process_packet, collect_taggers.
  rewrite !tagger_loop_spec, <- eval_data_agree,
    <- (flag_set_agree (EvalTagger K)).
  set (main := [] ++ _).
  assert (A1 : agree_event rw
                 (if flag_set cfg1 (EvalTagger K)
                  then with_taggers (map (read_tagger packet_id) (tagger_rows packet)) st1
                  else st1)
                 (if flag_set cfg1 (EvalTagger K)
                  then with_taggers (map (read_tagger packet_id) (tagger_rows packet)) st2
                  else st2)).
  { destruct (flag_set cfg1 (EvalTagger K)); [by apply with_taggers_agree|done]. }
  eapply agree_event_only_output in A1;
    [|apply (print_packet_only_output cfg1 packet_id packet main)
     |apply (print_packet_only_output cfg2 packet_id packet main)].
  destruct (eval_data K cfg1); [|done].
  by apply waveform_loop_agree, enter_waveforms_agree.
Qed.

Lemma packets_agree rw event packet_ids st1 st2 :
  agree_event rw st1 st2 →
  agree_event rw (fold_left (packet_step K X cfg1 event) packet_ids st1)
    (fold_left (packet_step K X cfg2 event) packet_ids st2).
Proof.
  revert st1 st2. induction packet_ids as [|id ids IH]; intros st1 st2 A; [done|].
  simpl. apply IH. unfold packet_step. destruct (getPacket event id).
  - by apply process_packet_agree.
  - eapply agree_event_only_output; [apply print_if_only_output..|done].
Qed.

(** Two processed events that start from the same cached pairs. *)
Lemma process_event_agree rw event st1 st2 :
  getEvtType event < 8 →
  m_fee_bco_matching_map st1 = m_fee_bco_matching_map st2 →
  (rw = true → m_bco_map st1 = m_bco_map st2
               ∧ m_evaluation_tree st1 = m_evaluation_tree st2) →
  agree_event rw (process_event K X cfg1 event st1).2
    (process_event K X cfg2 event st2).2.
Proof.
  intros H E1 E2. unfold process_event.
  destruct (Z.leb_spec 8 (getEvtType event)); [lia|].
  assert (A : agree_event rw (enter_event st1) (enter_event st2)).
  { unfold agree_event. simpl. done. }
  apply (packets_agree rw event (m_packet_ids K)) in A.
  fold (packet_loop K X cfg1 event (enter_event st1)) in A.
  fold (packet_loop K X cfg2 event (enter_event st2)) in A.
  destruct A as (A1 & A2 & A3 & A4 & A5).
  unfold copy_samples, copy_waveforms, fill_tree.
  rewrite <- !flag_set_agree.
  destruct (flag_set cfg1 (EvalSample K)), (flag_set cfg1 (EvalWaveform K));
    unfold agree_event; simpl; rewrite A1, A2, A3, A4;
    (split_and!; [done..|]); intros Hrw; destruct (A5 Hrw) as [-> ->]; done.
Qed.

Lemma run_agree events st1 st2 :
  agree_event true st1 st2 →
  agree_event true (run K X cfg1 events st1) (run K X cfg2 events st2).
Proof.
  revert st1 st2. induction events as [|event events IH]; intros st1 st2 A; [done|].
  simpl. apply IH.
  destruct (Z.le_gt_cases 8 (getEvtType event)) as [H|H].
  - by rewrite !process_event_discard.
  - destruct A as (A1 & _ & _ & _ & A5). apply process_event_agree; [lia|done|done].
Qed.

End SideBySide.

Lemma same_settings_refl cfg : same_settings cfg cfg.
Proof. by repeat split. Qed.

(** X3 — an event does not see the records of earlier events.  Two
    processed events that start from the same cached pairs end with the same
    container and the same cached pairs, whatever the container, the
    temporary maps, the per-fee lists, the orphan set, the histogram, the
    tree and the output held before. *)
Theorem event_isolation (K : Constants) (X : Collaborators) (cfg : Config)
    (event : Event) (st1 st2 : State) :
  getEvtType event < 8 →
  m_fee_bco_matching_map st1 = m_fee_bco_matching_map st2 →
  m_container (process_event K X cfg event st1).2
  = m_container (process_event K X cfg event st2).2
  ∧ m_fee_bco_matching_map (process_event K X cfg event st1).2
    = m_fee_bco_matching_map (process_event K X cfg event st2).2.
Proof.
  intros H E.
  destruct (process_event_agree K X cfg cfg (same_settings_refl cfg) false
              event st1 st2 H E) as (A1 & A2 & _); [done|].
  by split.
Qed.

(** The scenario event after a fresh start and after a state with stale
    records. *)
Lemma event_isolation_witness :
  m_container (process_event scenario_constants scenario_collaborators
                 (scenario_config 0) (event_of scenario_packet) initial_state).2
  = m_container (process_event scenario_constants scenario_collaborators
                   (scenario_config 0) (event_of scenario_packet) stale_state).2
  ∧ m_fee_bco_matching_map
      (process_event scenario_constants scenario_collaborators
         (scenario_config 0) (event_of scenario_packet) initial_state).2
    = m_fee_bco_matching_map
        (process_event scenario_constants scenario_collaborators
           (scenario_config 0) (event_of scenario_packet) stale_state).2.
Proof.
  apply (event_isolation scenario_constants scenario_collaborators
           (scenario_config 0) (event_of scenario_packet) initial_state
           stale_state).
  - simpl. lia.
  - reflexivity.
Defined.

(** X4 — the verbosity changes the output only.  Two runs over the same
    events from the same state, with configurations that differ at most in
    the verbosity, end with the same container, cached pairs, histogram and
    tree. *)
Theorem verbosity_independence (K : Constants) (X : Collaborators)
    (cfg1 cfg2 : Config) (events : list Event) (st : State) :
  same_settings cfg1 cfg2 →
  let st1 := run K X cfg1 events st in
  let st2 := run K X cfg2 events st in
  m_container st1 = m_container st2
  ∧ m_fee_bco_matching_map st1 = m_fee_bco_matching_map st2
  ∧ m_bco_map st1 = m_bco_map st2
  ∧ m_evaluation_tree st1 = m_evaluation_tree st2.
Proof.
  intros S. cbv zeta.
  destruct (run_agree K X cfg1 cfg2 S events st st) as (A1 & A2 & _ & _ & A5).
  { by repeat split. }
  destruct (A5 eq_refl). done.
Qed.

(** The scenario event, then the orphan event, silent and at verbosity 2. *)
Lemma verbosity_independence_witness :
  let events := [event_of scenario_packet; event_of orphan_packet] in
  let st1 := run scenario_constants scenario_collaborators (scenario_config 0)
               events initial_state in
  let st2 := run scenario_constants scenario_collaborators (scenario_config 2)
               events initial_state in
  m_container st1 = m_container st2
  ∧ m_fee_bco_matching_map st1 = m_fee_bco_matching_map st2
  ∧ m_bco_map st1 = m_bco_map st2
  ∧ m_evaluation_tree st1 = m_evaluation_tree st2.
Proof.
  apply (verbosity_independence scenario_constants scenario_collaborators
           (scenario_config 0) (scenario_config 2)
           [event_of scenario_packet; event_of orphan_packet] initial_state).
  by repeat split.
Defined.

(** X5 — rows with an invalid channel are transparent.  A waveform loop
    over the rows and the loop over the rows with a valid channel end with
    the same container, cached pairs, per-fee lists, temporary maps,
    histogram and tree: a row whose channel is not below [m_nchannels_fee]
    is not matched, not counted and adds no record. *)
Theorem invalid_rows_transparent (K : Constants) (X : Collaborators)
    (cfg : Config) (packet_id : Z) (main_bco_list : list Z)
    (rows : list WaveformRow) (st : State) :
  let st1 := waveform_loop K X cfg packet_id main_bco_list rows st in
  let st2 := waveform_loop K X cfg packet_id main_bco_list
               (filter (λ row, channel_valid K row) rows) st in
  m_container st1 = m_container st2
  ∧ m_fee_bco_matching_map st1 = m_fee_bco_matching_map st2
  ∧ bco_list_map st1 = bco_list_map st2
  ∧ sample_map st1 = sample_map st2
  ∧ waveform_map st1 = waveform_map st2
  ∧ m_bco_map st1 = m_bco_map st2
  ∧ m_evaluation_tree st1 = m_evaluation_tree st2.
Proof.
  cbv zeta.
  assert (G : ∀ st1 st2, agree_loop true st1 st2 →
            agree_loop true
              (waveform_loop K X cfg packet_id main_bco_list rows st1)
              (waveform_loop K X cfg packet_id main_bco_list
                 (filter (λ row, channel_valid K row) rows) st2)).
  { induction rows as [|row rows IH]; intros st1 st2 A; [done|].
    rewrite waveform_loop_cons, filter_cons.
    destruct (channel_valid K row) eqn:V.
    - rewrite decide_True by done. rewrite waveform_loop_cons. apply IH.
      by apply process_waveform_agree; [apply same_settings_refl|].
    - rewrite decide_False by (simpl; tauto). apply IH.
      destruct (process_waveform_skip K X cfg packet_id main_bco_list st1 row V)
        as (B1 & B2 & B3 & B4 & B5 & B6 & B7 & _).
      destruct A as ((A1 & A2 & A3 & A4 & A5) & A6).
      cbv zeta in *. unfold agree_loop, agree_event.
      rewrite B1, B2, B3, B4, B5, B6, B7. done. }
  destruct (G st st) as ((A1 & A2 & A3 & A4 & A5) & A6).
  { by repeat split. }
  destruct (A5 eq_refl). done.
Qed.

(** ** The packets of an event *)

Section PacketFacts.
Variable K : Constants.
Variable X : Collaborators.
Variable cfg : Config.

(** A packet: the taggers, the output, then the waveform loop. *)
Lemma process_packet_eq packet_id packet st :
  process_packet K X cfg packet_id packet st
  = let main_bco_list :=
      if eval_data K cfg then tagged_lvl1_bco packet_id packet else [] in
    let st :=
      if flag_set cfg (EvalTagger K)
      then with_taggers (map (read_tagger packet_id) (tagger_rows packet)) st
      else st in
    let st := print_packet cfg packet_id packet main_bco_list st in
    if eval_data K cfg
    then waveform_loop K X cfg packet_id main_bco_list (waveform_rows packet)
           (enter_waveforms st)
    else st.
Proof.
  unfold process_packet, collect_taggers, tagged_lvl1_bco.
  rewrite tagger_loop_spec. simpl. done.
Qed.

Lemma waveform_loop_tree packet_id main_bco_list rows st :
  m_evaluation_tree (waveform_loop K X cfg packet_id main_bco_list rows st)
  = m_evaluation_tree st.
Proof.
  revert st. induction rows as [|row rows IH]; intros st; [done|].
  rewrite waveform_loop_cons, IH.
  destruct (channel_valid K row) eqn:V.
  - by destruct (process_waveform_valid K X cfg packet_id main_bco_list st row V)
      as (_ & E & _).
  - by destruct (process_waveform_skip K X cfg packet_id main_bco_list st row V)
      as (_ & _ & _ & E & _).
Qed.

(** What a packet does to the tree and to the taggers of the container, and
    what it leaves alone when no waveform is evaluated. *)
Lemma process_packet_fields packet_id packet st :
  let st' := process_packet K X cfg packet_id packet st in
  m_evaluation_tree st' = m_evaluation_tree st
  ∧ taggers (m_container st')
    = taggers (m_container st)
      ++ (if flag_set cfg (EvalTagger K)
          then map (read_tagger packet_id) (tagger_rows packet) else [])
  ∧ (eval_data K cfg = false →
     m_fee_bco_matching_map st' = m_fee_bco_matching_map st
     ∧ m_bco_map st' = m_bco_map st
     ∧ sample_map st' = sample_map st
     ∧ waveform_map st' = waveform_map st).
Proof.
  cbv zeta. rewrite process_packet_eq. cbv zeta.
  set (main := if eval_data K cfg then tagged_lvl1_bco packet_id packet else []).
  set (st1 := if flag_set cfg (EvalTagger K)
              then with_taggers (map (read_tagger packet_id) (tagger_rows packet)) st
              else st).
  pose proof (print_packet_only_output cfg packet_id packet main st1)
    as (P1 & P2 & P3 & P4 & P5 & P6 & _).
  assert (T : m_evaluation_tree st1 = m_evaluation_tree st
              ∧ taggers (m_container st1)
                = taggers (m_container st)
                  ++ (if flag_set cfg (EvalTagger K)
                      then map (read_tagger packet_id) (tagger_rows packet)
                      else [])
              ∧ m_fee_bco_matching_map st1 = m_fee_bco_matching_map st
              ∧ m_bco_map st1 = m_bco_map st
              ∧ sample_map st1 = sample_map st
              ∧ waveform_map st1 = waveform_map st).
  { subst st1. destruct (flag_set cfg (EvalTagger K)); simpl; [done|].
    by rewrite app_nil_r. }
  destruct T as (T1 & T2 & T3 & T4 & T5 & T6).
  destruct (eval_data K cfg).
  - rewrite waveform_loop_tree, waveform_loop_container. simpl.
    rewrite P1, P4, T1, T2. done.
  - rewrite P1, P2, P3, P4, P5, P6, T1, T2, T3, T4, T5, T6. done.
Qed.

Lemma packet_step_fields event st packet_id :
  let st' := packet_step K X cfg event st packet_id in
  m_evaluation_tree st' = m_evaluation_tree st
  ∧ taggers (m_container st')
    = taggers (m_container st)
      ++ (if flag_set cfg (EvalTagger K)
          then match getPacket event packet_id with
               | Some packet => map (read_tagger packet_id) (tagger_rows packet)
               | None => []
               end
          else [])
  ∧ (eval_data K cfg = false ∨ getPacket event packet_id = None →
     m_fee_bco_matching_map st' = m_fee_bco_matching_map st
     ∧ m_bco_map st' = m_bco_map st
     ∧ sample_map st' = sample_map st
     ∧ waveform_map st' = waveform_map st).
Proof.
  cbv zeta. unfold packet_step. destruct (getPacket event packet_id) as [packet|].
  - destruct (process_packet_fields packet_id packet st) as (E1 & E2 & E3).
    split_and!; [done|done|]. intros [H|H]; [by apply E3|done].
  - destruct (print_if_only_output (1 <? Verbosity cfg)
                (MsgPacketNotFound packet_id) st) as (P1 & P2 & P3 & P4 & P5 & P6 & _).
    rewrite P1, P2, P3, P4, P5, P6.
    split_and!; [done| |done].
    destruct (flag_set cfg (EvalTagger K)); by rewrite app_nil_r.
Qed.

Lemma packets_fields event packet_ids st :
  let st' := fold_left (packet_step K X cfg event) packet_ids st in
  m_evaluation_tree st' = m_evaluation_tree st
  ∧ taggers (m_container st')
    = taggers (m_container st)
      ++ (if flag_set cfg (EvalTagger K)
          then concat (map (λ packet_id,
                              match getPacket event packet_id with
                              | Some packet =>
                                  map (read_tagger packet_id) (tagger_rows packet)
                              | None => []
                              end) packet_ids)
          else [])
  ∧ (eval_data K cfg = false
     ∨ Forall (λ packet_id, getPacket event packet_id = None) packet_ids →
     m_fee_bco_matching_map st' = m_fee_bco_matching_map st
     ∧ m_bco_map st' = m_bco_map st
     ∧ sample_map st' = sample_map st
     ∧ waveform_map st' = waveform_map st).
Proof.
  revert st. induction packet_ids as [|id ids IH]; intros st.
  - simpl. split_and!; [done| |done].
    destruct (flag_set cfg (EvalTagger K)); by rewrite app_nil_r.
  - simpl fold_left. cbv zeta.
    destruct (IH (packet_step K X cfg event st id)) as (E1 & E2 & E3).
    destruct (packet_step_fields event st id) as (F1 & F2 & F3).
    cbv zeta in *. rewrite E1, E2, F1, F2.
    split_and!; [done| |].
    + destruct (flag_set cfg (EvalTagger K)); simpl;
        by rewrite <- ?app_assoc, ?app_nil_r.
    + intros H.
      destruct E3 as (G1 & G2 & G3 & G4).
      { destruct H as [H|H]; [by left|right]. by apply Forall_cons in H as [_ H]. }
      destruct F3 as (H1 & H2 & H3 & H4).
      { destruct H as [H|H]; [by left|right]. by apply Forall_cons in H as [H _]. }
      rewrite G1, G2, G3, G4. done.
Qed.

End PacketFacts.

(** ** A whole event *)

Section WholeEvent.
Variable K : Constants.
Variable X : Collaborators.
Variable cfg : Config.

(** The state after a processed event, part by part, in terms of the state
    [loop] at the end of the loop over the packets. *)
Lemma process_event_fields event st :
  getEvtType event < 8 →
  let loop := packet_loop K X cfg event (enter_event st) in
  let r := process_event K X cfg event st in
  r.1 = EVENT_OK
  ∧ samples (m_container r.2)
    = (if flag_set cfg (EvalSample K) then multimap.values (sample_map loop) else [])
  ∧ waveforms (m_container r.2)
    = (if flag_set cfg (EvalWaveform K)
       then multimap.values (waveform_map loop) else [])
  ∧ taggers (m_container r.2)
    = (if flag_set cfg (EvalTagger K) then event_taggers K event else [])
  ∧ m_fee_bco_matching_map r.2 = m_fee_bco_matching_map loop
  ∧ m_bco_map r.2 = m_bco_map loop
  ∧ m_evaluation_tree r.2 = m_evaluation_tree st ++ [m_container r.2].
Proof.
  intros H. cbv zeta.
  destruct (process_event_container K X cfg event st H) as [E1 E2].
  cbv zeta in E1, E2. rewrite E1, E2. clear E1 E2.
  destruct (packets_fields K X cfg event (m_packet_ids K) (enter_event st))
    as (T1 & T2 & _).
  cbv zeta in T1, T2. fold (packet_loop K X cfg event (enter_event st)) in T1, T2.
  unfold process_event.
  destruct (Z.leb_spec 8 (getEvtType event)); [lia|].
  unfold copy_samples, copy_waveforms, fill_tree, event_taggers.
  destruct (flag_set cfg (EvalSample K)), (flag_set cfg (EvalWaveform K));
    simpl; rewrite T1, T2; done.
Qed.

Lemma concat_absent event packet_ids :
  Forall (λ packet_id, getPacket event packet_id = None) packet_ids →
  concat (map (λ packet_id,
                 match getPacket event packet_id with
                 | Some packet => map (read_tagger packet_id) (tagger_rows packet)
                 | None => []
                 end) packet_ids) = [].
Proof. induction 1 as [|id ids H _ IH]; [done|]. simpl. by rewrite H, IH. Qed.

End WholeEvent.

(** X6 — the outcome of an event.  An event of type 8 or above is
    discarded: the return code is DISCARDEVENT and nothing of the state
    changes, so the container keeps the records of the event before and the
    tree is not filled.  Any other event returns EVENT_OK and adds exactly
    one entry to the tree, the container as the event leaves it; so a run
    adds to the tree as many entries as it has events of a type below 8. *)
Theorem event_outcome (K : Constants) (X : Collaborators) (cfg : Config)
    (event : Event) (st : State) :
  let r := process_event K X cfg event st in
  (r.1 = DISCARDEVENT ↔ 8 ≤ getEvtType event)
  ∧ (8 ≤ getEvtType event → r.2 = st)
  ∧ (getEvtType event < 8 →
     r.1 = EVENT_OK
     ∧ m_evaluation_tree r.2 = m_evaluation_tree st ++ [m_container r.2])
  ∧ (∀ events,
       length (m_evaluation_tree (run K X cfg events st))
       = (length (m_evaluation_tree st)
          + length (filter (λ event, (getEvtType event < 8)%Z) events))%nat).
Proof.
  cbv zeta.
  assert (O : ∀ event st,
            getEvtType event < 8 →
            (process_event K X cfg event st).1 = EVENT_OK
            ∧ m_evaluation_tree (process_event K X cfg event st).2
              = m_evaluation_tree st
                ++ [m_container (process_event K X cfg event st).2]).
  { intros ev s H.
    by destruct (process_event_fields K X cfg ev s H)
      as (E & _ & _ & _ & _ & _ & T). }
  split_and!.
  - destruct (Z.le_gt_cases 8 (getEvtType event)) as [H|H].
    + by rewrite process_event_discard.
    + destruct (O event st) as (E & _); [lia|]. rewrite E. split; [done|lia].
  - intros H. by rewrite process_event_discard.
  - apply O.
  - intros events. revert st.
    induction events as [|ev events IH]; intros st; [simpl; lia|].
    simpl run. rewrite IH, filter_cons.
    destruct (Z.le_gt_cases 8 (getEvtType ev)) as [H|H].
    + rewrite process_event_discard by done.
      by rewrite decide_False by lia.
    + destruct (O ev st) as (_ & T); [lia|].
      rewrite T, length_app, decide_True by lia. simpl. lia.
Qed.

(** X7 — what the flags select.  After a processed event the taggers of the
    container are the tagger rows of the packets that are present, in packet
    order, when the tagger flag is set, and none otherwise; there are no
    samples without the sample flag and no waveforms without the waveform
    flag; and when neither the sample nor the waveform flag is set, no row
    is matched or counted: cached pairs and histogram are as before. *)
Theorem container_by_flags (K : Constants) (X : Collaborators) (cfg : Config)
    (event : Event) (st : State) :
  getEvtType event < 8 →
  let st' := (process_event K X cfg event st).2 in
  taggers (m_container st')
  = (if flag_set cfg (EvalTagger K) then event_taggers K event else [])
  ∧ (flag_set cfg (EvalSample K) = false → samples (m_container st') = [])
  ∧ (flag_set cfg (EvalWaveform K) = false → waveforms (m_container st') = [])
  ∧ (eval_data K cfg = false →
     samples (m_container st') = [] ∧ waveforms (m_container st') = []
     ∧ m_fee_bco_matching_map st' = m_fee_bco_matching_map st
     ∧ m_bco_map st' = m_bco_map st).
Proof.
  intros H. cbv zeta.
  destruct (process_event_fields K X cfg event st H)
    as (_ & E1 & E2 & E3 & E4 & E5 & _).
  cbv zeta in *. rewrite E1, E2, E3, E4, E5.
  split_and!; [done|by intros ->|by intros ->|].
  intros N.
  destruct (packets_fields K X cfg event (m_packet_ids K) (enter_event st))
    as (_ & _ & F).
  destruct F as (F1 & F2 & F3 & F4); [by left|].
  fold (packet_loop K X cfg event (enter_event st)) in F1, F2, F3, F4.
  rewrite F1, F2, F3, F4. simpl.
  by destruct (flag_set cfg (EvalSample K)), (flag_set cfg (EvalWaveform K)).
Qed.

(** The scenario event with the tagger flag alone. *)
Lemma container_by_flags_witness :
  let cfg := mkConfig 4 (to_double 3) (to_double 0) 0 1024 0 in
  let st' := (process_event scenario_constants scenario_collaborators cfg
                (event_of scenario_packet) initial_state).2 in
  taggers (m_container st')
  = (if flag_set cfg (EvalTagger scenario_constants)
     then event_taggers scenario_constants (event_of scenario_packet) else [])
  ∧ (flag_set cfg (EvalSample scenario_constants) = false →
     samples (m_container st') = [])
  ∧ (flag_set cfg (EvalWaveform scenario_constants) = false →
     waveforms (m_container st') = [])
  ∧ (eval_data scenario_constants cfg = false →
     samples (m_container st') = [] ∧ waveforms (m_container st') = []
     ∧ m_fee_bco_matching_map st' = m_fee_bco_matching_map initial_state
     ∧ m_bco_map st' = m_bco_map initial_state).
Proof.
  apply (container_by_flags scenario_constants scenario_collaborators
           (mkConfig 4 (to_double 3) (to_double 0) 0 1024 0)
           (event_of scenario_packet) initial_state).
  simpl. lia.
Defined.

(** X8 — an event without packets.  When none of the configured packets is
    in the event, the event is still processed: the container is emptied,
    the tree receives the empty container, and cached pairs and histogram
    are as before. *)
Theorem event_without_packets (K : Constants) (X : Collaborators)
    (cfg : Config) (event : Event) (st : State) :
  getEvtType event < 8 →
  Forall (λ packet_id, getPacket event packet_id = None) (m_packet_ids K) →
  let r := process_event K X cfg event st in
  r.1 = EVENT_OK
  ∧ m_container r.2 = mkContainer [] [] []
  ∧ m_evaluation_tree r.2 = m_evaluation_tree st ++ [mkContainer [] [] []]
  ∧ m_fee_bco_matching_map r.2 = m_fee_bco_matching_map st
  ∧ m_bco_map r.2 = m_bco_map st.
Proof.
  intros H N. cbv zeta.
  destruct (process_event_fields K X cfg event st H)
    as (E0 & E1 & E2 & E3 & E4 & E5 & E6).
  destruct (packets_fields K X cfg event (m_packet_ids K) (enter_event st))
    as (_ & _ & F).
  destruct F as (F1 & F2 & F3 & F4); [by right|].
  fold (packet_loop K X cfg event (enter_event st)) in F1, F2, F3, F4.
  cbv zeta in *. rewrite F3 in E1. rewrite F4 in E2.
  unfold event_taggers in E3. rewrite concat_absent in E3 by done.
  assert (C : m_container (process_event K X cfg event st).2 = mkContainer [] [] []).
  { destruct (m_container (process_event K X cfg event st).2) as [s w t].
    simpl in *. subst.
    by destruct (flag_set cfg (EvalSample K)), (flag_set cfg (EvalWaveform K)),
      (flag_set cfg (EvalTagger K)). }
  rewrite E6, E4, E5, F1, F2, C. done.
Qed.

Lemma event_without_packets_witness :
  let r := process_event scenario_constants scenario_collaborators
             (scenario_config 0) empty_event stale_state in
  r.1 = EVENT_OK
  ∧ m_container r.2 = mkContainer [] [] []
  ∧ m_evaluation_tree r.2
    = m_evaluation_tree stale_state ++ [mkContainer [] [] []]
  ∧ m_fee_bco_matching_map r.2 = m_fee_bco_matching_map stale_state
  ∧ m_bco_map r.2 = m_bco_map stale_state.
Proof.
  apply (event_without_packets scenario_constants scenario_collaborators
           (scenario_config 0) empty_event stale_state).
  - simpl. lia.
  - repeat constructor.
Defined.

(** ** The matching of one fee *)

Lemma match_bco_fee_match cfg main_bco_list fee_id fee_bco st :
  let r := match_bco cfg main_bco_list fee_id fee_bco st in
  let m := fee_match (fee_state main_bco_list st fee_id) fee_bco in
  r.1 = m.1
  ∧ fee_state main_bco_list r.2 fee_id = m.2
  ∧ ∀ f, f ≠ fee_id →
         fee_state main_bco_list r.2 f = fee_state main_bco_list st f.
Proof.
  cbv zeta. unfold fee_match, fee_state. cbn [fst snd].
  fold (within_tolerance st fee_id fee_bco).
  destruct (within_tolerance st fee_id fee_bco) eqn:W.
  - destruct (match_bco_within cfg main_bco_list fee_id fee_bco st W)
      as (R & P & Q & _).
    cbv zeta in *. unfold queue_of. rewrite R, Q, P. split_and!; [done..|].
    intros f _. by rewrite P.
  - destruct (queue_of main_bco_list st fee_id) as [|x rest] eqn:E.
    + destruct (match_bco_orphan cfg main_bco_list fee_id fee_bco st W E)
        as (R & P & Q).
      cbv zeta in *. rewrite R, P, Q, E. split_and!; [done..|].
      intros f _. by rewrite P, Q.
    + destruct (match_bco_pop cfg main_bco_list fee_id fee_bco st x rest W E)
        as (R & P & Q & O & _).
      cbv zeta in *. rewrite R, P, Q. split_and!; [done..|].
      intros f Hf. destruct (O f Hf) as [-> ->]. done.
Qed.

(** X9 — the matching is a state machine of each fee.  On the cached pair
    and the list of the fee, the search does the steps of [fee_match]:
    within tolerance it returns the cached lvl1 bco and changes nothing,
    otherwise it takes the front of the list and caches it with the fee bco,
    or finds nothing when the list is empty; the pair and the list of every
    other fee are as before.  Nothing is found exactly when the fee bco is
    outside tolerance and the list of the fee is empty. *)
Theorem matching_per_fee (cfg : Config) (main_bco_list : list Z)
    (fee_id fee_bco : Z) (st : State) :
  let r := match_bco cfg main_bco_list fee_id fee_bco st in
  let m := fee_match (fee_state main_bco_list st fee_id) fee_bco in
  r.1 = m.1
  ∧ fee_state main_bco_list r.2 fee_id = m.2
  ∧ (∀ f, f ≠ fee_id →
          fee_state main_bco_list r.2 f = fee_state main_bco_list st f)
  ∧ (r.1 = None
     ↔ within_tolerance st fee_id fee_bco = false
       ∧ queue_of main_bco_list st fee_id = []).
Proof.
  cbv zeta.
  destruct (match_bco_fee_match cfg main_bco_list fee_id fee_bco st)
    as (R & S & O).
  cbv zeta in R, S, O. split_and!; [done..|].
  rewrite R. unfold fee_match, fee_state. cbn [fst snd].
  fold (within_tolerance st fee_id fee_bco).
  destruct (within_tolerance st fee_id fee_bco).
  - split; [done|]. by intros [? _].
  - destruct (queue_of main_bco_list st fee_id); [done|].
    split; [done|]. by intros [_ ?].
Qed.

Section FeeLoopFacts.
Variable K : Constants.
Variable X : Collaborators.
Variable cfg : Config.
Variable packet_id : Z.
Variable main_bco_list : list Z.

Lemma process_waveform_fee_state st row fee_id :
  let st' := process_waveform K X cfg packet_id main_bco_list st row in
  let m := fee_match (fee_state main_bco_list st fee_id) (row_bco row) in
  if is_row_of K fee_id row then
    assigned_bco X cfg packet_id main_bco_list st row = default 0 m.1
    ∧ fee_state main_bco_list st' fee_id = m.2
  else fee_state main_bco_list st' fee_id = fee_state main_bco_list st fee_id.
Proof.
  cbv zeta. unfold is_row_of. destruct (channel_valid K row) eqn:V; simpl.
  - destruct (process_waveform_matching K X cfg packet_id main_bco_list st row
                fee_id V) as [E1 E2].
    cbv zeta in E1, E2.
    destruct (match_bco_fee_match cfg main_bco_list (row_fee row) (row_bco row) st)
      as (R & S & O).
    cbv zeta in R, S, O.
    case_bool_decide as F.
    + subst fee_id. rewrite assigned_bco_eq, R. split; [done|].
      rewrite <- S. unfold fee_state. by rewrite E1, E2.
    + unfold fee_state at 1. rewrite E1, E2. by apply (O fee_id).
  - destruct (process_waveform_skip_matching K X cfg packet_id main_bco_list st
                row fee_id V) as [E1 E2].
    cbv zeta in E1, E2. unfold fee_state. by rewrite E1, E2.
Qed.

Lemma waveform_loop_fee_run fee_id rows st :
  let m := fee_run (fee_state main_bco_list st fee_id)
             (map row_bco (filter (λ row, is_row_of K fee_id row) rows)) in
  assigned_for K X cfg packet_id main_bco_list fee_id rows st
  = map (default 0) m.1
  ∧ fee_state main_bco_list
      (waveform_loop K X cfg packet_id main_bco_list rows st) fee_id
    = m.2.
Proof.
  revert st. induction rows as [|row rows IH]; intros st; [done|].
  cbv zeta. rewrite waveform_loop_cons, filter_cons. simpl assigned_for.
  pose proof (process_waveform_fee_state st row fee_id) as P. cbv zeta in P.
  destruct (IH (process_waveform K X cfg packet_id main_bco_list st row))
    as [I1 I2].
  cbv zeta in I1, I2.
  destruct (is_row_of K fee_id row) eqn:R.
  - rewrite decide_True by done. destruct P as [P1 P2].
    simpl. rewrite I1, I2, P1, P2. done.
  - rewrite decide_False by (simpl; tauto).
    simpl. rewrite I1, I2, P. done.
Qed.

End FeeLoopFacts.

(** X10 — the fees do not interfere.  Along a waveform loop, the lvl1 bco
    given to the valid rows of one fee, and the pair and list the fee ends
    with, are those of the state machine of the fee run over the fee bco of
    its own valid rows.  So two loops in which the fee starts from the same
    pair and list and has the same valid rows give the fee the same lvl1 bco
    and leave it the same pair and list, whatever rows of other fees or rows
    with an invalid channel are interleaved. *)
Theorem fee_independence (K : Constants) (X : Collaborators) (cfg : Config)
    (packet_id : Z) (main_bco_list : list Z) (fee_id : Z)
    (rows : list WaveformRow) (st : State) :
  (let m := fee_run (fee_state main_bco_list st fee_id)
              (map row_bco (filter (λ row, is_row_of K fee_id row) rows)) in
   assigned_for K X cfg packet_id main_bco_list fee_id rows st
   = map (default 0) m.1
   ∧ fee_state main_bco_list
       (waveform_loop K X cfg packet_id main_bco_list rows st) fee_id
     = m.2)
  ∧ (∀ rows' st',
       fee_state main_bco_list st' fee_id = fee_state main_bco_list st fee_id →
       map row_bco (filter (λ row, is_row_of K fee_id row) rows')
       = map row_bco (filter (λ row, is_row_of K fee_id row) rows) →
       assigned_for K X cfg packet_id main_bco_list fee_id rows' st'
       = assigned_for K X cfg packet_id main_bco_list fee_id rows st
       ∧ fee_state main_bco_list
           (waveform_loop K X cfg packet_id main_bco_list rows' st') fee_id
         = fee_state main_bco_list
             (waveform_loop K X cfg packet_id main_bco_list rows st) fee_id).
Proof.
  pose proof (waveform_loop_fee_run K X cfg packet_id main_bco_list fee_id rows st)
    as [A1 A2].
  cbv zeta in A1, A2. split; [done|].
  intros rows' st' Es Er.
  pose proof (waveform_loop_fee_run K X cfg packet_id main_bco_list fee_id rows' st')
    as [B1 B2].
  cbv zeta in B1, B2. rewrite Es, Er in B1, B2.
  by rewrite A1, A2, B1, B2.
Qed.

(** ** Where the peak comes from *)

Section PeakFacts.
Variable K : Constants.
Variable row : WaveformRow.

Local Abbreviation loop := (fold_left (scan_step K row)).
Local Abbreviation valid := (valid_adc K row).

(** [sample_max] after the loop is the one before or the sample of a valid
    entry above it; it is never below the one before nor below a valid
    entry. *)
Lemma scan_loop_max_spec indices r smax m s :
  (∀ i a, assign_adc i a r = assign_adc i a s) →
  let res := loop indices (r, smax, m) in
  (res.1.2 = smax
   ∨ ∃ i, i ∈ indices ∧ valid i = true ∧ s_adc smax < adc_at row i
          ∧ res.1.2 = assign_adc i (adc_at row i) s)
  ∧ s_adc smax ≤ s_adc res.1.2
  ∧ ∀ i, i ∈ indices → valid i = true → adc_at row i ≤ s_adc res.1.2.
Proof.
  revert r smax m. induction indices as [|i l IH]; intros r smax m B.
  - simpl. split_and!; [by left|lia|]. intros i Hi. by apply elem_of_nil in Hi.
  - cbv zeta. rewrite scan_loop_cons. destruct (valid i) eqn:Hv.
    + rewrite scan_step_take by done. cbv zeta.
      set (r' := assign_adc i (adc_at row i) r).
      set (smax' := if s_adc smax <? adc_at row i then r' else smax).
      destruct (IH r' smax' (multimap.emplace (s_lvl1_bco r) r' m))
        as (D & L & U).
      { intros j a. subst r'. by rewrite <- B. }
      cbv zeta in D, L, U.
      assert (S' : s_adc smax ≤ s_adc smax' ∧ adc_at row i ≤ s_adc smax'
                   ∧ (smax' = smax
                      ∨ s_adc smax < adc_at row i
                        ∧ smax' = assign_adc i (adc_at row i) s)).
      { subst smax' r'. destruct (Z.ltb_spec (s_adc smax) (adc_at row i)).
        - simpl. split_and!; [lia|lia|]. right. by rewrite B.
        - split_and!; [lia|lia|by left]. }
      destruct S' as (S1 & S2 & S3).
      split_and!.
      * destruct D as [D|(j & Hj & Hvj & Hlt & D)].
        -- rewrite D. destruct S3 as [S3|[S3 S4]]; [by left|].
           right. exists i. split_and!; [left|done|done|done].
        -- right. exists j. split_and!; [by right|done|lia|done].
      * lia.
      * intros j Hj Hvj. apply elem_of_cons in Hj as [->|Hj]; [lia|by apply U].
    + rewrite scan_step_skip by done.
      destruct (IH r smax m B) as (D & L & U). cbv zeta in D, L, U.
      split_and!; [|done|].
      * destruct D as [D|(j & Hj & Hvj & Hlt & D)]; [by left|].
        right. exists j. split_and!; [by right|done..].
      * intros j Hj Hvj. apply elem_of_cons in Hj as [->|Hj]; [congruence|by apply U].
Qed.

End PeakFacts.

(** X11 — where the peak comes from.  The peak of a waveform is either the
    zero-initialized sample or the running sample with the index and the adc
    of a scanned entry that is not the invalid value and is above 0; its adc
    is not below the adc of any such entry; and it is the zero-initialized
    sample exactly when no scanned valid entry is above 0. *)
Theorem peak_provenance (K : Constants) (row : WaveformRow) (sample : Sample) :
  let p := peak K row sample in
  (p = Sample_default
   ∨ ∃ i, 0 ≤ i < scan_bound row ∧ valid_adc K row i = true
          ∧ 0 < adc_at row i ∧ p = assign_adc i (adc_at row i) sample)
  ∧ (∀ i, 0 ≤ i < scan_bound row → valid_adc K row i = true →
          adc_at row i ≤ s_adc p)
  ∧ (p = Sample_default
     ↔ ∀ i, 0 ≤ i < scan_bound row → valid_adc K row i = true →
            adc_at row i ≤ 0).
Proof.
  cbv zeta. unfold peak, scan_samples.
  destruct (scan_loop_max_spec K row (seqZ 0 (scan_bound row)) sample
              Sample_default [] sample) as (D & _ & U); [done|].
  cbv zeta in D, U. split_and!.
  - destruct D as [D|(i & Hi & Hv & Hlt & D)]; [by left|].
    right. exists i. apply elem_of_seqZ in Hi. split_and!; [lia|lia|done|done|done].
  - intros i Hi Hv. apply U; [|done]. apply elem_of_seqZ. lia.
  - split.
    + intros E i Hi Hv. rewrite E in U.
      apply (U i); [|done]. apply elem_of_seqZ. lia.
    + intros Z0. apply scan_loop_keep. intros i Hi Hv.
      apply elem_of_seqZ in Hi. apply Z0; [lia|done].
Qed.

(** X12 — the waveform of a row.  With the waveform flag set, a valid row
    adds one waveform, made from its peak.  When some scanned valid entry is
    above 0, the waveform is stored under the lvl1 bco given to the row and
    carries the fee and fee bco of the row and the adc of the entry at its
    sample index.  When none is, the waveform is made from the
    zero-initialized sample: it is stored under the key 0 with fee 0 and fee
    bco 0, whatever lvl1 bco the row was given. *)
Theorem waveform_of_row (K : Constants) (X : Collaborators) (cfg : Config)
    (packet_id : Z) (main_bco_list : list Z) (st : State) (row : WaveformRow) :
  channel_valid K row = true →
  flag_set cfg (EvalWaveform K) = true →
  let sample := running_sample X cfg packet_id main_bco_list st row in
  let st' := process_waveform K X cfg packet_id main_bco_list st row in
  let w := make_waveform cfg (s_pedestal sample) (s_rms sample)
             (peak K row sample) in
  waveform_map st' = multimap.emplace (w_lvl1_bco w) w (waveform_map st)
  ∧ ((∃ i, 0 ≤ i < scan_bound row ∧ valid_adc K row i = true
           ∧ 0 < adc_at row i) →
     w_lvl1_bco w = assigned_bco X cfg packet_id main_bco_list st row
     ∧ w_fee_id w = row_fee row ∧ w_fee_bco w = row_bco row
     ∧ 0 ≤ w_sample_max w < scan_bound row
     ∧ 0 < w_adc_max w ∧ w_adc_max w = adc_at row (w_sample_max w))
  ∧ ((∀ i, 0 ≤ i < scan_bound row → valid_adc K row i = true →
           adc_at row i ≤ 0) →
     peak K row sample = Sample_default
     ∧ w_lvl1_bco w = 0 ∧ w_fee_id w = 0 ∧ w_fee_bco w = 0 ∧ w_adc_max w = 0).
Proof.
  intros V F. cbv zeta.
  destruct (process_waveform_valid K X cfg packet_id main_bco_list st row V)
    as (_ & _ & _ & _ & _ & _ & _ & E).
  cbv zeta in E. rewrite F, scan_samples_max_indep in E.
  set (sample := running_sample X cfg packet_id main_bco_list st row) in *.
  split_and!; [done| |].
  - intros (i & Hi & Hv & Hpos).
    destruct (scan_loop_max_spec K row (seqZ 0 (scan_bound row)) sample
                Sample_default [] sample) as (D & _ & U); [done|].
    cbv zeta in D, U. fold (scan_samples K row sample []) in D, U.
    fold (peak K row sample) in D, U.
    assert (P : 0 < s_adc (peak K row sample)).
    { assert (adc_at row i ≤ s_adc (peak K row sample)); [|lia].
      apply U; [apply elem_of_seqZ; lia|done]. }
    destruct D as [D|(j & Hj & Hvj & Hlt & D)].
    { rewrite D in P. simpl in P. lia. }
    apply elem_of_seqZ in Hj. rewrite D. simpl in Hlt |- *.
    unfold assigned_bco. fold sample.
    split_and!; [done|apply running_sample_fee|apply running_sample_fee_bco|
                 lia|lia|lia|done].
  - intros Z0.
    assert (P : peak K row sample = Sample_default).
    { unfold peak. by apply scan_samples_no_peak. }
    rewrite P. done.
Qed.

(** A row matched to the lvl1 bco 1000 whose only valid entry is 0. *)
Lemma waveform_of_row_witness :
  let row := scenario_row 7 55 [65000; 0] in
  let st := enter_waveforms initial_state in
  let sample := running_sample scenario_collaborators (scenario_config 0)
                  5001 [1000] st row in
  let st' := process_waveform scenario_constants scenario_collaborators
               (scenario_config 0) 5001 [1000] st row in
  let w := make_waveform (scenario_config 0) (s_pedestal sample) (s_rms sample)
             (peak scenario_constants row sample) in
  assigned_bco scenario_collaborators (scenario_config 0) 5001 [1000] st row
  = 1000
  ∧ waveform_map st' = [(0, w)]
  ∧ peak scenario_constants row sample = Sample_default
  ∧ w_lvl1_bco w = 0 ∧ w_fee_id w = 0 ∧ w_fee_bco w = 0 ∧ w_adc_max w = 0.
Proof.
  cbv zeta.
  destruct (waveform_of_row scenario_constants scenario_collaborators
              (scenario_config 0) 5001 [1000] (enter_waveforms initial_state)
              (scenario_row 7 55 [65000; 0])) as (E & _ & Z0);
    [reflexivity|reflexivity|].
  cbv zeta in E, Z0.
  destruct Z0 as (P & W1 & W2 & W3 & W4).
  { change (scan_bound (scenario_row 7 55 [65000; 0])) with 2.
    intros i Hi. assert (i = 0 ∨ i = 1) as [Hc|Hc] by lia; subst i;
      vm_compute; congruence. }
  split_and!; [reflexivity|exact E|exact P|exact W1|exact W2|exact W3|exact W4].
Defined.

(** ** Invariants along the packets of an event *)

Lemma to_uint16_range (v : Z) : 0 ≤ to_uint16 v < 2 ^ 16.
Proof. unfold to_uint16. apply Z.mod_pos_bound. lia. Qed.

Lemma emplace_all_perm {V : Type} (key : V → Z) xs (m : multimap.t V) :
  emplace_all key xs m ≡ₚ m ++ map (λ x, (key x, x)) xs.
Proof.
  revert m. induction xs as [|x xs IH]; intros m; simpl.
  - by rewrite app_nil_r.
  - rewrite IH, emplace_perm. by rewrite <- Permutation_middle.
Qed.

Section InvariantFacts.
Variable K : Constants.
Variable X : Collaborators.
Variable cfg : Config.

(** A property of the state that the bookkeeping of a packet keeps and
    that every row keeps holds after the packets when it holds before. *)
Lemma packets_invariant (P : State → Prop) event packet_ids st :
  (∀ st st', only_output st st' → P st → P st') →
  (∀ ts st, P st → P (with_taggers ts st)) →
  (∀ st, P st → P (enter_waveforms st)) →
  (∀ packet_id main_bco_list st row,
     P st → P (process_waveform K X cfg packet_id main_bco_list st row)) →
  P st → P (fold_left (packet_step K X cfg event) packet_ids st).
Proof.
  intros HO HT HE HW. revert st.
  induction packet_ids as [|id ids IH]; intros st H; [done|].
  simpl. apply IH. unfold packet_step. destruct (getPacket event id) as [packet|].
  - rewrite process_packet_eq. cbv zeta.
    set (main := if eval_data K cfg then tagged_lvl1_bco id packet else []).
    assert (H1 : P (if flag_set cfg (EvalTagger K)
                    then with_taggers (map (read_tagger id) (tagger_rows packet)) st
                    else st)).
    { destruct (flag_set cfg (EvalTagger K)); [by apply HT|done]. }
    apply (HO _ _ (print_packet_only_output cfg id packet main _)) in H1.
    destruct (eval_data K cfg); [|done].
    apply HE in H1. revert H1. generalize (enter_waveforms
      (print_packet cfg id packet main
         (if flag_set cfg (EvalTagger K)
          then with_taggers (map (read_tagger id) (tagger_rows packet)) st
          else st))).
    induction (waveform_rows packet) as [|row rows IHr]; intros s Hs; [done|].
    rewrite waveform_loop_cons. by apply IHr, HW.
  - by apply (HO _ _ (print_if_only_output _ _ st)).
Qed.

Lemma running_sample_wellformed packet_id main_bco_list st row :
  channel_valid K row = true →
  let s := running_sample X cfg packet_id main_bco_list st row in
  0 ≤ s_channel s < m_nchannels_fee K
  ∧ 0 ≤ s_fee_id s < 2 ^ 16
  ∧ 0 ≤ s_fee_bco s < 2 ^ 32
  ∧ s_lvl1_bco_masked s = Z.land (s_lvl1_bco s) 0xFFFFF.
Proof.
  intros V. cbv zeta. rewrite running_sample_fee, running_sample_fee_bco.
  unfold channel_valid in V. apply Z.ltb_lt in V.
  pose proof (to_uint16_range (CHANNEL row)).
  pose proof (to_uint16_range (FEE row)).
  pose proof (to_uint32_range (BCO row)).
  unfold running_sample. rewrite correlate_eq. cbv zeta.
  destruct (match_bco _ _ _ _ _) as [[l|] st1];
    cbn -[Z.pow Z.land]; unfold row_fee, row_bco; split_and!; try lia; done.
Qed.

Lemma emitted_wellformed packet_id main_bco_list st row :
  channel_valid K row = true →
  Forall (sample_wellformed K)
    (emitted K row (running_sample X cfg packet_id main_bco_list st row)
       (seqZ 0 (scan_bound row))).
Proof.
  intros V.
  destruct (running_sample_wellformed packet_id main_bco_list st row V)
    as (C & F & B & M).
  set (s := running_sample X cfg packet_id main_bco_list st row) in *.
  unfold emitted. apply Forall_fmap, Forall_forall. intros i Hi.
  apply list_elem_of_filter in Hi as [Hv Hi]. apply elem_of_seqZ in Hi.
  pose proof (scan_bound_le row). pose proof (to_uint16_range (ADC row i)).
  unfold valid_adc in Hv. apply Is_true_true, negb_true_iff, Z.eqb_neq in Hv.
  clearbody s. unfold sample_wellformed, adc_at in *. cbn -[Z.pow Z.land].
  split_and!; try done; try lia.
Qed.

Lemma process_waveform_samples_wellformed packet_id main_bco_list st row :
  Forall (λ e, sample_wellformed K e.2) (sample_map st) →
  Forall (λ e, sample_wellformed K e.2)
    (sample_map (process_waveform K X cfg packet_id main_bco_list st row)).
Proof.
  intros H. destruct (channel_valid K row) eqn:V.
  - destruct (process_waveform_valid K X cfg packet_id main_bco_list st row V)
      as (_ & _ & _ & _ & _ & _ & E & _).
    cbv zeta in E. rewrite E, scan_samples_map, emplace_all_perm.
    apply Forall_app. split; [done|].
    apply Forall_fmap. by apply emitted_wellformed.
  - destruct (process_waveform_skip K X cfg packet_id main_bco_list st row V)
      as (_ & _ & _ & _ & E & _).
    cbv zeta in E. by rewrite E.
Qed.

Lemma process_event_samples_wellformed event st :
  Forall (sample_wellformed K) (samples (m_container st)) →
  Forall (sample_wellformed K)
    (samples (m_container (process_event K X cfg event st).2)).
Proof.
  intros H. destruct (Z.le_gt_cases 8 (getEvtType event)) as [T|T].
  - by rewrite process_event_discard.
  - destruct (process_event_fields K X cfg event st) as (_ & E & _); [lia|].
    cbv zeta in E. rewrite E.
    destruct (flag_set cfg (EvalSample K)); [|constructor].
    unfold multimap.values. apply Forall_fmap.
    apply (packets_invariant
             (λ s, Forall (λ e, sample_wellformed K e.2) (sample_map s))).
    + by intros s s' (_ & _ & _ & _ & -> & _).
    + done.
    + done.
    + intros. by apply process_waveform_samples_wellformed.
    + constructor.
Qed.

(** [++m_bco_map[bco]] on the sum of the counts. *)
Lemma bco_total_increment bco (m : gmap Z N) :
  bco_total (increment bco m) = (bco_total m + 1)%N.
Proof.
  unfold bco_total, increment.
  destruct (m !! bco) as [n|] eqn:E; simpl.
  - rewrite (map_fold_delete_L _ _ bco n m); [|intros; lia|done].
    rewrite <- insert_delete_eq.
    rewrite map_fold_insert_L; [lia|intros; lia|apply lookup_delete_eq].
  - rewrite map_fold_insert_L; [lia|intros; lia|done].
Qed.

Lemma waveform_loop_total packet_id main_bco_list rows st :
  bco_total (m_bco_map (waveform_loop K X cfg packet_id main_bco_list rows st))
  = (bco_total (m_bco_map st)
     + N.of_nat (length (filter (λ row, channel_valid K row) rows)))%N.
Proof.
  revert st. induction rows as [|row rows IH]; intros st.
  - simpl. lia.
  - rewrite waveform_loop_cons, IH, filter_cons.
    destruct (channel_valid K row) eqn:V.
    + destruct (process_waveform_valid K X cfg packet_id main_bco_list st row V)
        as (_ & _ & _ & _ & _ & E & _).
      cbv zeta in E. rewrite E, bco_total_increment.
      rewrite decide_True by done. simpl length. lia.
    + destruct (process_waveform_skip K X cfg packet_id main_bco_list st row V)
        as (_ & _ & E & _).
      cbv zeta in E. rewrite E. by rewrite decide_False by (simpl; tauto).
Qed.

Lemma packets_total event packet_ids st :
  bco_total (m_bco_map (fold_left (packet_step K X cfg event) packet_ids st))
  = (bco_total (m_bco_map st)
     + if eval_data K cfg
       then N.of_nat
              (length
                 (filter (λ row, channel_valid K row)
                    (concat (map (λ packet_id,
                                    match getPacket event packet_id with
                                    | Some packet => waveform_rows packet
                                    | None => []
                                    end) packet_ids))))
       else 0)%N.
Proof.
  revert st. induction packet_ids as [|id ids IH]; intros st.
  - simpl. destruct (eval_data K cfg); simpl; lia.
  - simpl fold_left. rewrite IH. simpl map. simpl concat.
    rewrite filter_app, length_app.
    assert (E : bco_total (m_bco_map (packet_step K X cfg event st id))
                = (bco_total (m_bco_map st)
                   + if eval_data K cfg
                     then N.of_nat
                            (length
                               (filter (λ row, channel_valid K row)
                                  match getPacket event id with
                                  | Some packet => waveform_rows packet
                                  | None => []
                                  end))
                     else 0)%N).
    { unfold packet_step. destruct (getPacket event id) as [packet|].
      - rewrite process_packet_eq. cbv zeta.
        set (main := if eval_data K cfg then tagged_lvl1_bco id packet else []).
        set (st1 := if flag_set cfg (EvalTagger K)
                    then with_taggers (map (read_tagger id) (tagger_rows packet)) st
                    else st).
        assert (E1 : m_bco_map (print_packet cfg id packet main st1) = m_bco_map st).
        { destruct (print_packet_only_output cfg id packet main st1)
            as (_ & _ & -> & _).
          subst st1. by destruct (flag_set cfg (EvalTagger K)). }
        destruct (eval_data K cfg).
        + rewrite waveform_loop_total. simpl. by rewrite E1.
        + rewrite E1. lia.
      - destruct (print_if_only_output (1 <? Verbosity cfg)
                    (MsgPacketNotFound id) st) as (_ & _ & -> & _).
        destruct (eval_data K cfg); simpl; lia. }
    rewrite E. destruct (eval_data K cfg); lia.
Qed.

Lemma process_waveform_positive packet_id main_bco_list st row :
  map_Forall (λ _ n, (1 ≤ n)%N) (m_bco_map st) →
  map_Forall (λ _ n, (1 ≤ n)%N)
    (m_bco_map (process_waveform K X cfg packet_id main_bco_list st row)).
Proof.
  intros H. destruct (channel_valid K row) eqn:V.
  - destruct (process_waveform_valid K X cfg packet_id main_bco_list st row V)
      as (_ & _ & _ & _ & _ & E & _).
    cbv zeta in E. rewrite E. unfold increment.
    apply map_Forall_insert_2; [lia|done].
  - destruct (process_waveform_skip K X cfg packet_id main_bco_list st row V)
      as (_ & _ & E & _).
    cbv zeta in E. by rewrite E.
Qed.

Lemma process_event_positive event st :
  map_Forall (λ _ n, (1 ≤ n)%N) (m_bco_map st) →
  map_Forall (λ _ n, (1 ≤ n)%N) (m_bco_map (process_event K X cfg event st).2).
Proof.
  intros H. destruct (Z.le_gt_cases 8 (getEvtType event)) as [T|T].
  - by rewrite process_event_discard.
  - destruct (process_event_fields K X cfg event st)
      as (_ & _ & _ & _ & _ & E & _); [lia|].
    cbv zeta in E. rewrite E.
    apply (packets_invariant (λ s, map_Forall (λ _ n, (1 ≤ n)%N) (m_bco_map s))).
    + by intros s s' (_ & _ & -> & _).
    + done.
    + done.
    + intros. by apply process_waveform_positive.
    + done.
Qed.

End InvariantFacts.

(** X13 — what every sample of the container satisfies.  After any run from
    the initial state, every sample of the container has an adc that is not
    the invalid value, a sample index below 1024, a channel below
    [m_nchannels_fee], fee, fee bco and adc within their unsigned ranges,
    and a masked lvl1 bco equal to the low 20 bits of its lvl1 bco. *)
Theorem container_samples_wellformed (K : Constants) (X : Collaborators)
    (cfg : Config) (events : list Event) :
  Forall (sample_wellformed K)
    (samples (m_container (run K X cfg events initial_state))).
Proof.
  assert (G : ∀ st, Forall (sample_wellformed K) (samples (m_container st)) →
            Forall (sample_wellformed K)
              (samples (m_container (run K X cfg events st)))).
  { induction events as [|event events IH]; intros st H; [done|].
    simpl. apply IH. by apply process_event_samples_wellformed. }
  apply G. constructor.
Qed.

(** X14 — the histogram counts waveform rows.  A processed event adds to the
    sum of the counts the number of rows with a valid channel in the packets
    that are present, when the sample or the waveform flag is set, and
    nothing otherwise; and after any run from the initial state every entry
    of the histogram has a count of at least 1. *)
Theorem histogram_total (K : Constants) (X : Collaborators) (cfg : Config) :
  (∀ event st,
     getEvtType event < 8 →
     bco_total (m_bco_map (process_event K X cfg event st).2)
     = (bco_total (m_bco_map st)
        + if eval_data K cfg
          then N.of_nat (length (filter (λ row, channel_valid K row)
                                   (event_rows K event)))
          else 0)%N)
  ∧ (∀ events,
       map_Forall (λ _ n, (1 ≤ n)%N)
         (m_bco_map (run K X cfg events initial_state))).
Proof.
  split.
  - intros event st T.
    destruct (process_event_fields K X cfg event st T)
      as (_ & _ & _ & _ & _ & E & _).
    cbv zeta in E. rewrite E. unfold packet_loop, event_rows.
    by rewrite packets_total.
  - intros events.
    assert (G : ∀ st, map_Forall (λ _ n, (1 ≤ n)%N) (m_bco_map st) →
              map_Forall (λ _ n, (1 ≤ n)%N) (m_bco_map (run K X cfg events st))).
    { induction events as [|event events IH]; intros st H; [done|].
      simpl. apply IH. by apply process_event_positive. }
    apply G, map_Forall_empty.
Qed.

(** ** What [End] prints *)

Lemma entry_le_total : Total entry_le.
Proof. intros a b. unfold entry_le. lia. Qed.

Lemma entry_le_trans : Transitive entry_le.
Proof. intros a b c. unfold entry_le. lia. Qed.

Lemma keys_strictly_sorted (l : list (Z * N)) :
  StronglySorted entry_le l → NoDup (map fst l) →
  StronglySorted Z.lt (map fst l).
Proof.
  induction 1 as [|e l S IH F]; intros N; [constructor|].
  simpl in *. apply NoDup_cons in N as [N1 N2].
  constructor; [by apply IH|].
  apply Forall_fmap, Forall_forall. intros e' He'. simpl.
  rewrite Forall_forall in F. specialize (F e' He'). unfold entry_le in F.
  assert (e.1 ≠ e'.1); [|lia].
  intros E. apply N1. rewrite E. apply list_elem_of_fmap. by exists e'.
Qed.

Lemma print_entries_cout (entries : list (Z * N)) st :
  cout (fold_left (λ st e, print (MsgEndBco e.1 e.2) st) entries st)
  = cout st ++ map (λ e, MsgEndBco e.1 e.2) entries.
Proof.
  revert st. induction entries as [|e l IH]; intros st; simpl.
  - by rewrite app_nil_r.
  - rewrite IH. simpl. by rewrite <- app_assoc.
Qed.

Lemma print_entries_only_output (entries : list (Z * N)) st :
  only_output st (fold_left (λ st e, print (MsgEndBco e.1 e.2) st) entries st).
Proof.
  revert st. induction entries as [|e l IH]; intros st; [apply only_output_refl|].
  simpl. eapply only_output_trans; [apply print_only_output|apply IH].
Qed.

(** *** The evaluation file *)

Section FileFacts.
Variable K : Constants.
Variable X : Collaborators.
Variable cfg : Config.

Lemma match_bco_file main_bco_list fee_id fee_bco st :
  m_evaluation_file (match_bco cfg main_bco_list fee_id fee_bco st).2
  = m_evaluation_file st.
Proof.
  unfold match_bco, print_if.
  destruct (matching_pair_at _ _) as [p m], (bco_list_at _ _ _) as [l lm].
  simpl. repeat case_match; simplify_eq/=; done.
Qed.

Lemma process_waveform_file packet_id main_bco_list st row :
  m_evaluation_file (process_waveform K X cfg packet_id main_bco_list st row)
  = m_evaluation_file st.
Proof.
  unfold process_waveform, print_if.
  destruct (channel_valid K row); simpl; [|by destruct (verbose cfg)].
  rewrite correlate_eq. simpl.
  pose proof (match_bco_file main_bco_list (row_fee row) (row_bco row) st) as F.
  destruct (match_bco _ _ _ _ _) as [found st1]. simpl in *.
  destruct (1 <? Verbosity cfg); simpl;
    destruct (scan_samples _ _ _ _) as [[run smax] smap]; simpl;
    destruct (flag_set cfg (EvalWaveform K)); simpl; done.
Qed.

(** No event touches the evaluation file. *)
Lemma process_event_file event st :
  m_evaluation_file (process_event K X cfg event st).2 = m_evaluation_file st.
Proof.
  unfold process_event. destruct (8 <=? getEvtType event); [done|]. simpl.
  unfold copy_samples, copy_waveforms, packet_loop.
  assert (E : m_evaluation_file
                (fold_left (packet_step K X cfg event) (m_packet_ids K)
                   (enter_event st))
              = m_evaluation_file st).
  { apply (packets_invariant K X cfg
             (λ s, m_evaluation_file s = m_evaluation_file st)); try done.
    - intros s s' O <-. apply O.
    - intros. by rewrite process_waveform_file. }
  by destruct (flag_set cfg (EvalSample K)), (flag_set cfg (EvalWaveform K)).
Qed.

Lemma run_file events st :
  m_evaluation_file (run K X cfg events st) = m_evaluation_file st.
Proof.
  revert st. induction events as [|event events IH]; intros st; [done|].
  simpl. fold (run K X cfg events (process_event K X cfg event st).2).
  by rewrite IH, process_event_file.
Qed.

End FileFacts.

Lemma write_evaluation_fields st :
  let st' := write_evaluation st in
  m_container st' = m_container st
  ∧ m_fee_bco_matching_map st' = m_fee_bco_matching_map st
  ∧ m_bco_map st' = m_bco_map st
  ∧ m_evaluation_tree st' = m_evaluation_tree st
  ∧ cout st' = cout st
  ∧ sample_map st' = sample_map st
  ∧ waveform_map st' = waveform_map st
  ∧ bco_list_map st' = bco_list_map st
  ∧ orphans st' = orphans st.
Proof. unfold write_evaluation. by destruct (m_evaluation_file st). Qed.

Lemma End_run_only_output cfg st :
  only_output (write_evaluation st) (End_run cfg st).
Proof.
  unfold End_run. cbv zeta. destruct (verbose cfg); [|apply only_output_refl].
  eapply only_output_trans; [apply print_entries_only_output|].
  apply print_only_output.
Qed.

Lemma End_run_file cfg st :
  m_evaluation_file (End_run cfg st) = m_evaluation_file (write_evaluation st).
Proof. apply End_run_only_output. Qed.

(** X15 — what [End] does.  Whatever the verbosity, [End] writes the tree to
    the evaluation file and closes the file: the open file receives the tree
    with the entries filled so far and is closed; without a file nothing is
    written.  So after [Init], a run and [End], the file is closed and holds
    one tree, with one entry per event of a type below 8.  Apart from the file, [End] changes the output
    only, and prints nothing when the verbosity is 0.  Otherwise it prints
    one line per entry of the histogram, then the list of the lvl1 bco:
    every lvl1 bco with an entry appears once with its count, and the lvl1
    bco appear in strictly ascending order. *)
Theorem End_output (cfg : Config) (st : State) :
  let st' := End_run cfg st in
  (∀ file, m_evaluation_file st = Some file → file_open file = true →
     m_evaluation_file st'
     = Some (mkTFile (file_trees file ++ [m_evaluation_tree st]) false))
  ∧ (m_evaluation_file st = None → m_evaluation_file st' = None)
  ∧ (∀ K X events,
       let st_run := run K X cfg events initial_state in
       m_evaluation_file (End_run cfg st_run)
       = Some (mkTFile [m_evaluation_tree st_run] false)
       ∧ length (m_evaluation_tree st_run)
         = length (filter (λ event, getEvtType event < 8) events))
  ∧ only_output st (with_evaluation_file (m_evaluation_file st) st')
  ∧ (Verbosity cfg = 0 → cout st' = cout st)
  ∧ (Verbosity cfg ≠ 0 →
     cout st'
     = cout st
       ++ map (λ e, MsgEndBco e.1 e.2) (bco_entries (m_bco_map st))
       ++ [MsgEndBcoList (map fst (bco_entries (m_bco_map st)))])
  ∧ (∀ bco n, (bco, n) ∈ bco_entries (m_bco_map st)
              ↔ m_bco_map st !! bco = Some n)
  ∧ StronglySorted Z.lt (map fst (bco_entries (m_bco_map st))).
Proof.
  cbv zeta.
  destruct (write_evaluation_fields st)
    as (W1 & W2 & W3 & W4 & W5 & W6 & W7 & W8 & W9). cbv zeta in *.
  assert (F : ∀ s file, m_evaluation_file s = Some file →
            m_evaluation_file (End_run cfg s)
            = Some (mkTFile (if file_open file
                             then file_trees file ++ [m_evaluation_tree s]
                             else file_trees file) false)).
  { intros s file E. rewrite End_run_file. unfold write_evaluation.
    rewrite E. simpl. unfold TTree_Write. by destruct (file_open file). }
  split_and!.
  - intros file E O. rewrite (F _ _ E), O. done.
  - intros E. rewrite End_run_file. unfold write_evaluation. by rewrite E.
  - intros K X events. cbv zeta. split.
    + rewrite (F _ TFile_recreate); [reflexivity|].
      rewrite run_file. reflexivity.
    + assert (G : ∀ s,
                length (m_evaluation_tree (run K X cfg events s))
                = (length (m_evaluation_tree s)
                   + length (filter (λ event, (getEvtType event < 8)%Z)
                               events))%nat).
      { induction events as [|ev events IH]; intros s; [simpl; lia|].
        simpl run. rewrite IH, filter_cons.
        destruct (Z.le_gt_cases 8 (getEvtType ev)) as [H|H].
        - rewrite process_event_discard by done.
          by rewrite decide_False by lia.
        - destruct (process_event_fields K X cfg ev s H)
            as (_ & _ & _ & _ & _ & _ & T).
          rewrite T, length_app, decide_True by lia. simpl. lia. }
      apply (G initial_state).
  - destruct (End_run_only_output cfg st)
      as (O1 & O2 & O3 & O4 & O5 & O6 & O7 & O8 & _).
    unfold only_output. simpl.
    rewrite O1, O2, O3, O4, O5, O6, O7, O8. done.
  - intros V. unfold End_run, verbose. rewrite V. simpl. done.
  - intros V. apply Z.eqb_neq in V. unfold End_run, verbose. rewrite V.
    cbv zeta. simpl negb. cbv iota. simpl cout.
    by rewrite print_entries_cout, W3, W5, <- app_assoc.
  - intros bco n. unfold bco_entries.
    rewrite merge_sort_Permutation. apply elem_of_map_to_list.
  - unfold bco_entries. apply keys_strictly_sorted.
    + apply (@StronglySorted_merge_sort _ entry_le _ entry_le_trans
               entry_le_total).
    + rewrite merge_sort_Permutation. apply NoDup_fst_map_to_list.
Qed.

(** ** The text of the list of lvl1 bco *)

Lemma list_step_spec (k : nat) out bco :
  list_step (bool_decide (k = 0%nat),
             if bool_decide (k = 0%nat) then 0 else Z.of_nat ((k - 1) mod 10) + 1,
             out) bco
  = (bool_decide (S k = 0%nat),
     if bool_decide (S k = 0%nat) then 0 else Z.of_nat ((S k - 1) mod 10) + 1,
     out ++ list_piece k bco).
Proof.
  unfold list_step, list_piece.
  rewrite (bool_decide_eq_false_2 (S k = 0%nat)) by lia.
  replace (S k - 1)%nat with k by lia.
  destruct k as [|k].
  - rewrite bool_decide_eq_true_2 by done.
    rewrite bool_decide_eq_false_2 by (intros [? _]; done). simpl. done.
  - rewrite (bool_decide_eq_false_2 (S k = 0%nat)) by lia.
    replace (S k - 1)%nat with k by lia.
    pose proof (Nat.mod_upper_bound k 10 ltac:(lia)).
    pose proof (Nat.mod_upper_bound (S k) 10 ltac:(lia)).
    pose proof (Nat.div_mod_eq k 10). pose proof (Nat.div_mod_eq (S k) 10).
    destruct (Z.eqb_spec (Z.of_nat (k mod 10) + 1) 10) as [E|E].
    + assert (Hm : (S k mod 10 = 0)%nat) by lia.
      rewrite bool_decide_eq_true_2 by (split; [lia|done]).
      rewrite Hm, <- !app_assoc. done.
    + assert (Hm : Z.of_nat (S k mod 10) = Z.of_nat (k mod 10) + 1) by lia.
      rewrite bool_decide_eq_false_2 by (intros [_ ?]; lia).
      rewrite Hm, <- !app_assoc. done.
Qed.

Lemma list_loop_spec bcos (k : nat) out :
  (fold_left list_step bcos
     (bool_decide (k = 0%nat),
      if bool_decide (k = 0%nat) then 0 else Z.of_nat ((k - 1) mod 10) + 1,
      out)).2
  = out ++ concat (imap (λ i, list_piece (k + i)) bcos).
Proof.
  revert k out. induction bcos as [|bco bcos IH]; intros k out.
  - simpl. by rewrite app_nil_r.
  - cbn [fold_left]. rewrite list_step_spec, IH. rewrite <- app_assoc.
    cbn [imap concat]. rewrite Nat.add_0_r. do 3 f_equal.
    apply imap_ext. intros i x _. simpl. f_equal. lia.
Qed.

Lemma list_piece_value i bco : omap token_value (list_piece i bco) = [bco].
Proof. unfold list_piece. by repeat case_bool_decide. Qed.

Lemma list_piece_separators i bco :
  length (filter (λ t, is_separator t) (list_piece i bco))
  = if bool_decide (i = 0%nat) then 0%nat else 1%nat.
Proof. unfold list_piece. by repeat case_bool_decide. Qed.

Lemma list_piece_newlines i bco :
  length (filter (λ t, is_newline t) (list_piece i bco))
  = if bool_decide (i ≠ 0%nat ∧ (i mod 10 = 0)%nat) then 1%nat else 0%nat.
Proof. unfold list_piece. by repeat case_bool_decide. Qed.

Lemma list_layout_counts (bcos : list Z) (k : nat) :
  let text := concat (imap (λ i, list_piece (k + i)) bcos) in
  omap token_value text = bcos
  ∧ length (filter (λ t, is_separator t) text)
    = (if bool_decide (k = 0%nat) then length bcos - 1 else length bcos)%nat
  ∧ (length (filter (λ t, is_newline t) text)
     + (if bool_decide (k = 0%nat) then 0 else (k - 1) / 10)
     = if bool_decide (k + length bcos = 0)%nat then 0
       else (k + length bcos - 1) / 10)%nat.
Proof.
  revert k. induction bcos as [|bco bcos IH]; intros k.
  - simpl. rewrite Nat.add_0_r. split_and!; [done| |done].
    by case_bool_decide.
  - cbv zeta. cbn [imap concat].
    rewrite omap_app, !filter_app, !length_app.
    rewrite list_piece_value, list_piece_separators, list_piece_newlines.
    rewrite Nat.add_0_r.
    assert (E : imap ((λ i, list_piece (k + i)) ∘ S) bcos
                = imap (λ i, list_piece (S k + i)) bcos).
    { apply imap_ext. intros i x _. simpl. f_equal. lia. }
    rewrite E. destruct (IH (S k)) as (I1 & I2 & I3). cbv zeta in I1, I2, I3.
    rewrite I1, I2. rewrite (bool_decide_eq_false_2 (S k = 0%nat)) in * by lia.
    simpl length.
    rewrite (bool_decide_eq_false_2 (k + S (length bcos) = 0)%nat) by lia.
    rewrite (bool_decide_eq_false_2 (S k + length bcos = 0)%nat) in I3 by lia.
    replace (k + S (length bcos))%nat with (S k + length bcos)%nat by lia.
    replace (S k - 1)%nat with k in I3 by lia.
    split_and!; [done|case_bool_decide; lia|].
    rewrite <- I3.
    pose proof (Nat.div_mod_eq k 10). pose proof (Nat.div_mod_eq (k - 1) 10).
    pose proof (Nat.mod_upper_bound k 10 ltac:(lia)).
    pose proof (Nat.mod_upper_bound (k - 1) 10 ltac:(lia)).
    cbn [Nat.add] in *.
    repeat case_bool_decide; lia.
Qed.

(** X16 — the text of the list of lvl1 bco.  The second loop of [End] writes
    every value in order, the separator before every value but the first,
    and a line break before a value exactly when its index is a positive
    multiple of 10, that is after every tenth value: for n values there are
    n − 1 separators and (n − 1) / 10 line breaks. *)
Theorem list_text_layout (bcos : list Z) :
  list_text bcos = concat (imap list_piece bcos)
  ∧ omap token_value (list_text bcos) = bcos
  ∧ length (filter (λ t, is_separator t) (list_text bcos))
    = (length bcos - 1)%nat
  ∧ length (filter (λ t, is_newline t) (list_text bcos))
    = ((length bcos - 1) / 10)%nat.
Proof.
  assert (E : list_text bcos = concat (imap list_piece bcos)).
  { unfold list_text. apply (list_loop_spec bcos 0 []). }
  destruct (list_layout_counts bcos 0) as (C1 & C2 & C3).
  cbv zeta in C1, C2, C3.
  change (λ i, list_piece (0 + i)) with list_piece in C1, C2, C3.
  rewrite (bool_decide_eq_true_2 (0 = 0)%nat) in C2, C3 by done.
  cbn [Nat.add] in C3. rewrite Nat.add_0_r in C3.
  rewrite E. split_and!; [done|done|done|].
  rewrite C3. case_bool_decide as N; [|done].
  by rewrite N.
Qed.

(** ** The streamer for lists *)

Lemma string_app_assoc (a b c : string) : (a +:+ b) +:+ c = a +:+ (b +:+ c).
Proof.
  induction a as [|x a IH]; [done|].
  change (String x ((a +:+ b) +:+ c) = String x (a +:+ b +:+ c)).
  by rewrite IH.
Qed.

Lemma string_app_empty_r (a : string) : a +:+ "" = a.
Proof.
  induction a as [|x a IH]; [done|].
  change (String x (a +:+ "") = String x a). by rewrite IH.
Qed.

Section StreamerFacts.
Context {T : Type}.
Variable show : T → string.

Lemma stream_loop_rest out (l : list T) :
  (fold_left (stream_step show) l (false, out)).2
  = out +:+ String.concat "" (map (λ v, ", " +:+ show v) l).
Proof.
  revert out. induction l as [|v l IH]; intros out.
  - change (out = out +:+ ""). by rewrite string_app_empty_r.
  - change ((fold_left (stream_step show) l
               (false, (out +:+ ", ") +:+ show v)).2
            = out +:+ String.concat "" (map (λ v, ", " +:+ show v) (v :: l))).
    rewrite IH, !string_app_assoc. f_equal.
    destruct l as [|v' l].
    + change (", " +:+ show v +:+ "" = ", " +:+ show v).
      by rewrite string_app_empty_r.
    + change ((", " +:+ show v)
              +:+ String.concat "" (map (λ v, ", " +:+ show v) (v' :: l))
              = (", " +:+ show v)
                +:+ ""
                +:+ String.concat "" (map (λ v, ", " +:+ show v) (v' :: l))).
      done.
Qed.

Lemma concat_separator (v : T) (l : list T) :
  String.concat ", " (map show (v :: l))
  = show v +:+ String.concat "" (map (λ v, ", " +:+ show v) l).
Proof.
  revert v. induction l as [|v' l IH]; intros v.
  - change (show v = show v +:+ ""). by rewrite string_app_empty_r.
  - change (show v +:+ ", " +:+ String.concat ", " (map show (v' :: l))
            = show v +:+ String.concat "" (map (λ v, ", " +:+ show v) (v' :: l))).
    rewrite IH. f_equal.
    destruct l as [|v'' l].
    + change (", " +:+ show v' +:+ "" = ", " +:+ show v').
      by rewrite string_app_empty_r.
    + change (", " +:+ show v'
              +:+ String.concat "" (map (λ v, ", " +:+ show v) (v'' :: l))
              = (", " +:+ show v')
                +:+ ""
                +:+ String.concat "" (map (λ v, ", " +:+ show v) (v'' :: l))).
      by rewrite !string_app_assoc.
Qed.

End StreamerFacts.

(** X17 — the streamer for lists.  An empty list is written as the two
    braces; any other list as an opening brace and a blank, its elements
    with a comma and a blank between two of them, and a blank and a closing
    brace; the text written before is kept in front, and there is no
    separator before the first or after the last element. *)
Theorem stream_list_format {T : Type} (show : T → string) (out : string)
    (list : list T) :
  stream_list show out list
  = out +:+ match list with
            | [] => "{}"
            | _ => "{ " +:+ String.concat ", " (map show list) +:+ " }"
            end.
Proof.
  destruct list as [|v l]; [done|].
  change (stream_list show out (v :: l))
    with ((fold_left (stream_step show) l
             (false, (out +:+ "{ ") +:+ show v)).2 +:+ " }").
  rewrite stream_loop_rest, concat_separator.
  by rewrite !string_app_assoc.
Qed.

(** ** The cached pairs are kept *)

Lemma match_bco_dom cfg main_bco_list fee_id fee_bco st :
  let st' := (match_bco cfg main_bco_list fee_id fee_bco st).2 in
  dom (m_fee_bco_matching_map st) ⊆ dom (m_fee_bco_matching_map st')
  ∧ fee_id ∈ dom (m_fee_bco_matching_map st').
Proof.
  cbv zeta. unfold match_bco, matching_pair_at, print_if.
  destruct (m_fee_bco_matching_map st !! fee_id) as [p|] eqn:E; cbn [fst snd].
  - assert (fee_id ∈ dom (m_fee_bco_matching_map st))
      by (apply elem_of_dom; eauto).
    destruct (_ <? _); [done|].
    destruct (bco_list_at _ _ _) as [[|x rest] lm]; cbn [fst snd].
    + destruct (verbose cfg); [|done].
      by destruct (orphans_insert _ _) as [o []].
    + destruct (verbose cfg); simpl; rewrite dom_insert_L; set_solver.
  - destruct (_ <? _); simpl; [rewrite dom_insert_L; set_solver|].
    destruct (bco_list_at _ _ _) as [[|x rest] lm]; cbn [fst snd].
    + destruct (verbose cfg); simpl.
      * destruct (bool_decide _); simpl; rewrite dom_insert_L; set_solver.
      * rewrite dom_insert_L. set_solver.
    + destruct (verbose cfg); simpl; rewrite !dom_insert_L; set_solver.
Qed.

(** X18 — the cached pairs are kept.  No row and no event removes the
    cached pair of a fee: the fees with a cached pair after a run include
    those before it; and every valid row leaves its own fee with a cached
    pair, whether or not a lvl1 bco was found for it. *)
Theorem cache_persistence (K : Constants) (X : Collaborators) (cfg : Config) :
  (∀ packet_id main_bco_list st row,
     channel_valid K row = true →
     row_fee row
     ∈ dom (m_fee_bco_matching_map
              (process_waveform K X cfg packet_id main_bco_list st row)))
  ∧ (∀ events st,
       dom (m_fee_bco_matching_map st)
       ⊆ dom (m_fee_bco_matching_map (run K X cfg events st))).
Proof.
  split.
  - intros packet_id main_bco_list st row V.
    destruct (process_waveform_valid K X cfg packet_id main_bco_list st row V)
      as (_ & _ & E & _).
    cbv zeta in E. rewrite E. apply match_bco_dom.
  - intros events. induction events as [|event events IH]; intros st; [done|].
    simpl run. etrans; [|apply IH].
    destruct (Z.le_gt_cases 8 (getEvtType event)) as [T|T].
    { by rewrite process_event_discard. }
    destruct (process_event_fields K X cfg event st)
      as (_ & _ & _ & _ & E & _); [lia|].
    cbv zeta in E. rewrite E.
    apply (packets_invariant K X cfg
             (λ s, dom (m_fee_bco_matching_map st)
                   ⊆ dom (m_fee_bco_matching_map s))).
    + by intros s s' (_ & -> & _).
    + done.
    + done.
    + intros packet_id main_bco_list s row H.
      destruct (channel_valid K row) eqn:V.
      * destruct (process_waveform_valid K X cfg packet_id main_bco_list s row V)
          as (_ & _ & E' & _).
        cbv zeta in E'. rewrite E'. etrans; [exact H|apply match_bco_dom].
      * destruct (process_waveform_skip K X cfg packet_id main_bco_list s row V)
          as (_ & E' & _).
        cbv zeta in E'. by rewrite E'.
    + done.
Qed.
